(** * ScreenMe: the screenshot display surface

    A shallow embedding of [src/screenshotdisplay.cpp]: the widget that
    owns the captured image, the annotation layer, the selection
    rectangle with its eight handles, the drawing/text tools and the undo
    stack.

    Conventions.
    - C++ [int] coordinates are modelled as [Z].  Signed overflow is
      undefined behaviour in C++, so the model covers the defined runs;
      integer division [/] is truncating division [Z.quot].
    - The Qt value classes the widget computes with ([QPoint], [QSize],
      [QRect]) are modelled after their Qt definitions: a [QRect] stores
      its two corner points inclusively, so [width = x2 - x1 + 1].
    - Qt's rasteriser, font metrics and floating-point trigonometry are
      an interface ([QtPaintEngine]); the widget's code is written against
      it, as the source is written against [QPainter]. *)

From Stdlib Require Import ZArith List String Ascii Bool Lia DecimalString.
Import ListNotations.
Local Open Scope Z_scope.

(** ** Qt geometry *)

Module QPoint.

Record t : Type := mk { x : Z; y : Z }.

(** [operator+] and [operator-] on points. *)
Definition add (p q : t) : t := mk (x p + x q) (y p + y q).
Definition sub (p q : t) : t := mk (x p - x q) (y p - y q).

Definition setY (v : Z) (p : t) : t := mk (x p) v.

End QPoint.

Module QSize.

Record t : Type := mk { width : Z; height : Z }.

(** [QSize()]: the default-constructed size is the invalid size (-1, -1). *)
Definition invalid : t := mk (-1) (-1).

End QSize.

Module QRect.

(** Qt keeps the left/top and the right/bottom coordinates, both
    inclusive. *)
Record t : Type := mk { x1 : Z; y1 : Z; x2 : Z; y2 : Z }.

(** [QRect()]: the null rectangle (0,0,-1,-1). *)
Definition null : t := mk 0 0 (-1) (-1).

(** [QRect(const QPoint &topLeft, const QSize &size)]. *)
Definition of_point_size (p : QPoint.t) (s : QSize.t) : t :=
  mk (QPoint.x p) (QPoint.y p)
     (QPoint.x p + QSize.width s - 1) (QPoint.y p + QSize.height s - 1).

(** [QRect(const QPoint &topLeft, const QPoint &bottomRight)]. *)
Definition of_points (p q : QPoint.t) : t :=
  mk (QPoint.x p) (QPoint.y p) (QPoint.x q) (QPoint.y q).

Definition width (r : t) : Z := x2 r - x1 r + 1.
Definition height (r : t) : Z := y2 r - y1 r + 1.

Definition topLeft (r : t) : QPoint.t := QPoint.mk (x1 r) (y1 r).
Definition topRight (r : t) : QPoint.t := QPoint.mk (x2 r) (y1 r).
Definition bottomLeft (r : t) : QPoint.t := QPoint.mk (x1 r) (y2 r).
Definition bottomRight (r : t) : QPoint.t := QPoint.mk (x2 r) (y2 r).

Definition isNull (r : t) : bool := (x2 r =? x1 r - 1) && (y2 r =? y1 r - 1).
Definition isEmpty (r : t) : bool := (x2 r <? x1 r) || (y2 r <? y1 r).
Definition isValid (r : t) : bool := (x1 r <=? x2 r) && (y1 r <=? y2 r).

Definition translated (d : QPoint.t) (r : t) : t :=
  mk (x1 r + QPoint.x d) (y1 r + QPoint.y d)
     (x2 r + QPoint.x d) (y2 r + QPoint.y d).

(** [QRect::contains(const QPoint &p, bool proper = false)]: a rectangle
    of negative width or height is read with its sides swapped. *)
Definition contains (r : t) (p : QPoint.t) : bool :=
  let l := if x2 r <? x1 r - 1 then x2 r else x1 r in
  let rr := if x2 r <? x1 r - 1 then x1 r else x2 r in
  if (QPoint.x p <? l) || (rr <? QPoint.x p) then false
  else
    let tp := if y2 r <? y1 r - 1 then y2 r else y1 r in
    let b := if y2 r <? y1 r - 1 then y1 r else y2 r in
    if (QPoint.y p <? tp) || (b <? QPoint.y p) then false else true.

(** [QRect::normalized()], as Qt 5 has it and as its documentation says:
    "if width() < 0 the function swaps the left and right corners, and it
    swaps the top and bottom corners if height() < 0". *)
Definition normalized (r : t) : t :=
  let xs := if x2 r <? x1 r - 1 then (x2 r, x1 r) else (x1 r, x2 r) in
  let ys := if y2 r <? y1 r - 1 then (y2 r, y1 r) else (y1 r, y2 r) in
  mk (fst xs) (fst ys) (snd xs) (snd ys).

(** [QRect::normalized()] as Qt 6 has it: sides in the wrong order are
    swapped and moved one pixel inward, which keeps the extent. *)
Definition normalized_qt6 (r : t) : t :=
  let xs := if x2 r <? x1 r then (x2 r + 1, x1 r - 1) else (x1 r, x2 r) in
  let ys := if y2 r <? y1 r then (y2 r + 1, y1 r - 1) else (y1 r, y2 r) in
  mk (fst xs) (fst ys) (snd xs) (snd ys).

(** [QRect::intersected] ([operator&]). *)
Definition intersected (a b : t) : t :=
  if isNull a || isNull b then null
  else
    let l1 := if width a <? 0 then x2 a else x1 a in
    let r1 := if width a <? 0 then x1 a else x2 a in
    let l2 := if width b <? 0 then x2 b else x1 b in
    let r2 := if width b <? 0 then x1 b else x2 b in
    if (r2 <? l1) || (r1 <? l2) then null
    else
      let t1 := if height a <? 0 then y2 a else y1 a in
      let b1 := if height a <? 0 then y1 a else y2 a in
      let t2 := if height b <? 0 then y2 b else y1 b in
      let b2 := if height b <? 0 then y1 b else y2 b in
      if (b2 <? t1) || (b1 <? t2) then null
      else mk (Z.max l1 l2) (Z.max t1 t2) (Z.min r1 r2) (Z.min b1 b2).

(** Setters: each moves one side or one corner and leaves the opposite
    one where it is. *)
Definition setLeft (v : Z) (r : t) : t := mk v (y1 r) (x2 r) (y2 r).
Definition setTop (v : Z) (r : t) : t := mk (x1 r) v (x2 r) (y2 r).
Definition setRight (v : Z) (r : t) : t := mk (x1 r) (y1 r) v (y2 r).
Definition setBottom (v : Z) (r : t) : t := mk (x1 r) (y1 r) (x2 r) v.
Definition setTopLeft (p : QPoint.t) (r : t) : t :=
  mk (QPoint.x p) (QPoint.y p) (x2 r) (y2 r).
Definition setTopRight (p : QPoint.t) (r : t) : t :=
  mk (x1 r) (QPoint.y p) (QPoint.x p) (y2 r).
Definition setBottomLeft (p : QPoint.t) (r : t) : t :=
  mk (QPoint.x p) (y1 r) (x2 r) (QPoint.y p).
Definition setBottomRight (p : QPoint.t) (r : t) : t :=
  mk (x1 r) (y1 r) (QPoint.x p) (QPoint.y p).

(** [moveTopLeft]: moves the rectangle, keeping its size. *)
Definition moveTopLeft (p : QPoint.t) (r : t) : t :=
  mk (QPoint.x p) (QPoint.y p)
     (x2 r + (QPoint.x p - x1 r)) (y2 r + (QPoint.y p - y1 r)).

End QRect.

(** ** The selection handles *)

Module HandlePosition.

(** [ScreenshotDisplay::HandlePosition]. *)
Inductive t : Type :=
| None | TopLeft | TopRight | BottomLeft | BottomRight
| Top | Bottom | Left | Right.

Definition eqb (a b : t) : bool :=
  match a, b with
  | None, None | TopLeft, TopLeft | TopRight, TopRight
  | BottomLeft, BottomLeft | BottomRight, BottomRight
  | Top, Top | Bottom, Bottom | Left, Left | Right, Right => true
  | _, _ => false
  end.

End HandlePosition.

(** [ScreenshotDisplay::handleAtPoint], as a function of the selection
    rectangle and the point. *)
Definition handleAtPoint (selectionRect : QRect.t) (point : QPoint.t)
  : HandlePosition.t :=
  let handleSize := 20 in
  let handleRect :=
    QRect.of_point_size (QPoint.mk 0 0) (QSize.mk handleSize handleSize) in
  if QRect.contains (QRect.translated (QRect.topLeft selectionRect) handleRect) point
  then HandlePosition.TopLeft
  else if QRect.contains (QRect.translated (QRect.topRight selectionRect) handleRect) point
  then HandlePosition.TopRight
  else if QRect.contains (QRect.translated (QRect.bottomLeft selectionRect) handleRect) point
  then HandlePosition.BottomLeft
  else if QRect.contains (QRect.translated (QRect.bottomRight selectionRect) handleRect) point
  then HandlePosition.BottomRight
  else if QRect.contains
            (QRect.translated
               (QPoint.add (QRect.topLeft selectionRect)
                  (QPoint.mk (Z.quot (QRect.width selectionRect) 2) 0))
               handleRect) point
  then HandlePosition.Top
  else if QRect.contains
            (QRect.translated
               (QPoint.add (QRect.bottomLeft selectionRect)
                  (QPoint.mk (Z.quot (QRect.width selectionRect) 2) 0))
               handleRect) point
  then HandlePosition.Bottom
  else if QRect.contains
            (QRect.translated
               (QPoint.add (QRect.topLeft selectionRect)
                  (QPoint.mk 0 (Z.quot (QRect.height selectionRect) 2)))
               handleRect) point
  then HandlePosition.Left
  else if QRect.contains
            (QRect.translated
               (QPoint.add (QRect.topRight selectionRect)
                  (QPoint.mk 0 (Z.quot (QRect.height selectionRect) 2)))
               handleRect) point
  then HandlePosition.Right
  else HandlePosition.None.


(** ** Tools, colours, fonts, pens *)

Module Editor.

(** [Editor::Tool], as the display uses it. *)
Inductive Tool : Type :=
| None | Pen | Rectangle | Ellipse | Line | Arrow | Text.

Definition tool_eqb (a b : Tool) : bool :=
  match a, b with
  | None, None | Pen, Pen | Rectangle, Rectangle | Ellipse, Ellipse
  | Line, Line | Arrow, Arrow | Text, Text => true
  | _, _ => false
  end.

(** Modelled from the spec: the toolbar widget [Editor] (its header and
    source are not part of the sources at hand).  The display only reads
    its current tool and colour, shows, hides and moves it, and asks it to
    deselect its tools; per the spec it is the collaborator that "merely
    emits tool-selection events". *)
Record t : Type := mk {
  tool : Tool;
  color : Z;
  hidden : bool;
  pos : QPoint.t
}.

Definition getCurrentTool (e : t) : Tool := tool e.
Definition getCurrentColor (e : t) : Z := color e.
Definition isHidden (e : t) : bool := hidden e.
Definition deselectTools (e : t) : t := mk None (color e) (hidden e) (pos e).
Definition selectTool (tl : Tool) (e : t) : t := mk tl (color e) (hidden e) (pos e).
Definition show (e : t) : t := mk (tool e) (color e) false (pos e).
Definition hide (e : t) : t := mk (tool e) (color e) true (pos e).
Definition move (p : QPoint.t) (e : t) : t := mk (tool e) (color e) (hidden e) p.

End Editor.

(** A colour is its [QRgb] value (0xAARRGGBB); 0 is [Qt::transparent]. *)
Definition QColor : Type := Z.
Definition Qt_transparent : QColor := 0.
Definition Qt_black : QColor := 4278190080.
Definition Qt_red : QColor := 4294901760.

Record QFont : Type := mkFont { family : string; pointSize : Z }.

Inductive PenStyle : Type := SolidLine | DashLine.
Inductive PenCapStyle : Type := SquareCap | RoundCap.
Inductive PenJoinStyle : Type := BevelJoin | RoundJoin.

Record QPen : Type := mkPen {
  pen_color : QColor;
  pen_width : Z;
  pen_style : PenStyle;
  pen_cap : PenCapStyle;
  pen_join : PenJoinStyle
}.

(** [QPen(color)]: width 1, solid, square cap, bevel join. *)
Definition QPen_of_color (c : QColor) : QPen :=
  mkPen c 1 SolidLine SquareCap BevelJoin.
(** [QPen(color, width, style)]. *)
Definition QPen_of (c : QColor) (w : Z) (s : PenStyle) : QPen :=
  mkPen c w s SquareCap BevelJoin.

Inductive QBrush : Type := NoBrush | SolidBrush (c : QColor).

Inductive CursorShape : Type :=
| ArrowCursor | CrossCursor | SizeFDiagCursor | SizeBDiagCursor
| SizeVerCursor | SizeHorCursor.

Inductive Key : Type := Key_Escape | Key_C | Key_Z | Key_other (code : Z).

(** ** Pixmaps *)

(** A pixmap is a [pwidth] x [pheight] grid of [QRgb] values.  [QPixmap]
    is a value class (implicitly shared, copy on write): assigning or
    pushing one copies it. *)
Record QPixmap : Type := mkPixmap {
  pwidth : Z;
  pheight : Z;
  pixel : Z -> Z -> QColor
}.

Definition QPixmap_null : QPixmap := mkPixmap 0 0 (fun _ _ => 0).

Definition QPixmap_isNull (pm : QPixmap) : bool :=
  (pwidth pm <=? 0) || (pheight pm <=? 0).

(** [QPixmap(size)] followed by [fill(Qt::transparent)]. *)
Definition QPixmap_transparent (w h : Z) : QPixmap :=
  mkPixmap w h (fun _ _ => Qt_transparent).

Definition QPixmap_rect (pm : QPixmap) : QRect.t :=
  QRect.mk 0 0 (pwidth pm - 1) (pheight pm - 1).

(** [QPixmap::copy(const QRect &rect)]: the part of the pixmap inside
    [rect]; an empty [rect] means the whole pixmap, and the rectangle is
    clipped to the pixmap first. *)
Definition QPixmap_copy (rect : QRect.t) (pm : QPixmap) : QPixmap :=
  if QPixmap_isNull pm then QPixmap_null
  else
    let r := if QRect.isEmpty rect then QPixmap_rect pm
             else QRect.intersected (QPixmap_rect pm) rect in
    if QRect.isEmpty r then QPixmap_null
    else mkPixmap (QRect.width r) (QRect.height r)
           (fun i j => pixel pm (QRect.x1 r + i) (QRect.y1 r + j)).

(** ** The painter interface *)

(** The calls the display makes on a [QPainter]. *)
Inductive PaintCmd : Type :=
| SetPen (p : QPen)
| SetBrush (b : QBrush)
| SetFont (f : QFont)
| DrawPixmap (x y : Z) (pm : QPixmap)
| DrawLine (p q : QPoint.t)
| DrawRect (r : QRect.t)
| DrawEllipse (r : QRect.t)
| DrawEllipseAt (c : QPoint.t) (rx ry : Z)
| DrawPolygon (pts : list QPoint.t)
| DrawPath
| DrawText (p : QPoint.t) (s : string)
| DrawTextIn (r : QRect.t) (s : string).

Record PainterState : Type := mkPainter {
  p_pen : QPen;
  p_brush : QBrush;
  p_font : QFont
}.

(** A fresh [QPainter]: black 1-wide pen, no brush, the default font. *)
Definition QPainter_begin : PainterState :=
  mkPainter (QPen_of_color Qt_black) NoBrush (mkFont "" 12).

(** What the widget takes from Qt and the C++ runtime: the rasteriser
    behind [QPainter], per-pixel source-over blending, [QFontMetrics], and
    [double] arithmetic with [std::atan2], [std::cos] and [std::sin]. *)
Class QtPaintEngine : Type := {
  (** one stroked or filled primitive (any command but the setters and
      [DrawPixmap]) painted into a pixmap *)
  rasterize : PainterState -> PaintCmd -> QPixmap -> QPixmap;
  (** source-over composition of one pixel: [blend src dst] *)
  blend : QColor -> QColor -> QColor;
  fm_ascent : QFont -> Z;
  fm_height : QFont -> Z;
  fm_horizontalAdvance : QFont -> string -> Z;
  fm_size : QFont -> string -> QSize.t;
  double : Type;
  d_of_int : Z -> double;
  (** conversion [double -> int] *)
  d_to_int : double -> Z;
  d_add : double -> double -> double;
  d_sub : double -> double -> double;
  d_mul : double -> double -> double;
  d_div : double -> double -> double;
  d_atan2 : double -> double -> double;
  d_cos : double -> double;
  d_sin : double -> double;
  M_PI : double
}.

(** ** The widget state *)

(** The in-place [QTextEdit] of a text session. *)
Record QTextEdit : Type := mkTextEdit {
  te_font : QFont;
  te_textColor : QColor;
  te_plainText : string;
  te_pos : QPoint.t;
  te_fixedWidth : option Z
}.

(** The members of [ScreenshotDisplay], followed by what the widget does
    to its surroundings: whether it is shown, how often it has emitted
    [screenshotClosed], the clipboard, the files written and the tool tip
    shown.  [undoStack] has its top at the head. *)
Record ScreenshotDisplay : Type := mkDisplay {
  originalPixmap : QPixmap;
  drawingPixmap : QPixmap;
  selectionRect : QRect.t;
  selectionStarted : bool;
  movingSelection : bool;
  currentHandle : HandlePosition.t;
  handleOffset : QPoint.t;
  selectionOffset : QPoint.t;
  origin : QPoint.t;
  drawing : bool;
  shapeDrawing : bool;
  lastPoint : QPoint.t;
  drawingEnd : QPoint.t;
  currentShapeRect : QRect.t;
  currentColor : QColor;
  currentTool : Editor.Tool;
  borderWidth : Z;
  currentFont : QFont;
  text : string;
  textBoundingRect : QRect.t;
  textEdit : option QTextEdit;
  textEditPosition : QPoint.t;
  undoStack : list QPixmap;
  editor : Editor.t;
  cursor : CursorShape;
  cursorPosition : QPoint.t;
  visible : bool;
  screenshotClosed : nat;
  clipboard : option QPixmap;
  savedFiles : list (string * QPixmap);
  toolTip : option (QPoint.t * string)
}.

(** Assignments to one member. *)
Definition set_drawingPixmap (v : QPixmap) (s : ScreenshotDisplay)
  : ScreenshotDisplay :=
  mkDisplay (originalPixmap s) v (selectionRect s) (selectionStarted s)
    (movingSelection s) (currentHandle s) (handleOffset s) (selectionOffset
    s) (origin s) (drawing s) (shapeDrawing s) (lastPoint s) (drawingEnd s)
    (currentShapeRect s) (currentColor s) (currentTool s) (borderWidth s)
    (currentFont s) (text s) (textBoundingRect s) (textEdit s)
    (textEditPosition s) (undoStack s) (editor s) (cursor s) (cursorPosition
    s) (visible s) (screenshotClosed s) (clipboard s) (savedFiles s)
    (toolTip s).
Definition set_selectionRect (v : QRect.t) (s : ScreenshotDisplay)
  : ScreenshotDisplay :=
  mkDisplay (originalPixmap s) (drawingPixmap s) v (selectionStarted s)
    (movingSelection s) (currentHandle s) (handleOffset s) (selectionOffset
    s) (origin s) (drawing s) (shapeDrawing s) (lastPoint s) (drawingEnd s)
    (currentShapeRect s) (currentColor s) (currentTool s) (borderWidth s)
    (currentFont s) (text s) (textBoundingRect s) (textEdit s)
    (textEditPosition s) (undoStack s) (editor s) (cursor s) (cursorPosition
    s) (visible s) (screenshotClosed s) (clipboard s) (savedFiles s)
    (toolTip s).
Definition set_selectionStarted (v : bool) (s : ScreenshotDisplay)
  : ScreenshotDisplay :=
  mkDisplay (originalPixmap s) (drawingPixmap s) (selectionRect s) v
    (movingSelection s) (currentHandle s) (handleOffset s) (selectionOffset
    s) (origin s) (drawing s) (shapeDrawing s) (lastPoint s) (drawingEnd s)
    (currentShapeRect s) (currentColor s) (currentTool s) (borderWidth s)
    (currentFont s) (text s) (textBoundingRect s) (textEdit s)
    (textEditPosition s) (undoStack s) (editor s) (cursor s) (cursorPosition
    s) (visible s) (screenshotClosed s) (clipboard s) (savedFiles s)
    (toolTip s).
Definition set_movingSelection (v : bool) (s : ScreenshotDisplay)
  : ScreenshotDisplay :=
  mkDisplay (originalPixmap s) (drawingPixmap s) (selectionRect s)
    (selectionStarted s) v (currentHandle s) (handleOffset s)
    (selectionOffset s) (origin s) (drawing s) (shapeDrawing s) (lastPoint
    s) (drawingEnd s) (currentShapeRect s) (currentColor s) (currentTool s)
    (borderWidth s) (currentFont s) (text s) (textBoundingRect s) (textEdit
    s) (textEditPosition s) (undoStack s) (editor s) (cursor s)
    (cursorPosition s) (visible s) (screenshotClosed s) (clipboard s)
    (savedFiles s) (toolTip s).
Definition set_currentHandle (v : HandlePosition.t) (s : ScreenshotDisplay)
  : ScreenshotDisplay :=
  mkDisplay (originalPixmap s) (drawingPixmap s) (selectionRect s)
    (selectionStarted s) (movingSelection s) v (handleOffset s)
    (selectionOffset s) (origin s) (drawing s) (shapeDrawing s) (lastPoint
    s) (drawingEnd s) (currentShapeRect s) (currentColor s) (currentTool s)
    (borderWidth s) (currentFont s) (text s) (textBoundingRect s) (textEdit
    s) (textEditPosition s) (undoStack s) (editor s) (cursor s)
    (cursorPosition s) (visible s) (screenshotClosed s) (clipboard s)
    (savedFiles s) (toolTip s).
Definition set_handleOffset (v : QPoint.t) (s : ScreenshotDisplay)
  : ScreenshotDisplay :=
  mkDisplay (originalPixmap s) (drawingPixmap s) (selectionRect s)
    (selectionStarted s) (movingSelection s) (currentHandle s) v
    (selectionOffset s) (origin s) (drawing s) (shapeDrawing s) (lastPoint
    s) (drawingEnd s) (currentShapeRect s) (currentColor s) (currentTool s)
    (borderWidth s) (currentFont s) (text s) (textBoundingRect s) (textEdit
    s) (textEditPosition s) (undoStack s) (editor s) (cursor s)
    (cursorPosition s) (visible s) (screenshotClosed s) (clipboard s)
    (savedFiles s) (toolTip s).
Definition set_selectionOffset (v : QPoint.t) (s : ScreenshotDisplay)
  : ScreenshotDisplay :=
  mkDisplay (originalPixmap s) (drawingPixmap s) (selectionRect s)
    (selectionStarted s) (movingSelection s) (currentHandle s) (handleOffset
    s) v (origin s) (drawing s) (shapeDrawing s) (lastPoint s) (drawingEnd
    s) (currentShapeRect s) (currentColor s) (currentTool s) (borderWidth s)
    (currentFont s) (text s) (textBoundingRect s) (textEdit s)
    (textEditPosition s) (undoStack s) (editor s) (cursor s) (cursorPosition
    s) (visible s) (screenshotClosed s) (clipboard s) (savedFiles s)
    (toolTip s).
Definition set_origin (v : QPoint.t) (s : ScreenshotDisplay)
  : ScreenshotDisplay :=
  mkDisplay (originalPixmap s) (drawingPixmap s) (selectionRect s)
    (selectionStarted s) (movingSelection s) (currentHandle s) (handleOffset
    s) (selectionOffset s) v (drawing s) (shapeDrawing s) (lastPoint s)
    (drawingEnd s) (currentShapeRect s) (currentColor s) (currentTool s)
    (borderWidth s) (currentFont s) (text s) (textBoundingRect s) (textEdit
    s) (textEditPosition s) (undoStack s) (editor s) (cursor s)
    (cursorPosition s) (visible s) (screenshotClosed s) (clipboard s)
    (savedFiles s) (toolTip s).
Definition set_drawing (v : bool) (s : ScreenshotDisplay)
  : ScreenshotDisplay :=
  mkDisplay (originalPixmap s) (drawingPixmap s) (selectionRect s)
    (selectionStarted s) (movingSelection s) (currentHandle s) (handleOffset
    s) (selectionOffset s) (origin s) v (shapeDrawing s) (lastPoint s)
    (drawingEnd s) (currentShapeRect s) (currentColor s) (currentTool s)
    (borderWidth s) (currentFont s) (text s) (textBoundingRect s) (textEdit
    s) (textEditPosition s) (undoStack s) (editor s) (cursor s)
    (cursorPosition s) (visible s) (screenshotClosed s) (clipboard s)
    (savedFiles s) (toolTip s).
Definition set_shapeDrawing (v : bool) (s : ScreenshotDisplay)
  : ScreenshotDisplay :=
  mkDisplay (originalPixmap s) (drawingPixmap s) (selectionRect s)
    (selectionStarted s) (movingSelection s) (currentHandle s) (handleOffset
    s) (selectionOffset s) (origin s) (drawing s) v (lastPoint s)
    (drawingEnd s) (currentShapeRect s) (currentColor s) (currentTool s)
    (borderWidth s) (currentFont s) (text s) (textBoundingRect s) (textEdit
    s) (textEditPosition s) (undoStack s) (editor s) (cursor s)
    (cursorPosition s) (visible s) (screenshotClosed s) (clipboard s)
    (savedFiles s) (toolTip s).
Definition set_lastPoint (v : QPoint.t) (s : ScreenshotDisplay)
  : ScreenshotDisplay :=
  mkDisplay (originalPixmap s) (drawingPixmap s) (selectionRect s)
    (selectionStarted s) (movingSelection s) (currentHandle s) (handleOffset
    s) (selectionOffset s) (origin s) (drawing s) (shapeDrawing s) v
    (drawingEnd s) (currentShapeRect s) (currentColor s) (currentTool s)
    (borderWidth s) (currentFont s) (text s) (textBoundingRect s) (textEdit
    s) (textEditPosition s) (undoStack s) (editor s) (cursor s)
    (cursorPosition s) (visible s) (screenshotClosed s) (clipboard s)
    (savedFiles s) (toolTip s).
Definition set_drawingEnd (v : QPoint.t) (s : ScreenshotDisplay)
  : ScreenshotDisplay :=
  mkDisplay (originalPixmap s) (drawingPixmap s) (selectionRect s)
    (selectionStarted s) (movingSelection s) (currentHandle s) (handleOffset
    s) (selectionOffset s) (origin s) (drawing s) (shapeDrawing s)
    (lastPoint s) v (currentShapeRect s) (currentColor s) (currentTool s)
    (borderWidth s) (currentFont s) (text s) (textBoundingRect s) (textEdit
    s) (textEditPosition s) (undoStack s) (editor s) (cursor s)
    (cursorPosition s) (visible s) (screenshotClosed s) (clipboard s)
    (savedFiles s) (toolTip s).
Definition set_currentShapeRect (v : QRect.t) (s : ScreenshotDisplay)
  : ScreenshotDisplay :=
  mkDisplay (originalPixmap s) (drawingPixmap s) (selectionRect s)
    (selectionStarted s) (movingSelection s) (currentHandle s) (handleOffset
    s) (selectionOffset s) (origin s) (drawing s) (shapeDrawing s)
    (lastPoint s) (drawingEnd s) v (currentColor s) (currentTool s)
    (borderWidth s) (currentFont s) (text s) (textBoundingRect s) (textEdit
    s) (textEditPosition s) (undoStack s) (editor s) (cursor s)
    (cursorPosition s) (visible s) (screenshotClosed s) (clipboard s)
    (savedFiles s) (toolTip s).
Definition set_currentTool (v : Editor.Tool) (s : ScreenshotDisplay)
  : ScreenshotDisplay :=
  mkDisplay (originalPixmap s) (drawingPixmap s) (selectionRect s)
    (selectionStarted s) (movingSelection s) (currentHandle s) (handleOffset
    s) (selectionOffset s) (origin s) (drawing s) (shapeDrawing s)
    (lastPoint s) (drawingEnd s) (currentShapeRect s) (currentColor s) v
    (borderWidth s) (currentFont s) (text s) (textBoundingRect s) (textEdit
    s) (textEditPosition s) (undoStack s) (editor s) (cursor s)
    (cursorPosition s) (visible s) (screenshotClosed s) (clipboard s)
    (savedFiles s) (toolTip s).
Definition set_borderWidth (v : Z) (s : ScreenshotDisplay)
  : ScreenshotDisplay :=
  mkDisplay (originalPixmap s) (drawingPixmap s) (selectionRect s)
    (selectionStarted s) (movingSelection s) (currentHandle s) (handleOffset
    s) (selectionOffset s) (origin s) (drawing s) (shapeDrawing s)
    (lastPoint s) (drawingEnd s) (currentShapeRect s) (currentColor s)
    (currentTool s) v (currentFont s) (text s) (textBoundingRect s)
    (textEdit s) (textEditPosition s) (undoStack s) (editor s) (cursor s)
    (cursorPosition s) (visible s) (screenshotClosed s) (clipboard s)
    (savedFiles s) (toolTip s).
Definition set_currentFont (v : QFont) (s : ScreenshotDisplay)
  : ScreenshotDisplay :=
  mkDisplay (originalPixmap s) (drawingPixmap s) (selectionRect s)
    (selectionStarted s) (movingSelection s) (currentHandle s) (handleOffset
    s) (selectionOffset s) (origin s) (drawing s) (shapeDrawing s)
    (lastPoint s) (drawingEnd s) (currentShapeRect s) (currentColor s)
    (currentTool s) (borderWidth s) v (text s) (textBoundingRect s)
    (textEdit s) (textEditPosition s) (undoStack s) (editor s) (cursor s)
    (cursorPosition s) (visible s) (screenshotClosed s) (clipboard s)
    (savedFiles s) (toolTip s).
Definition set_textEdit (v : option QTextEdit) (s : ScreenshotDisplay)
  : ScreenshotDisplay :=
  mkDisplay (originalPixmap s) (drawingPixmap s) (selectionRect s)
    (selectionStarted s) (movingSelection s) (currentHandle s) (handleOffset
    s) (selectionOffset s) (origin s) (drawing s) (shapeDrawing s)
    (lastPoint s) (drawingEnd s) (currentShapeRect s) (currentColor s)
    (currentTool s) (borderWidth s) (currentFont s) (text s)
    (textBoundingRect s) v (textEditPosition s) (undoStack s) (editor s)
    (cursor s) (cursorPosition s) (visible s) (screenshotClosed s)
    (clipboard s) (savedFiles s) (toolTip s).
Definition set_textEditPosition (v : QPoint.t) (s : ScreenshotDisplay)
  : ScreenshotDisplay :=
  mkDisplay (originalPixmap s) (drawingPixmap s) (selectionRect s)
    (selectionStarted s) (movingSelection s) (currentHandle s) (handleOffset
    s) (selectionOffset s) (origin s) (drawing s) (shapeDrawing s)
    (lastPoint s) (drawingEnd s) (currentShapeRect s) (currentColor s)
    (currentTool s) (borderWidth s) (currentFont s) (text s)
    (textBoundingRect s) (textEdit s) v (undoStack s) (editor s) (cursor s)
    (cursorPosition s) (visible s) (screenshotClosed s) (clipboard s)
    (savedFiles s) (toolTip s).
Definition set_undoStack (v : list QPixmap) (s : ScreenshotDisplay)
  : ScreenshotDisplay :=
  mkDisplay (originalPixmap s) (drawingPixmap s) (selectionRect s)
    (selectionStarted s) (movingSelection s) (currentHandle s) (handleOffset
    s) (selectionOffset s) (origin s) (drawing s) (shapeDrawing s)
    (lastPoint s) (drawingEnd s) (currentShapeRect s) (currentColor s)
    (currentTool s) (borderWidth s) (currentFont s) (text s)
    (textBoundingRect s) (textEdit s) (textEditPosition s) v (editor s)
    (cursor s) (cursorPosition s) (visible s) (screenshotClosed s)
    (clipboard s) (savedFiles s) (toolTip s).
Definition set_editor (v : Editor.t) (s : ScreenshotDisplay)
  : ScreenshotDisplay :=
  mkDisplay (originalPixmap s) (drawingPixmap s) (selectionRect s)
    (selectionStarted s) (movingSelection s) (currentHandle s) (handleOffset
    s) (selectionOffset s) (origin s) (drawing s) (shapeDrawing s)
    (lastPoint s) (drawingEnd s) (currentShapeRect s) (currentColor s)
    (currentTool s) (borderWidth s) (currentFont s) (text s)
    (textBoundingRect s) (textEdit s) (textEditPosition s) (undoStack s) v
    (cursor s) (cursorPosition s) (visible s) (screenshotClosed s)
    (clipboard s) (savedFiles s) (toolTip s).
Definition set_cursor (v : CursorShape) (s : ScreenshotDisplay)
  : ScreenshotDisplay :=
  mkDisplay (originalPixmap s) (drawingPixmap s) (selectionRect s)
    (selectionStarted s) (movingSelection s) (currentHandle s) (handleOffset
    s) (selectionOffset s) (origin s) (drawing s) (shapeDrawing s)
    (lastPoint s) (drawingEnd s) (currentShapeRect s) (currentColor s)
    (currentTool s) (borderWidth s) (currentFont s) (text s)
    (textBoundingRect s) (textEdit s) (textEditPosition s) (undoStack s)
    (editor s) v (cursorPosition s) (visible s) (screenshotClosed s)
    (clipboard s) (savedFiles s) (toolTip s).
Definition set_visible (v : bool) (s : ScreenshotDisplay)
  : ScreenshotDisplay :=
  mkDisplay (originalPixmap s) (drawingPixmap s) (selectionRect s)
    (selectionStarted s) (movingSelection s) (currentHandle s) (handleOffset
    s) (selectionOffset s) (origin s) (drawing s) (shapeDrawing s)
    (lastPoint s) (drawingEnd s) (currentShapeRect s) (currentColor s)
    (currentTool s) (borderWidth s) (currentFont s) (text s)
    (textBoundingRect s) (textEdit s) (textEditPosition s) (undoStack s)
    (editor s) (cursor s) (cursorPosition s) v (screenshotClosed s)
    (clipboard s) (savedFiles s) (toolTip s).
Definition set_screenshotClosed (v : nat) (s : ScreenshotDisplay)
  : ScreenshotDisplay :=
  mkDisplay (originalPixmap s) (drawingPixmap s) (selectionRect s)
    (selectionStarted s) (movingSelection s) (currentHandle s) (handleOffset
    s) (selectionOffset s) (origin s) (drawing s) (shapeDrawing s)
    (lastPoint s) (drawingEnd s) (currentShapeRect s) (currentColor s)
    (currentTool s) (borderWidth s) (currentFont s) (text s)
    (textBoundingRect s) (textEdit s) (textEditPosition s) (undoStack s)
    (editor s) (cursor s) (cursorPosition s) (visible s) v (clipboard s)
    (savedFiles s) (toolTip s).
Definition set_clipboard (v : option QPixmap) (s : ScreenshotDisplay)
  : ScreenshotDisplay :=
  mkDisplay (originalPixmap s) (drawingPixmap s) (selectionRect s)
    (selectionStarted s) (movingSelection s) (currentHandle s) (handleOffset
    s) (selectionOffset s) (origin s) (drawing s) (shapeDrawing s)
    (lastPoint s) (drawingEnd s) (currentShapeRect s) (currentColor s)
    (currentTool s) (borderWidth s) (currentFont s) (text s)
    (textBoundingRect s) (textEdit s) (textEditPosition s) (undoStack s)
    (editor s) (cursor s) (cursorPosition s) (visible s) (screenshotClosed
    s) v (savedFiles s) (toolTip s).
Definition set_savedFiles (v : list (string * QPixmap)) (s : ScreenshotDisplay)
  : ScreenshotDisplay :=
  mkDisplay (originalPixmap s) (drawingPixmap s) (selectionRect s)
    (selectionStarted s) (movingSelection s) (currentHandle s) (handleOffset
    s) (selectionOffset s) (origin s) (drawing s) (shapeDrawing s)
    (lastPoint s) (drawingEnd s) (currentShapeRect s) (currentColor s)
    (currentTool s) (borderWidth s) (currentFont s) (text s)
    (textBoundingRect s) (textEdit s) (textEditPosition s) (undoStack s)
    (editor s) (cursor s) (cursorPosition s) (visible s) (screenshotClosed
    s) (clipboard s) v (toolTip s).
Definition set_toolTip (v : option (QPoint.t * string)) (s : ScreenshotDisplay)
  : ScreenshotDisplay :=
  mkDisplay (originalPixmap s) (drawingPixmap s) (selectionRect s)
    (selectionStarted s) (movingSelection s) (currentHandle s) (handleOffset
    s) (selectionOffset s) (origin s) (drawing s) (shapeDrawing s)
    (lastPoint s) (drawingEnd s) (currentShapeRect s) (currentColor s)
    (currentTool s) (borderWidth s) (currentFont s) (text s)
    (textBoundingRect s) (textEdit s) (textEditPosition s) (undoStack s)
    (editor s) (cursor s) (cursorPosition s) (visible s) (screenshotClosed
    s) (clipboard s) (savedFiles s) v.

Notation "s |> f" := (f s) (at level 50, left associativity, only parsing).

(** ** Painting into a pixmap *)

Section Widget.

Context {engine : QtPaintEngine}.

(** [QPainter::drawPixmap(x, y, src)] on a pixmap [dst]: [src] is
    composed over [dst], pixel by pixel, where the two overlap. *)
Definition drawPixmapOnto (x y : Z) (src dst : QPixmap) : QPixmap :=
  mkPixmap (pwidth dst) (pheight dst)
    (fun i j =>
       if (0 <=? i - x) && (i - x <? pwidth src)
          && (0 <=? j - y) && (j - y <? pheight src)
       then blend (pixel src (i - x) (j - y)) (pixel dst i j)
       else pixel dst i j).

(** A sequence of painter calls applied to the pixmap the painter was
    opened on. *)
Fixpoint runPainter (cmds : list PaintCmd) (ps : PainterState) (pm : QPixmap)
  : QPixmap :=
  match cmds with
  | [] => pm
  | SetPen p :: rest => runPainter rest (mkPainter p (p_brush ps) (p_font ps)) pm
  | SetBrush b :: rest => runPainter rest (mkPainter (p_pen ps) b (p_font ps)) pm
  | SetFont f :: rest => runPainter rest (mkPainter (p_pen ps) (p_brush ps) f) pm
  | DrawPixmap x y src :: rest => runPainter rest ps (drawPixmapOnto x y src pm)
  | c :: rest => runPainter rest ps (rasterize ps c pm)
  end.

(** [QPainter painter(&pm); ...]. *)
Definition paintOn (pm : QPixmap) (cmds : list PaintCmd) : QPixmap :=
  runPainter cmds QPainter_begin pm.

(** ** Strings *)

Definition newline : Ascii.ascii := Ascii.ascii_of_nat 10.
Definition space : Ascii.ascii := Ascii.ascii_of_nat 32.

(** [QString::split('\n')], keeping empty parts. *)
Fixpoint split_lines (s : string) : list string :=
  match s with
  | EmptyString => [EmptyString]
  | String c rest =>
      if Ascii.eqb c newline then EmptyString :: split_lines rest
      else match split_lines rest with
           | [] => [String c EmptyString]
           | l :: ls => String c l :: ls
           end
  end.

(** [QString::replace('\n', ' ')]. *)
Fixpoint replace_newlines (s : string) : string :=
  match s with
  | EmptyString => EmptyString
  | String c rest =>
      String (if Ascii.eqb c newline then space else c) (replace_newlines rest)
  end.

(** [QString::arg(int)] of a decimal number. *)
Definition number (z : Z) : string :=
  DecimalString.NilEmpty.string_of_int (Z.to_int z).

(** ** The undo stack *)

(** [ScreenshotDisplay::saveStateForUndo]. *)
Definition saveStateForUndo (s : ScreenshotDisplay) : ScreenshotDisplay :=
  s |> set_undoStack (drawingPixmap s :: undoStack s).

(** [ScreenshotDisplay::undo] (the request for a repaint leaves no trace
    in the state). *)
Definition undo (s : ScreenshotDisplay) : ScreenshotDisplay :=
  match undoStack s with
  | [] => s
  | top :: rest => s |> set_drawingPixmap top |> set_undoStack rest
  end.

(** ** Selection helpers *)

(** [ScreenshotDisplay::updateTooltip]; the position is kept in widget
    coordinates. *)
Definition updateTooltip (s : ScreenshotDisplay) : ScreenshotDisplay :=
  if QRect.isValid (selectionRect s) then
    let tooltipText :=
      ("Size: " ++ number (QRect.width (selectionRect s)) ++ " x "
         ++ number (QRect.height (selectionRect s)))%string in
    let tooltipPosition :=
      QPoint.add (QRect.topRight (selectionRect s)) (QPoint.mk 10 (-20)) in
    s |> set_toolTip (Some (tooltipPosition, tooltipText))
  else s.

(** [ScreenshotDisplay::updateEditorPosition]. *)
Definition updateEditorPosition (s : ScreenshotDisplay) : ScreenshotDisplay :=
  if QRect.isValid (selectionRect s) then
    let margin := 10 in
    s |> set_editor
           (Editor.move
              (QPoint.add (QRect.topRight (selectionRect s)) (QPoint.mk margin margin))
              (editor s))
  else s.

(** [ScreenshotDisplay::cursorForHandle]. *)
Definition cursorForHandle (handle : HandlePosition.t) : CursorShape :=
  match handle with
  | HandlePosition.TopLeft | HandlePosition.BottomRight => SizeFDiagCursor
  | HandlePosition.TopRight | HandlePosition.BottomLeft => SizeBDiagCursor
  | HandlePosition.Top | HandlePosition.Bottom => SizeVerCursor
  | HandlePosition.Left | HandlePosition.Right => SizeHorCursor
  | HandlePosition.None => ArrowCursor
  end.

(** [ScreenshotDisplay::resizeSelection]. *)
Definition resizeSelection (point : QPoint.t) (s : ScreenshotDisplay)
  : ScreenshotDisplay :=
  let r := selectionRect s in
  let r' :=
    match currentHandle s with
    | HandlePosition.TopLeft => QRect.setTopLeft point r
    | HandlePosition.TopRight => QRect.setTopRight point r
    | HandlePosition.BottomLeft => QRect.setBottomLeft point r
    | HandlePosition.BottomRight => QRect.setBottomRight point r
    | HandlePosition.Top => QRect.setTop (QPoint.y point) r
    | HandlePosition.Bottom => QRect.setBottom (QPoint.y point) r
    | HandlePosition.Left => QRect.setLeft (QPoint.x point) r
    | HandlePosition.Right => QRect.setRight (QPoint.x point) r
    | HandlePosition.None => r
    end in
  s |> set_selectionRect (QRect.normalized r').

(** [ScreenshotDisplay::onToolSelected]. *)
Definition onToolSelected (tool : Editor.Tool) (s : ScreenshotDisplay)
  : ScreenshotDisplay :=
  s |> set_currentTool tool
    |> set_cursor (if Editor.tool_eqb tool Editor.None then ArrowCursor
                   else CrossCursor).

(** ** Closing *)

(** [close()], which runs [ScreenshotDisplay::closeEvent]: the signal
    [screenshotClosed] is emitted, the toolbar hidden, an open text field
    deleted, and the widget hidden. *)
Definition close (s : ScreenshotDisplay) : ScreenshotDisplay :=
  s |> set_screenshotClosed (S (screenshotClosed s))
    |> set_editor (Editor.hide (editor s))
    |> set_textEdit None
    |> set_visible false.

(** ** Drawing helpers *)

(** [ScreenshotDisplay::drawArrow]: the painter calls it makes.  The two
    wing points are computed in [double] and converted to [int]. *)
Definition drawArrow (s : ScreenshotDisplay) (start end_ : QPoint.t)
  : list PaintCmd :=
  let angle :=
    d_atan2 (d_of_int (QPoint.y start - QPoint.y end_))
            (d_of_int (QPoint.x start - QPoint.x end_)) in
  let arrowHeadLength := d_of_int (borderWidth s * 2) in
  let arrowHeadAngle := d_div M_PI (d_of_int 6) in
  let arrowP1 :=
    QPoint.add end_
      (QPoint.mk (d_to_int (d_mul (d_cos (d_add angle arrowHeadAngle)) arrowHeadLength))
                 (d_to_int (d_mul (d_sin (d_add angle arrowHeadAngle)) arrowHeadLength))) in
  let arrowP2 :=
    QPoint.add end_
      (QPoint.mk (d_to_int (d_mul (d_cos (d_sub angle arrowHeadAngle)) arrowHeadLength))
                 (d_to_int (d_mul (d_sin (d_sub angle arrowHeadAngle)) arrowHeadLength))) in
  [ DrawLine start end_;
    SetBrush (SolidBrush (Editor.getCurrentColor (editor s)));
    DrawPolygon [end_; arrowP1; arrowP2] ].

(** The eight handle positions, in the order both [drawHandles] and
    [handleAtPoint] go through them. *)
Definition handlePoints (r : QRect.t) : list QPoint.t :=
  [ QRect.topLeft r;
    QRect.topRight r;
    QRect.bottomLeft r;
    QRect.bottomRight r;
    QPoint.add (QRect.topLeft r) (QPoint.mk (Z.quot (QRect.width r) 2) 0);
    QPoint.add (QRect.bottomLeft r) (QPoint.mk (Z.quot (QRect.width r) 2) 0);
    QPoint.add (QRect.topLeft r) (QPoint.mk 0 (Z.quot (QRect.height r) 2));
    QPoint.add (QRect.topRight r) (QPoint.mk 0 (Z.quot (QRect.height r) 2)) ].

(** [ScreenshotDisplay::drawHandles]. *)
Definition drawHandles (s : ScreenshotDisplay) : list PaintCmd :=
  let handleSize := 3 in
  SetBrush (SolidBrush Qt_red)
  :: map (fun point =>
            DrawRect
              (QRect.of_point_size
                 (QPoint.sub point
                    (QPoint.mk (Z.quot handleSize 2) (Z.quot handleSize 2)))
                 (QSize.mk (handleSize * 2) (handleSize * 2))))
         (handlePoints (selectionRect s)).

(** [ScreenshotDisplay::drawBorderCircle]. *)
Definition drawBorderCircle (s : ScreenshotDisplay) (position : QPoint.t)
  : list PaintCmd :=
  [ SetPen (QPen_of (Editor.getCurrentColor (editor s)) 2 SolidLine);
    SetBrush NoBrush;
    DrawEllipseAt position (borderWidth s) (borderWidth s) ].

(** The pen of every committed stroke:
    [QPen(color, borderWidth, SolidLine, RoundCap, RoundJoin)]. *)
Definition strokePen (s : ScreenshotDisplay) : QPen :=
  mkPen (Editor.getCurrentColor (editor s)) (borderWidth s)
        SolidLine RoundCap RoundJoin.

(** ** The text overlay *)

(** [ScreenshotDisplay::adjustTextEditSize]. *)
Definition adjustTextEditSize (s : ScreenshotDisplay) : ScreenshotDisplay :=
  match textEdit s with
  | Some te =>
      let width :=
        fm_horizontalAdvance (te_font te) (replace_newlines (te_plainText te)) + 10 in
      s |> set_textEdit
             (Some (mkTextEdit (te_font te) (te_textColor te) (te_plainText te)
                      (te_pos te) (Some width)))
  | None => s
  end.

(** The loop of [finalizeTextEdit]: one [drawText] per line, the position
    moved down by [fm.height()] after each. *)
Fixpoint drawTextLines (lineHeight : Z) (currentPos : QPoint.t)
  (lines : list string) : list PaintCmd :=
  match lines with
  | [] => []
  | line :: rest =>
      DrawText currentPos line
      :: drawTextLines lineHeight
           (QPoint.setY (QPoint.y currentPos + lineHeight) currentPos) rest
  end.

(** [ScreenshotDisplay::finalizeTextEdit]. *)
Definition finalizeTextEdit (s : ScreenshotDisplay) : ScreenshotDisplay :=
  match textEdit s with
  | Some te =>
      let s1 := saveStateForUndo s in
      let lines := split_lines (te_plainText te) in
      let currentPos :=
        QPoint.setY (QPoint.y (textEditPosition s1) + fm_ascent (te_font te))
          (textEditPosition s1) in
      s1 |> set_drawingPixmap
              (paintOn (drawingPixmap s1)
                 (SetFont (te_font te)
                  :: SetPen (QPen_of_color (Editor.getCurrentColor (editor s1)))
                  :: drawTextLines (fm_height (te_font te)) currentPos lines))
         |> set_textEdit None
  | None => s
  end.

(** ** Pointer events *)

(** [ScreenshotDisplay::mousePressEvent]. *)
Definition mousePressEvent (pos : QPoint.t) (s : ScreenshotDisplay)
  : ScreenshotDisplay :=
  if Editor.tool_eqb (Editor.getCurrentTool (editor s)) Editor.None then
    let handle := handleAtPoint (selectionRect s) pos in
    if negb (HandlePosition.eqb handle HandlePosition.None) then
      s |> set_currentHandle handle
        |> set_handleOffset (QPoint.sub pos (QRect.topLeft (selectionRect s)))
    else if QRect.contains (selectionRect s) pos then
      s |> set_movingSelection true
        |> set_selectionOffset (QPoint.sub pos (QRect.topLeft (selectionRect s)))
    else
      s |> set_selectionStarted true
        |> set_origin pos
        |> set_selectionRect (QRect.of_point_size pos QSize.invalid)
        |> set_currentHandle HandlePosition.None
        |> set_movingSelection false
  else if Editor.tool_eqb (Editor.getCurrentTool (editor s)) Editor.Text then
    match textEdit s with
    | None =>
        s |> set_textEdit
               (Some (mkTextEdit (currentFont s) (currentColor s) EmptyString pos None))
          |> set_textEditPosition pos
    | Some _ => finalizeTextEdit s
    end
  else
    let s1 := saveStateForUndo s
              |> set_drawing true
              |> set_lastPoint pos
              |> set_origin pos in
    if negb (Editor.tool_eqb (Editor.getCurrentTool (editor s1)) Editor.Pen) then
      s1 |> set_shapeDrawing true
         |> set_currentShapeRect (QRect.of_point_size (lastPoint s1) QSize.invalid)
    else s1.

(** [ScreenshotDisplay::mouseMoveEvent]. *)
Definition mouseMoveEvent (pos : QPoint.t) (s : ScreenshotDisplay)
  : ScreenshotDisplay :=
  let s1 :=
    if QRect.isValid (selectionRect s) && Editor.isHidden (editor s) then
      let s' := updateEditorPosition s in
      s' |> set_editor (Editor.show (editor s'))
    else s in
  let s2 :=
    if selectionStarted s1 then
      s1 |> set_selectionRect (QRect.normalized (QRect.of_points (origin s1) pos))
         |> updateTooltip
         |> updateEditorPosition
    else if drawing s1
            && Editor.tool_eqb (Editor.getCurrentTool (editor s1)) Editor.Pen then
      let tempPixmap := QPixmap_copy QRect.null (drawingPixmap s1) in
      s1 |> set_drawingPixmap
              (paintOn tempPixmap
                 [SetPen (strokePen s1); DrawLine (lastPoint s1) pos])
         |> set_lastPoint pos
    else if shapeDrawing s1 then
      s1 |> set_currentShapeRect
              (QRect.normalized (QRect.of_points (lastPoint s1) pos))
         |> set_drawingEnd pos
    else if movingSelection s1 then
      s1 |> set_selectionRect
              (QRect.moveTopLeft (QPoint.sub pos (selectionOffset s1))
                 (selectionRect s1))
         |> updateTooltip
         |> updateEditorPosition
    else s1 in
  let handle := handleAtPoint (selectionRect s2) pos in
  s2 |> set_cursor (cursorForHandle handle).

(** The shape committed by [mouseReleaseEvent], by tool. *)
Definition commitShape (s : ScreenshotDisplay) : list PaintCmd :=
  match Editor.getCurrentTool (editor s) with
  | Editor.Rectangle => [DrawRect (currentShapeRect s)]
  | Editor.Ellipse => [DrawEllipse (currentShapeRect s)]
  | Editor.Line => [DrawLine (lastPoint s) (drawingEnd s)]
  | Editor.Arrow => drawArrow s (lastPoint s) (drawingEnd s)
  | _ => []
  end.

(** [ScreenshotDisplay::mouseReleaseEvent]. *)
Definition mouseReleaseEvent (pos : QPoint.t) (s : ScreenshotDisplay)
  : ScreenshotDisplay :=
  let s1 := s |> set_selectionStarted false
              |> set_movingSelection false
              |> set_currentHandle HandlePosition.None
              |> set_drawing false in
  let s2 :=
    if shapeDrawing s1 then
      let s' := saveStateForUndo s1 in
      let tempPixmap := QPixmap_copy QRect.null (drawingPixmap s') in
      s' |> set_drawingPixmap
              (paintOn tempPixmap (SetPen (strokePen s') :: commitShape s'))
         |> set_shapeDrawing false
    else s1 in
  updateTooltip s2.

(** ** Keyboard and wheel *)

(** [ScreenshotDisplay::copySelectionToClipboard]. *)
Definition copySelectionToClipboard (s : ScreenshotDisplay) : ScreenshotDisplay :=
  let resultPixmap :=
    paintOn (originalPixmap s) [DrawPixmap 0 0 (drawingPixmap s)] in
  let s1 :=
    if QRect.isValid (selectionRect s) then
      let selectedPixmap := QPixmap_copy (selectionRect s) resultPixmap in
      s |> set_clipboard (Some selectedPixmap)
    else
      s |> set_clipboard (Some resultPixmap) in
  close s1.

(** [ScreenshotDisplay::keyPressEvent]; [ctrl] says that the modifiers are
    exactly [Qt::ControlModifier]. *)
Definition keyPressEvent (key : Key) (ctrl : bool) (s : ScreenshotDisplay)
  : ScreenshotDisplay :=
  let isEscape := match key with Key_Escape => true | _ => false end in
  let isC := match key with Key_C => true | _ => false end in
  if negb (Editor.tool_eqb (Editor.getCurrentTool (editor s)) Editor.None)
     && isEscape then
    if Editor.tool_eqb (Editor.getCurrentTool (editor s)) Editor.Text
       && (match textEdit s with Some _ => true | None => false end) then
      finalizeTextEdit s
    else
      s |> set_editor (Editor.deselectTools (editor s))
        |> set_cursor ArrowCursor
  else if isEscape then close s
  else if isC && ctrl then close (copySelectionToClipboard s)
  else s.

(** [std::clamp]. *)
Definition clamp (v lo hi : Z) : Z :=
  if v <? lo then lo else if hi <? v then hi else v.

(** [ScreenshotDisplay::wheelEvent]; [angleDeltaY] is
    [event->angleDelta().y()]. *)
Definition wheelEvent (angleDeltaY : Z) (s : ScreenshotDisplay)
  : ScreenshotDisplay :=
  let s1 :=
    if negb (Editor.tool_eqb (Editor.getCurrentTool (editor s)) Editor.None)
       && negb (Editor.tool_eqb (Editor.getCurrentTool (editor s)) Editor.Text)
    then s |> set_borderWidth
                (clamp (borderWidth s + Z.quot angleDeltaY 120) 1 20)
    else s in
  if Editor.tool_eqb (Editor.getCurrentTool (editor s1)) Editor.Text then
    match textEdit s1 with
    | Some te =>
        let delta := Z.quot angleDeltaY 120 in
        let newSize := pointSize (currentFont s1) + delta in
        if 0 <? newSize then
          let font := mkFont (family (currentFont s1)) newSize in
          s1 |> set_currentFont font
             |> set_textEdit
                  (Some (mkTextEdit font (te_textColor te) (te_plainText te)
                           (te_pos te) (te_fixedWidth te)))
             |> adjustTextEditSize
        else s1
    | None => s1
    end
  else s1.

(** ** Painting the widget *)

(** [ScreenshotDisplay::paintEvent] paints, in this order, the two
    pixmaps, the selection decorations, the preview of the shape being
    drawn and the brush indicator.  The three conditional parts first. *)
Definition paintSelection (s : ScreenshotDisplay) : list PaintCmd :=
  if QRect.isValid (selectionRect s) then
    SetPen (QPen_of Qt_red 2 DashLine)
    :: DrawRect (selectionRect s)
    :: drawHandles s
  else [].

Definition paintPreview (s : ScreenshotDisplay) : list PaintCmd :=
  if shapeDrawing s then
    SetPen (QPen_of (Editor.getCurrentColor (editor s)) (borderWidth s) SolidLine)
    :: match Editor.getCurrentTool (editor s) with
       | Editor.Pen => [DrawPath]
       | Editor.Rectangle => [SetBrush NoBrush; DrawRect (currentShapeRect s)]
       | Editor.Ellipse => [SetBrush NoBrush; DrawEllipse (currentShapeRect s)]
       | Editor.Line => [DrawLine (origin s) (drawingEnd s)]
       | Editor.Arrow => drawArrow s (lastPoint s) (drawingEnd s)
       | Editor.Text =>
           [ SetFont (currentFont s);
             SetPen (QPen_of_color (Editor.getCurrentColor (editor s)));
             DrawTextIn (textBoundingRect s) (text s) ]
       | Editor.None => []
       end
  else [].

Definition paintBrushIndicator (cursorPos : QPoint.t) (s : ScreenshotDisplay)
  : list PaintCmd :=
  if negb (Editor.tool_eqb (Editor.getCurrentTool (editor s)) Editor.None) then
    drawBorderCircle s cursorPos
    ++ [ SetBrush (SolidBrush Qt_transparent);
         DrawEllipseAt (cursorPosition s)
           (Z.quot (borderWidth s) 2) (Z.quot (borderWidth s) 2) ]
  else [].

(** [ScreenshotDisplay::paintEvent]: the painter calls of one frame.
    [cursorPos] is [mapFromGlobal(QCursor::pos())].  Nothing is written to
    the state. *)
Definition paintEvent (cursorPos : QPoint.t) (s : ScreenshotDisplay)
  : list PaintCmd :=
  [ DrawPixmap 0 0 (originalPixmap s); DrawPixmap 0 0 (drawingPixmap s) ]
  ++ paintSelection s
  ++ paintPreview s
  ++ paintBrushIndicator cursorPos s.

(** ** Toolbar requests *)

(** The filter string [onSaveRequested] hands to the save dialog. *)
Definition saveFileFilter (fileExtension : string) : string :=
  if String.eqb fileExtension "png" then "PNG Files (*.png);;"
  else if String.eqb fileExtension "jpg" || String.eqb fileExtension "jpeg"
       then "JPEG Files (*.jpg *.jpeg);;"
       else "PNG Files (*.png);;JPEG Files (*.jpg *.jpeg);;".

(** [ScreenshotDisplay::onSaveRequested], given the path the save dialog
    returned ([filePath]; empty when the dialog was cancelled). *)
Definition onSaveRequested (filePath : string) (s : ScreenshotDisplay)
  : ScreenshotDisplay :=
  if negb (String.eqb filePath EmptyString) then
    s |> set_savedFiles ((filePath, originalPixmap s) :: savedFiles s)
      |> close
  else s.

(** [ScreenshotDisplay::onPublishRequested] ("TODO" in the source). *)
Definition onPublishRequested (s : ScreenshotDisplay) : ScreenshotDisplay := s.

(** [ScreenshotDisplay::onCloseRequested]. *)
Definition onCloseRequested (s : ScreenshotDisplay) : ScreenshotDisplay :=
  close s.

(** The Escape shortcut installed by [configureShortcuts]. *)
Definition escapeShortcut (s : ScreenshotDisplay) : ScreenshotDisplay :=
  if negb (Editor.tool_eqb (Editor.getCurrentTool (editor s)) Editor.None) then
    s |> set_editor (Editor.deselectTools (editor s))
      |> set_cursor ArrowCursor
  else close s.

(** ** Construction *)

(** The constructor: the captured pixmap, and the toolbar as
    [initializeEditor] got it from [new Editor(this)]. *)
Definition ScreenshotDisplay_new (pixmap : QPixmap) (ed : Editor.t)
  : ScreenshotDisplay :=
  let font := mkFont "Arial" 16 in
  let txt := "Editable Text"%string in
  {| originalPixmap := pixmap;
     drawingPixmap := QPixmap_transparent (pwidth pixmap) (pheight pixmap);
     selectionRect := QRect.null;
     selectionStarted := false;
     movingSelection := false;
     currentHandle := HandlePosition.None;
     handleOffset := QPoint.mk 0 0;
     selectionOffset := QPoint.mk 0 0;
     origin := QPoint.mk 0 0;
     drawing := false;
     shapeDrawing := false;
     lastPoint := QPoint.mk 0 0;
     drawingEnd := QPoint.mk 0 0;
     currentShapeRect := QRect.null;
     currentColor := Qt_black;
     currentTool := Editor.None;
     borderWidth := 5;
     currentFont := font;
     text := txt;
     textBoundingRect := QRect.of_point_size (QPoint.mk 100 100) (fm_size font txt);
     textEdit := None;
     textEditPosition := QPoint.mk 0 0;
     undoStack := [];
     editor := ed;
     cursor := ArrowCursor;
     cursorPosition := QPoint.mk 0 0;
     visible := true;
     screenshotClosed := 0%nat;
     clipboard := None;
     savedFiles := [];
     toolTip := None |}.

(** ** Events *)

(** What reaches the widget: pointer, key and wheel events, the toolbar's
    signals, the shortcuts, typing into the open text field, and a call of
    [resizeSelection]. *)
Inductive Event : Type :=
| MousePress (pos : QPoint.t)
| MouseMove (pos : QPoint.t)
| MouseRelease (pos : QPoint.t)
| KeyPress (key : Key) (ctrl : bool)
| Wheel (angleDeltaY : Z)
| ToolChanged (tool : Editor.Tool)
| ColorChanged (c : QColor)
| TextChanged (plainText : string)
| SaveRequested (filePath : string)
| CopyRequested
| PublishRequested
| CloseRequested
| UndoShortcut
| EscapeShortcut
| ResizeSelection (point : QPoint.t).

(** The user picks a tool on the toolbar: the toolbar's current tool
    changes and [toolChanged] reaches [onToolSelected]. *)
Definition toolChanged (tool : Editor.Tool) (s : ScreenshotDisplay)
  : ScreenshotDisplay :=
  s |> set_editor (Editor.selectTool tool (editor s)) |> onToolSelected tool.

(** The user picks a colour on the toolbar; the display's slot only asks
    for a repaint. *)
Definition colorChanged (c : QColor) (s : ScreenshotDisplay) : ScreenshotDisplay :=
  s |> set_editor (Editor.mk (Editor.tool (editor s)) c
                     (Editor.hidden (editor s)) (Editor.pos (editor s))).

(** The user edits the open text field; [textChanged] reaches
    [adjustTextEditSize]. *)
Definition textChanged (plainText : string) (s : ScreenshotDisplay)
  : ScreenshotDisplay :=
  match textEdit s with
  | Some te =>
      s |> set_textEdit
             (Some (mkTextEdit (te_font te) (te_textColor te) plainText
                      (te_pos te) (te_fixedWidth te)))
        |> adjustTextEditSize
  | None => s
  end.

Definition step (s : ScreenshotDisplay) (e : Event) : ScreenshotDisplay :=
  match e with
  | MousePress pos => mousePressEvent pos s
  | MouseMove pos => mouseMoveEvent pos s
  | MouseRelease pos => mouseReleaseEvent pos s
  | KeyPress key ctrl => keyPressEvent key ctrl s
  | Wheel dy => wheelEvent dy s
  | ToolChanged tool => toolChanged tool s
  | ColorChanged c => colorChanged c s
  | TextChanged plainText => textChanged plainText s
  | SaveRequested filePath => onSaveRequested filePath s
  | CopyRequested => copySelectionToClipboard s
  | PublishRequested => onPublishRequested s
  | CloseRequested => onCloseRequested s
  | UndoShortcut => undo s
  | EscapeShortcut => escapeShortcut s
  | ResizeSelection point => resizeSelection point s
  end.

Definition run (s : ScreenshotDisplay) (es : list Event) : ScreenshotDisplay :=
  fold_left step es s.

End Widget.

(** ** Vocabulary of the properties *)

(** The order in which the handles are tested. *)
Definition handleOrder : list HandlePosition.t :=
  [ HandlePosition.TopLeft; HandlePosition.TopRight;
    HandlePosition.BottomLeft; HandlePosition.BottomRight;
    HandlePosition.Top; HandlePosition.Bottom;
    HandlePosition.Left; HandlePosition.Right ].

(** The first handle, in [handleOrder], whose region holds the point;
    [region c p] says that the region of the handle positioned at [c]
    holds [p]. *)
Fixpoint firstHandle (region : QPoint.t -> QPoint.t -> bool)
  (hs : list (HandlePosition.t * QPoint.t)) (p : QPoint.t) : HandlePosition.t :=
  match hs with
  | [] => HandlePosition.None
  | (h, c) :: rest => if region c p then h else firstHandle region rest p
  end.

(** The square of side 20 whose top-left pixel is the handle position:
    columns [x c .. x c + 19], rows [y c .. y c + 19]. *)
Definition anchoredRegion (c p : QPoint.t) : bool :=
  (QPoint.x c <=? QPoint.x p) && (QPoint.x p <=? QPoint.x c + 19)
  && (QPoint.y c <=? QPoint.y p) && (QPoint.y p <=? QPoint.y c + 19).

(** The specification's wording of the hit test: the square of side 20
    centred on the handle position, taken here as the 20 columns
    [x c - 10 .. x c + 9] and the 20 rows [y c - 10 .. y c + 9]. *)
Definition centredRegion (c p : QPoint.t) : bool :=
  (QPoint.x c - 10 <=? QPoint.x p) && (QPoint.x p <=? QPoint.x c + 9)
  && (QPoint.y c - 10 <=? QPoint.y p) && (QPoint.y p <=? QPoint.y c + 9).

Definition spec_handleAtPoint (selectionRect : QRect.t) (p : QPoint.t)
  : HandlePosition.t :=
  firstHandle centredRegion (combine handleOrder (handlePoints selectionRect)) p.

(** A rectangle is normalized when neither its width nor its height is
    negative. *)
Definition isNormalized (r : QRect.t) : Prop :=
  0 <= QRect.width r /\ 0 <= QRect.height r.

(** What holds of the selection rectangle in every state: it is
    normalized, or it is the rectangle [QRect(origin, QSize())] of a
    selection that has just been begun, whose width and height are -1. *)
Definition selectionInvariant (r : QRect.t) : Prop :=
  isNormalized r \/ (QRect.width r = -1 /\ QRect.height r = -1).

(** The tools that draw a shape on release. *)
Definition isShapeTool (tool : Editor.Tool) : bool :=
  match tool with
  | Editor.Rectangle | Editor.Ellipse | Editor.Line | Editor.Arrow => true
  | _ => false
  end.

(** One draw gesture: pointer-down, pointer-moves, pointer-up. *)
Definition gesture (down : QPoint.t) (moves : list QPoint.t) (up : QPoint.t)
  : list Event :=
  MousePress down :: map MouseMove moves ++ [MouseRelease up].

(** The [k]-th line of a text, for [k = 0, 1, ...], paired with its index. *)
Definition numbered (lines : list string) : list (nat * string) :=
  combine (seq 0 (List.length lines)) lines.

(** A history of edits: before each new content [L] of the annotation
    layer, the current content is pushed ("about to mutate"). *)
Fixpoint pushAll (edits : list QPixmap) (s : ScreenshotDisplay)
  : ScreenshotDisplay :=
  match edits with
  | [] => s
  | L :: rest => pushAll rest (set_drawingPixmap L (saveStateForUndo s))
  end.

(** ** A small paint engine, to run the widget on examples

    It marks the anchor pixels of a primitive with the pen colour, treats
    every non-transparent source pixel as opaque, takes its font metrics
    from the point size and does its "floating point" on integers.  The
    theorems below hold for every engine; this one only supplies concrete
    runs. *)

Definition plot (c : QColor) (p : QPoint.t) (pm : QPixmap) : QPixmap :=
  mkPixmap (pwidth pm) (pheight pm)
    (fun i j => if (i =? QPoint.x p) && (j =? QPoint.y p) then c else pixel pm i j).

Definition sample_rasterize (ps : PainterState) (cmd : PaintCmd) (pm : QPixmap)
  : QPixmap :=
  let c := pen_color (p_pen ps) in
  match cmd with
  | DrawLine p q => plot c q (plot c p pm)
  | DrawRect r | DrawEllipse r | DrawTextIn r _ =>
      plot c (QRect.bottomRight r) (plot c (QRect.topLeft r) pm)
  | DrawEllipseAt p _ _ | DrawText p _ => plot c p pm
  | DrawPolygon pts => fold_right (plot c) pm pts
  | _ => pm
  end.

#[export] Instance sample_engine : QtPaintEngine := {|
  rasterize := sample_rasterize;
  blend := fun src dst => if src =? Qt_transparent then dst else src;
  fm_ascent := fun f => pointSize f;
  fm_height := fun f => pointSize f + Z.quot (pointSize f) 4;
  fm_horizontalAdvance := fun f s => pointSize f * Z.of_nat (String.length s);
  fm_size := fun f s =>
    QSize.mk (pointSize f * Z.of_nat (String.length s))
             (pointSize f + Z.quot (pointSize f) 4);
  double := Z;
  d_of_int := fun z => z;
  d_to_int := fun z => z;
  d_add := Z.add;
  d_sub := Z.sub;
  d_mul := Z.mul;
  d_div := Z.quot;
  d_atan2 := fun _ _ => 0;
  d_cos := fun _ => 1;
  d_sin := fun _ => 0;
  M_PI := 3
|}.

(** A captured image of 200 x 100 pixels, all of one colour, and the
    toolbar with a given tool selected. *)
Definition sample_image : QPixmap := mkPixmap 200 100 (fun _ _ => 4294967295).

Definition sample_editor (tool : Editor.Tool) : Editor.t :=
  Editor.mk tool Qt_red true (QPoint.mk 0 0).

Definition sample_display (tool : Editor.Tool) : ScreenshotDisplay :=
  ScreenshotDisplay_new sample_image (sample_editor tool).

(** ** Vocabulary of the further properties *)

(** [std::clamp] between 1 and 20, said with [max] and [min]. *)
Definition clampedWidth (v : Z) : Z := Z.max 1 (Z.min 20 v).

(** The open text field, if any, shows the display's current font. *)
Definition sessionFontInSync (s : ScreenshotDisplay) : Prop :=
  forall te, textEdit s = Some te -> te_font te = currentFont s.

(** The events on which the display closes, as the handlers decide it:
    the toolbar's close and copy requests, a save request answered with a
    path, Ctrl+C, and Escape (key or shortcut) while no tool is active. *)
Definition closesDisplay (s : ScreenshotDisplay) (e : Event) : bool :=
  match e with
  | CloseRequested | CopyRequested => true
  | SaveRequested filePath => negb (String.eqb filePath EmptyString)
  | KeyPress Key_Escape _ | EscapeShortcut =>
      Editor.tool_eqb (Editor.getCurrentTool (editor s)) Editor.None
  | KeyPress Key_C true => true
  | _ => false
  end.

(** A pen stroke through the points [pts], begun at [from]: one line
    segment per point, each painted on a copy of the layer so far. *)
Fixpoint paintPolyline {engine : QtPaintEngine} (pen : QPen)
  (from : QPoint.t) (pts : list QPoint.t) (pm : QPixmap) : QPixmap :=
  match pts with
  | [] => pm
  | q :: rest =>
      paintPolyline pen q rest
        (paintOn (QPixmap_copy QRect.null pm) [SetPen pen; DrawLine from q])
  end.

(** The text of the tool tip for a rectangle. *)
Definition sizeLabel (r : QRect.t) : string :=
  ("Size: " ++ number (QRect.width r) ++ " x " ++ number (QRect.height r))%string.

(** The painter calls that commit a shape with a given tool, bounding
    rectangle and end points (the cases of [mouseReleaseEvent]). *)
Definition shapeCommands {engine : QtPaintEngine} (s : ScreenshotDisplay)
  (tool : Editor.Tool) (rect : QRect.t) (from to : QPoint.t) : list PaintCmd :=
  match tool with
  | Editor.Rectangle => [DrawRect rect]
  | Editor.Ellipse => [DrawEllipse rect]
  | Editor.Line => [DrawLine from to]
  | Editor.Arrow => drawArrow s from to
  | _ => []
  end.

(** Two states draw with the same ink: the same stroke width, colour and
    tool. *)
Definition sameInk (s' s : ScreenshotDisplay) : Prop :=
  borderWidth s' = borderWidth s
  /\ Editor.getCurrentColor (editor s') = Editor.getCurrentColor (editor s)
  /\ Editor.getCurrentTool (editor s') = Editor.getCurrentTool (editor s).

(** The number of newline characters of a text. *)
Fixpoint count_newlines (s : string) : nat :=
  match s with
  | EmptyString => 0%nat
  | String c rest =>
      ((if Ascii.eqb c newline then 1 else 0) + count_newlines rest)%nat
  end.

(** Lines put back together, a newline between each two. *)
Fixpoint join_lines (lines : list string) : string :=
  match lines with
  | [] => EmptyString
  | l :: rest =>
      match rest with
      | [] => l
      | _ => (l ++ String newline (join_lines rest))%string
      end
  end.

(** The [drawText] calls among painter calls: where and what. *)
Definition drawnText (cmds : list PaintCmd) : list (QPoint.t * string) :=
  flat_map (fun c => match c with DrawText p t => [(p, t)] | _ => [] end) cmds.

(** The paths of the save requests among events that were answered with
    a path, in order. *)
Fixpoint savedPaths (es : list Event) : list string :=
  match es with
  | [] => []
  | SaveRequested filePath :: rest =>
      if String.eqb filePath EmptyString then savedPaths rest
      else filePath :: savedPaths rest
  | _ :: rest => savedPaths rest
  end.

(** The sides of the selection rectangle a handle takes along. *)
Definition movesLeft (h : HandlePosition.t) : bool :=
  match h with
  | HandlePosition.TopLeft | HandlePosition.BottomLeft | HandlePosition.Left => true
  | _ => false
  end.
Definition movesRight (h : HandlePosition.t) : bool :=
  match h with
  | HandlePosition.TopRight | HandlePosition.BottomRight | HandlePosition.Right => true
  | _ => false
  end.
Definition movesTop (h : HandlePosition.t) : bool :=
  match h with
  | HandlePosition.TopLeft | HandlePosition.TopRight | HandlePosition.Top => true
  | _ => false
  end.
Definition movesBottom (h : HandlePosition.t) : bool :=
  match h with
  | HandlePosition.BottomLeft | HandlePosition.BottomRight | HandlePosition.Bottom => true
  | _ => false
  end.

(** The colour of the text field, if one is open, is the display's own
    [currentColor]. *)
Definition sessionColourIsBlack (s : ScreenshotDisplay) : Prop :=
  currentColor s = Qt_black
  /\ forall te, textEdit s = Some te -> te_textColor te = Qt_black.

(** * Properties *)

(** ** Rectangles *)

(** Turns the boolean comparisons of a goal into (in)equalities. *)
Ltac by_cases_on_tests :=
  repeat match goal with
         | |- context [?a <? ?b] => destruct (Z.ltb_spec a b)
         | |- context [?a <=? ?b] => destruct (Z.leb_spec a b)
         | |- context [?a =? ?b] => destruct (Z.eqb_spec a b)
         end;
  cbn [andb orb negb]; try reflexivity; try lia.

Lemma QRect_normalized_is_normalized (r : QRect.t) :
  isNormalized (QRect.normalized r).
Proof.
  unfold isNormalized, QRect.normalized, QRect.width, QRect.height.
  destruct (Z.ltb_spec (QRect.x2 r) (QRect.x1 r - 1));
    destruct (Z.ltb_spec (QRect.y2 r) (QRect.y1 r - 1)); simpl; lia.
Qed.

(** The same of the Qt 6 variant: what is proved below from
    [QRect_normalized_is_normalized] alone holds for either. *)
Lemma QRect_normalized_qt6_is_normalized (r : QRect.t) :
  isNormalized (QRect.normalized_qt6 r).
Proof.
  unfold isNormalized, QRect.normalized_qt6, QRect.width, QRect.height.
  destruct (Z.ltb_spec (QRect.x2 r) (QRect.x1 r));
    destruct (Z.ltb_spec (QRect.y2 r) (QRect.y1 r)); simpl; lia.
Qed.

Lemma QRect_moveTopLeft_size (p : QPoint.t) (r : QRect.t) :
  QRect.width (QRect.moveTopLeft p r) = QRect.width r
  /\ QRect.height (QRect.moveTopLeft p r) = QRect.height r.
Proof. unfold QRect.width, QRect.height, QRect.moveTopLeft; simpl; lia. Qed.

Lemma QRect_invalid_size (p : QPoint.t) :
  QRect.width (QRect.of_point_size p QSize.invalid) = -1
  /\ QRect.height (QRect.of_point_size p QSize.invalid) = -1.
Proof. unfold QRect.width, QRect.height, QRect.of_point_size; simpl; lia. Qed.

Lemma QRect_valid_is_normalized (r : QRect.t) :
  QRect.isValid r = true -> isNormalized r.
Proof.
  unfold QRect.isValid, isNormalized, QRect.width, QRect.height.
  intros H. apply andb_true_iff in H. destruct H as [Hx Hy].
  apply Z.leb_le in Hx. apply Z.leb_le in Hy. lia.
Qed.

(** The region [handleAtPoint] tests for the handle at [c]: the rectangle
    [QRect(QPoint(0,0), QSize(20,20))] moved to [c]. *)
Lemma handle_region_anchored (c p : QPoint.t) :
  QRect.contains
    (QRect.translated c (QRect.of_point_size (QPoint.mk 0 0) (QSize.mk 20 20))) p
  = anchoredRegion c p.
Proof.
  unfold QRect.contains, QRect.translated, QRect.of_point_size, anchoredRegion.
  cbn [QRect.x1 QRect.x2 QRect.y1 QRect.y2 QPoint.x QPoint.y
       QSize.width QSize.height].
  replace (0 + 20 - 1 + QPoint.x c <? 0 + QPoint.x c - 1) with false
    by (symmetry; apply Z.ltb_ge; lia).
  replace (0 + 20 - 1 + QPoint.y c <? 0 + QPoint.y c - 1) with false
    by (symmetry; apply Z.ltb_ge; lia).
  by_cases_on_tests.
Qed.

Lemma handleAtPoint_first_anchored (sel : QRect.t) (p : QPoint.t) :
  handleAtPoint sel p
  = firstHandle anchoredRegion (combine handleOrder (handlePoints sel)) p.
Proof.
  unfold handleAtPoint. rewrite !handle_region_anchored. reflexivity.
Qed.

(** ** Hit testing (C1, C9) *)

(** C1, as the code has it.  With no tool active, a pointer-down at [pos]
    is classified by testing, for each of the eight handle positions in
    the order TopLeft, TopRight, BottomLeft, BottomRight, Top, Bottom,
    Left, Right, the 20 x 20 square whose top-left pixel is the handle
    position (columns x..x+19, rows y..y+19; the square is anchored at the
    handle position, not centred on it); the first handle whose square
    holds [pos] becomes the current handle.  If no square holds [pos] and
    the selection rectangle contains [pos], the gesture is a move;
    otherwise a new selection is begun at [pos]. *)
Theorem C1_hit_test_classification {engine : QtPaintEngine}
  (s : ScreenshotDisplay) (pos : QPoint.t) :
  Editor.getCurrentTool (editor s) = Editor.None ->
  let sel := selectionRect s in
  let h := handleAtPoint sel pos in
  let s' := mousePressEvent pos s in
  h = firstHandle anchoredRegion (combine handleOrder (handlePoints sel)) pos
  /\ (h <> HandlePosition.None ->
      currentHandle s' = h
      /\ handleOffset s' = QPoint.sub pos (QRect.topLeft sel)
      /\ selectionRect s' = sel
      /\ movingSelection s' = movingSelection s
      /\ selectionStarted s' = selectionStarted s)
  /\ (h = HandlePosition.None -> QRect.contains sel pos = true ->
      movingSelection s' = true
      /\ selectionOffset s' = QPoint.sub pos (QRect.topLeft sel)
      /\ selectionRect s' = sel
      /\ currentHandle s' = currentHandle s
      /\ selectionStarted s' = selectionStarted s)
  /\ (h = HandlePosition.None -> QRect.contains sel pos = false ->
      selectionStarted s' = true
      /\ origin s' = pos
      /\ selectionRect s' = QRect.of_point_size pos QSize.invalid
      /\ currentHandle s' = HandlePosition.None
      /\ movingSelection s' = false).
Proof.
  intros Htool. cbv zeta.
  split; [apply handleAtPoint_first_anchored|].
  unfold mousePressEvent. rewrite Htool. cbn [Editor.tool_eqb].
  destruct (handleAtPoint (selectionRect s) pos) eqn:Hh;
    cbn [HandlePosition.eqb negb].
  1: { split; [intros Hne; congruence|].
       split; intros _ Hc; rewrite Hc; repeat split; reflexivity. }
  all: split; [intros _; repeat split; reflexivity|].
  all: split; intros Hnone; discriminate Hnone.
Qed.

(** An instance: selection (100,100)-(299,299), pointer-down at (105,105),
    inside the square anchored at the top-left corner. *)
Lemma C1_hit_test_classification_witness :
  Editor.getCurrentTool
    (editor (set_selectionRect (QRect.mk 100 100 299 299)
               (sample_display Editor.None))) = Editor.None
  /\ currentHandle
       (mousePressEvent (QPoint.mk 105 105)
          (set_selectionRect (QRect.mk 100 100 299 299)
             (sample_display Editor.None))) = HandlePosition.TopLeft.
Proof.
  split; [reflexivity|].
  destruct (C1_hit_test_classification
              (set_selectionRect (QRect.mk 100 100 299 299)
                 (sample_display Editor.None))
              (QPoint.mk 105 105) eq_refl) as (_ & Hresize & _).
  destruct Hresize as (Hh & _); [vm_compute; discriminate|].
  rewrite Hh. vm_compute. reflexivity.
Defined.

(** C1 as the specification words it (a square centred on the handle
    position) fails: with the selection (100,100)-(299,299), the point
    (95,95) is 5 pixels up and left of the top-left handle position,
    inside the square centred there, but [handleAtPoint] reports no
    handle and the pointer-down begins a new selection. *)
Lemma C1_centred_region_counterexample :
  spec_handleAtPoint (QRect.mk 100 100 299 299) (QPoint.mk 95 95)
  = HandlePosition.TopLeft
  /\ handleAtPoint (QRect.mk 100 100 299 299) (QPoint.mk 95 95)
     = HandlePosition.None
  /\ selectionStarted
       (mousePressEvent (QPoint.mk 95 95)
          (set_selectionRect (QRect.mk 100 100 299 299)
             (sample_display Editor.None))) = true.
Proof. repeat split; vm_compute; reflexivity. Qed.

(** C9: the hit test has no validity guard.  For the zero-size rectangle
    at any position, the point at that position is reported as the
    TopLeft handle; in particular on a fresh display, whose selection
    rectangle is [QRect()], the point (5,5) is. *)
Theorem C9_zero_size_hit_test_returns_handle :
  (forall x y : Z,
      QRect.width (QRect.of_point_size (QPoint.mk x y) (QSize.mk 0 0)) = 0
      /\ QRect.height (QRect.of_point_size (QPoint.mk x y) (QSize.mk 0 0)) = 0
      /\ handleAtPoint (QRect.of_point_size (QPoint.mk x y) (QSize.mk 0 0))
           (QPoint.mk x y) = HandlePosition.TopLeft)
  /\ selectionRect (sample_display Editor.None) = QRect.null
  /\ handleAtPoint (selectionRect (sample_display Editor.None)) (QPoint.mk 5 5)
     = HandlePosition.TopLeft
  /\ currentHandle (mousePressEvent (QPoint.mk 5 5) (sample_display Editor.None))
     = HandlePosition.TopLeft
  /\ selectionStarted (mousePressEvent (QPoint.mk 5 5) (sample_display Editor.None))
     = false.
Proof.
  split.
  - intros x y. repeat split.
    + unfold QRect.width, QRect.of_point_size; simpl; lia.
    + unfold QRect.height, QRect.of_point_size; simpl; lia.
    + rewrite handleAtPoint_first_anchored.
      unfold handlePoints, handleOrder, combine, firstHandle, anchoredRegion,
        QRect.topLeft, QRect.of_point_size.
      cbn [QRect.x1 QRect.y1 QPoint.x QPoint.y].
      replace (x <=? x) with true by (symmetry; apply Z.leb_le; lia).
      replace (x <=? x + 19) with true by (symmetry; apply Z.leb_le; lia).
      replace (y <=? y) with true by (symmetry; apply Z.leb_le; lia).
      replace (y <=? y + 19) with true by (symmetry; apply Z.leb_le; lia).
      reflexivity.
  - repeat split; vm_compute; reflexivity.
Qed.

(** The rendering half of C9 holds: while the selection rectangle is
    not valid, the selection part of a frame is empty, so a frame consists
    of the two pixmaps, the preview and the brush indicator only. *)
Lemma paintEvent_invalid_selection {engine : QtPaintEngine}
  (cursorPos : QPoint.t) (s : ScreenshotDisplay) :
  QRect.isValid (selectionRect s) = false ->
  paintSelection s = []
  /\ paintEvent cursorPos s
     = [ DrawPixmap 0 0 (originalPixmap s); DrawPixmap 0 0 (drawingPixmap s) ]
       ++ paintPreview s ++ paintBrushIndicator cursorPos s.
Proof.
  intros H. unfold paintEvent, paintSelection. rewrite H. split; reflexivity.
Qed.

(** ** The undo stack (C4, C10) *)

Lemma undo_after_push (L : QPixmap) (s : ScreenshotDisplay) :
  undo (set_drawingPixmap L (saveStateForUndo s)) = s.
Proof. destruct s; reflexivity. Qed.

(** However many snapshots were pushed, as many undos restore the state
    the first push started from: last in, first out. *)
Lemma undo_all_pushes (edits : list QPixmap) :
  forall s, Nat.iter (List.length edits) undo (pushAll edits s) = s.
Proof.
  induction edits as [|L rest IH]; intros s; [reflexivity|].
  cbn [List.length pushAll].
  rewrite <- (undo_after_push L s) at 2.
  rewrite <- (IH (set_drawingPixmap L (saveStateForUndo s))) at 2.
  generalize (pushAll rest (set_drawingPixmap L (saveStateForUndo s))).
  generalize (List.length rest).
  intros n t. induction n as [|n IHn]; [reflexivity|].
  cbn [Nat.iter] in *. rewrite IHn. reflexivity.
Qed.

(** C4.  The undo stack is last-in first-out over snapshots of the
    annotation layer: a push puts a copy of the current layer on top and
    leaves the layer as it is; an undo on a non-empty stack removes the
    top snapshot and makes it the layer; after a push (S1), an edit to
    [L2], a push (S2) and an edit to [L3], one undo gives [L2] back and
    the second the layer as it was before S1, with the stack as it was;
    and an undo on an empty stack changes nothing. *)
Theorem C4_undo_stack_lifo (s : ScreenshotDisplay) (L2 L3 : QPixmap) :
  (undoStack (saveStateForUndo s) = drawingPixmap s :: undoStack s
   /\ drawingPixmap (saveStateForUndo s) = drawingPixmap s)
  /\ (forall top rest, undoStack s = top :: rest ->
        drawingPixmap (undo s) = top /\ undoStack (undo s) = rest)
  /\ (drawingPixmap (undo (pushAll [L2; L3] s)) = L2
      /\ drawingPixmap (undo (undo (pushAll [L2; L3] s))) = drawingPixmap s
      /\ undoStack (undo (undo (pushAll [L2; L3] s))) = undoStack s
      /\ undo (undo (pushAll [L2; L3] s)) = s)
  /\ (undoStack s = [] -> undo s = s).
Proof.
  split; [split; reflexivity|].
  split.
  { intros top rest H. unfold undo. rewrite H. split; reflexivity. }
  split.
  { pose proof (undo_all_pushes [L2; L3] s) as H.
    change (undo (undo (pushAll [L2; L3] s)) = s) in H.
    rewrite H. repeat split; reflexivity. }
  intros H. unfold undo. rewrite H. reflexivity.
Qed.

(** Instances: a fresh display after one push, and a fresh display. *)
Lemma C4_undo_stack_lifo_witness :
  (undoStack (saveStateForUndo (sample_display Editor.Pen))
   = [drawingPixmap (sample_display Editor.Pen)]
   /\ drawingPixmap (undo (saveStateForUndo (sample_display Editor.Pen)))
      = drawingPixmap (sample_display Editor.Pen)
   /\ undoStack (undo (saveStateForUndo (sample_display Editor.Pen))) = [])
  /\ (undoStack (sample_display Editor.Pen) = []
      /\ undo (sample_display Editor.Pen) = sample_display Editor.Pen).
Proof.
  split.
  - destruct (C4_undo_stack_lifo (saveStateForUndo (sample_display Editor.Pen))
                sample_image sample_image) as (_ & Hpop & _).
    split; [reflexivity|].
    apply (Hpop (drawingPixmap (sample_display Editor.Pen)) []). reflexivity.
  - destruct (C4_undo_stack_lifo (sample_display Editor.Pen)
                sample_image sample_image) as (_ & _ & _ & Hempty).
    split; [reflexivity|]. apply Hempty. reflexivity.
Defined.

(** C10.  An undo touches the annotation layer and the undo stack only:
    the selection rectangle, the captured image, the active tool (the
    toolbar's and the display's own record of it), the colour, the stroke
    width and the font are what they were, whether the stack is empty or
    not; so is every other member, and the stack loses at most its top. *)
Theorem C10_undo_frame (s : ScreenshotDisplay) :
  selectionRect (undo s) = selectionRect s
  /\ originalPixmap (undo s) = originalPixmap s
  /\ Editor.getCurrentTool (editor (undo s)) = Editor.getCurrentTool (editor s)
  /\ currentTool (undo s) = currentTool s
  /\ Editor.getCurrentColor (editor (undo s)) = Editor.getCurrentColor (editor s)
  /\ currentColor (undo s) = currentColor s
  /\ borderWidth (undo s) = borderWidth s
  /\ currentFont (undo s) = currentFont s
  /\ undoStack (undo s) = tl (undoStack s)
  /\ set_undoStack (undoStack s) (set_drawingPixmap (drawingPixmap s) (undo s)) = s.
Proof.
  unfold undo. destruct (undoStack s) eqn:H; cbn [tl].
  - repeat split; try reflexivity; try exact H.
    destruct s; cbn in *; subst; reflexivity.
  - repeat split; try reflexivity. destruct s; cbn in *; subst; reflexivity.
Qed.

(** ** Saving (C3) *)

(** C3.  On a save request answered with a non-empty path, the file
    written at that path is the captured image alone (whatever the
    annotation layer holds, the same file is written), and the display
    closes; answered with the empty path (the dialog was cancelled), the
    state is unchanged: nothing is written and the display stays open. *)
Theorem C3_save_request (s : ScreenshotDisplay) (filePath : string) :
  (filePath <> EmptyString ->
     savedFiles (onSaveRequested filePath s)
     = (filePath, originalPixmap s) :: savedFiles s
     /\ visible (onSaveRequested filePath s) = false
     /\ screenshotClosed (onSaveRequested filePath s) = S (screenshotClosed s)
     /\ clipboard (onSaveRequested filePath s) = clipboard s
     /\ forall layer : QPixmap,
          savedFiles (onSaveRequested filePath (set_drawingPixmap layer s))
          = savedFiles (onSaveRequested filePath s))
  /\ onSaveRequested EmptyString s = s.
Proof.
  split; [|reflexivity].
  intros Hne. unfold onSaveRequested.
  apply String.eqb_neq in Hne. rewrite Hne. cbn [negb].
  repeat split; reflexivity.
Qed.

(** An instance: a fresh display, saved to "shot.png". *)
Lemma C3_save_request_witness :
  "shot.png"%string <> EmptyString
  /\ savedFiles (onSaveRequested "shot.png" (sample_display Editor.None))
     = [("shot.png"%string, sample_image)]
  /\ visible (onSaveRequested "shot.png" (sample_display Editor.None)) = false.
Proof.
  split; [discriminate|].
  destruct (C3_save_request (sample_display Editor.None) "shot.png") as [Hsave _].
  destruct Hsave as (Hfiles & Hvis & _); [discriminate|].
  split; [exact Hfiles | exact Hvis].
Defined.

(** ** Draw gestures and the undo stack (C2) *)

(** Splits on every test a handler makes. *)
Ltac split_tests :=
  repeat match goal with
         | |- context [if ?b then _ else _] => destruct b eqn:?
         | |- context [match ?x with _ => _ end] => destruct x eqn:?
         end.

Section Gestures.

Context {engine : QtPaintEngine}.

(** A pointer-move pushes nothing, leaves the shape flag and the toolbar's
    tool as they are, and paints only when the pen is the tool. *)
Lemma mouseMoveEvent_frame (pos : QPoint.t) (s : ScreenshotDisplay) :
  undoStack (mouseMoveEvent pos s) = undoStack s
  /\ shapeDrawing (mouseMoveEvent pos s) = shapeDrawing s
  /\ Editor.getCurrentTool (editor (mouseMoveEvent pos s))
     = Editor.getCurrentTool (editor s)
  /\ (Editor.getCurrentTool (editor s) <> Editor.Pen ->
      drawingPixmap (mouseMoveEvent pos s) = drawingPixmap s).
Proof.
  unfold mouseMoveEvent, updateTooltip, updateEditorPosition.
  repeat split; try intros Hpen.
  4: destruct (Editor.getCurrentTool (editor s)) eqn:Ht; try congruence.
  all: split_tests; try reflexivity.
  all: cbn in *; unfold Editor.getCurrentTool in *; try congruence.
  all: match goal with
       | H : _ && Editor.tool_eqb _ Editor.Pen = true |- _ =>
           apply andb_true_iff in H; destruct H as [_ H];
           rewrite Ht in H; discriminate H
       end.
Qed.

Lemma run_cons (s : ScreenshotDisplay) (e : Event) (es : list Event) :
  run s (e :: es) = run (step s e) es.
Proof. reflexivity. Qed.

Lemma run_app (s : ScreenshotDisplay) (es es' : list Event) :
  run s (es ++ es') = run (run s es) es'.
Proof. apply fold_left_app. Qed.

(** The same through any number of pointer-moves. *)
Lemma moves_frame (moves : list QPoint.t) :
  forall s,
    undoStack (run s (map MouseMove moves)) = undoStack s
    /\ shapeDrawing (run s (map MouseMove moves)) = shapeDrawing s
    /\ Editor.getCurrentTool (editor (run s (map MouseMove moves)))
       = Editor.getCurrentTool (editor s)
    /\ (Editor.getCurrentTool (editor s) <> Editor.Pen ->
        drawingPixmap (run s (map MouseMove moves)) = drawingPixmap s).
Proof.
  induction moves as [|p moves IH]; intros s.
  - repeat split; reflexivity.
  - cbn [map]. rewrite run_cons. cbn [step].
    destruct (mouseMoveEvent_frame p s) as (Hu & Hs & Ht & Hd).
    destruct (IH (mouseMoveEvent p s)) as (Hu' & Hs' & Ht' & Hd').
    repeat split; try congruence.
    intros Hpen. rewrite Hd' by congruence. auto.
Qed.

(** A pointer-down with a drawing tool (neither None nor Text) pushes the
    layer once and leaves it unpainted; it raises the shape flag unless
    the tool is the pen. *)
Lemma mousePressEvent_draw (pos : QPoint.t) (s : ScreenshotDisplay) :
  Editor.getCurrentTool (editor s) <> Editor.None ->
  Editor.getCurrentTool (editor s) <> Editor.Text ->
  undoStack (mousePressEvent pos s) = drawingPixmap s :: undoStack s
  /\ drawingPixmap (mousePressEvent pos s) = drawingPixmap s
  /\ Editor.getCurrentTool (editor (mousePressEvent pos s))
     = Editor.getCurrentTool (editor s)
  /\ shapeDrawing (mousePressEvent pos s)
     = if Editor.tool_eqb (Editor.getCurrentTool (editor s)) Editor.Pen
       then shapeDrawing s else true.
Proof.
  intros Hnone Htext. unfold mousePressEvent.
  unfold Editor.getCurrentTool in *.
  destruct (Editor.tool (editor s)) eqn:Ht; try congruence;
    cbn; rewrite ?Ht; cbn; rewrite ?Ht; repeat split; reflexivity.
Qed.

(** A pointer-up pushes the layer exactly when a shape is being drawn. *)
Lemma mouseReleaseEvent_undoStack (pos : QPoint.t) (s : ScreenshotDisplay) :
  undoStack (mouseReleaseEvent pos s)
  = if shapeDrawing s then drawingPixmap s :: undoStack s else undoStack s.
Proof.
  unfold mouseReleaseEvent, updateTooltip.
  cbn [shapeDrawing set_selectionStarted set_movingSelection set_currentHandle
       set_drawing].
  destruct (shapeDrawing s); split_tests; reflexivity.
Qed.

(** The pen half of C2 holds: a pen gesture with any number of
    pointer-moves pushes one snapshot, at pointer-down, and the stack is
    that after every event of the gesture. *)
Lemma pen_gesture_pushes_one_snapshot
  (s : ScreenshotDisplay) (down up : QPoint.t) (moves : list QPoint.t) :
  Editor.getCurrentTool (editor s) = Editor.Pen ->
  shapeDrawing s = false ->
  undoStack (mousePressEvent down s) = drawingPixmap s :: undoStack s
  /\ undoStack (run s (MousePress down :: map MouseMove moves))
     = drawingPixmap s :: undoStack s
  /\ undoStack (run s (gesture down moves up)) = drawingPixmap s :: undoStack s.
Proof.
  intros Hpen Hshape.
  assert (Hn : Editor.getCurrentTool (editor s) <> Editor.None) by congruence.
  assert (Ht : Editor.getCurrentTool (editor s) <> Editor.Text) by congruence.
  destruct (mousePressEvent_draw down s Hn Ht) as (Hu & _ & _ & Hs).
  rewrite Hpen in Hs. cbn [Editor.tool_eqb] in Hs.
  destruct (moves_frame moves (mousePressEvent down s)) as (Hu' & Hs' & _).
  split; [exact Hu|]. split.
  - rewrite run_cons. cbn [step]. congruence.
  - unfold gesture. rewrite run_cons, run_app. cbn [step run fold_left].
    rewrite mouseReleaseEvent_undoStack.
    fold (run (mousePressEvent down s) (map MouseMove moves)).
    rewrite Hs', Hs, Hshape. congruence.
Qed.

(** C2 fails on shape gestures: with Rectangle, Ellipse, Line or Arrow as
    the tool, one gesture (pointer-down, any pointer-moves, pointer-up)
    pushes two snapshots, one at pointer-down and one at the commit, both
    of the layer as it was before the gesture. *)
Theorem C2_shape_gesture_pushes_two_snapshots
  (s : ScreenshotDisplay) (down up : QPoint.t) (moves : list QPoint.t) :
  isShapeTool (Editor.getCurrentTool (editor s)) = true ->
  undoStack (mousePressEvent down s) = drawingPixmap s :: undoStack s
  /\ undoStack (run s (gesture down moves up))
     = drawingPixmap s :: drawingPixmap s :: undoStack s.
Proof.
  intros Hshape.
  assert (Hn : Editor.getCurrentTool (editor s) <> Editor.None)
    by (intros E; rewrite E in Hshape; discriminate).
  assert (Ht : Editor.getCurrentTool (editor s) <> Editor.Text)
    by (intros E; rewrite E in Hshape; discriminate).
  assert (Hp : Editor.getCurrentTool (editor s) <> Editor.Pen)
    by (intros E; rewrite E in Hshape; discriminate).
  destruct (mousePressEvent_draw down s Hn Ht) as (Hu & Hd & Htool & Hs).
  assert (Hs1 : shapeDrawing (mousePressEvent down s) = true).
  { rewrite Hs. destruct (Editor.getCurrentTool (editor s));
      try reflexivity; congruence. }
  destruct (moves_frame moves (mousePressEvent down s)) as (Hu' & Hs' & _ & Hd').
  split; [exact Hu|].
  unfold gesture. rewrite run_cons, run_app. cbn [step run fold_left].
  rewrite mouseReleaseEvent_undoStack.
  fold (run (mousePressEvent down s) (map MouseMove moves)).
  rewrite Hs', Hs1, Hu', Hu, Hd' by congruence.
  rewrite Hd. reflexivity.
Qed.

End Gestures.

(** An instance: a rectangle dragged from (0,0) to (10,10) on a fresh
    display leaves two snapshots on the stack. *)
Lemma C2_shape_gesture_pushes_two_snapshots_witness :
  isShapeTool (Editor.getCurrentTool (editor (sample_display Editor.Rectangle)))
  = true
  /\ List.length
       (undoStack
          (run (sample_display Editor.Rectangle)
             (gesture (QPoint.mk 0 0) [QPoint.mk 10 10] (QPoint.mk 10 10))))
     = 2%nat.
Proof.
  split; [reflexivity|].
  destruct (C2_shape_gesture_pushes_two_snapshots
              (sample_display Editor.Rectangle) (QPoint.mk 0 0) (QPoint.mk 10 10)
              [QPoint.mk 10 10] eq_refl) as [_ H].
  rewrite H. reflexivity.
Defined.

(** ** The text overlay (C6) *)

Section TextOverlay.

Context {engine : QtPaintEngine}.




End TextOverlay.



(** ** Copy to clipboard (C5) *)

Lemma QRect_intersected_inside (r : QRect.t) (pm : QPixmap) :
  QRect.isValid r = true ->
  0 <= QRect.x1 r -> 0 <= QRect.y1 r ->
  QRect.x2 r < pwidth pm -> QRect.y2 r < pheight pm ->
  QRect.intersected (QPixmap_rect pm) r = r.
Proof.
  intros Hv Hx Hy Hw Hh.
  apply andb_true_iff in Hv. destruct Hv as [Hvx Hvy].
  apply Z.leb_le in Hvx. apply Z.leb_le in Hvy.
  destruct r as [a b c d]. cbn [QRect.x1 QRect.y1 QRect.x2 QRect.y2] in *.
  unfold QRect.intersected, QPixmap_rect, QRect.isNull, QRect.width, QRect.height.
  cbn [QRect.x1 QRect.y1 QRect.x2 QRect.y2].
  by_cases_on_tests.
  f_equal; lia.
Qed.

(** Cropping to a valid rectangle that lies inside the pixmap gives a
    pixmap of the rectangle's size whose pixel (i, j) is the pixmap's
    pixel (x1 + i, y1 + j). *)
Lemma QPixmap_copy_inside (r : QRect.t) (pm : QPixmap) :
  QRect.isValid r = true ->
  0 <= QRect.x1 r -> 0 <= QRect.y1 r ->
  QRect.x2 r < pwidth pm -> QRect.y2 r < pheight pm ->
  QPixmap_copy r pm
  = mkPixmap (QRect.width r) (QRect.height r)
      (fun i j => pixel pm (QRect.x1 r + i) (QRect.y1 r + j)).
Proof.
  intros Hv Hx Hy Hw Hh.
  unfold QPixmap_copy.
  rewrite (QRect_intersected_inside r pm Hv Hx Hy Hw Hh).
  assert (He : QRect.isEmpty r = false).
  { unfold QRect.isValid in Hv. unfold QRect.isEmpty.
    apply andb_true_iff in Hv. destruct Hv as [Hvx Hvy].
    apply Z.leb_le in Hvx. apply Z.leb_le in Hvy.
    apply orb_false_iff. split; apply Z.ltb_ge; lia. }
  assert (Hn : QPixmap_isNull pm = false).
  { unfold QRect.isValid in Hv. unfold QPixmap_isNull.
    apply andb_true_iff in Hv. destruct Hv as [Hvx Hvy].
    apply Z.leb_le in Hvx. apply Z.leb_le in Hvy.
    apply orb_false_iff. split; apply Z.leb_gt; lia. }
  rewrite Hn. cbv zeta. rewrite He. cbv iota. rewrite He. reflexivity.
Qed.

(** C5, as the code has it.  Copy-to-clipboard composes the annotation
    layer over the captured image (pixel by pixel, where the layer
    lies); if the selection rectangle is valid the clipboard gets the
    composite cropped to it ([QPixmap::copy], which clips the rectangle
    to the image), otherwise the whole composite; then the display
    closes.  For a valid selection inside the image the cropped pixmap
    has the selection's width and height, and its pixel (i, j) is the
    composite's pixel (x1 + i, y1 + j); the rectangle with corners
    (10,10) and (60,40) has width 51 and height 31, so that is the size
    of the pixmap placed on the clipboard. *)
Theorem C5_copy_to_clipboard {engine : QtPaintEngine} (s : ScreenshotDisplay) :
  let composite := drawPixmapOnto 0 0 (drawingPixmap s) (originalPixmap s) in
  let s' := copySelectionToClipboard s in
  visible s' = false
  /\ (pwidth composite = pwidth (originalPixmap s)
      /\ pheight composite = pheight (originalPixmap s)
      /\ forall i j,
           0 <= i < pwidth (drawingPixmap s) ->
           0 <= j < pheight (drawingPixmap s) ->
           pixel composite i j
           = blend (pixel (drawingPixmap s) i j) (pixel (originalPixmap s) i j))
  /\ (QRect.isValid (selectionRect s) = false -> clipboard s' = Some composite)
  /\ (QRect.isValid (selectionRect s) = true ->
      clipboard s' = Some (QPixmap_copy (selectionRect s) composite))
  /\ (QRect.isValid (selectionRect s) = true ->
      0 <= QRect.x1 (selectionRect s) -> 0 <= QRect.y1 (selectionRect s) ->
      QRect.x2 (selectionRect s) < pwidth (originalPixmap s) ->
      QRect.y2 (selectionRect s) < pheight (originalPixmap s) ->
      exists c,
        clipboard s' = Some c
        /\ pwidth c = QRect.width (selectionRect s)
        /\ pheight c = QRect.height (selectionRect s)
        /\ forall i j,
             pixel c i j
             = pixel composite (QRect.x1 (selectionRect s) + i)
                               (QRect.y1 (selectionRect s) + j))
  /\ (selectionRect s = QRect.of_points (QPoint.mk 10 10) (QPoint.mk 60 40) ->
      60 < pwidth (originalPixmap s) -> 40 < pheight (originalPixmap s) ->
      exists c, clipboard s' = Some c /\ pwidth c = 51 /\ pheight c = 31).
Proof.
  intros composite s'.
  assert (Hvalid : QRect.isValid (selectionRect s) = true ->
                   clipboard s' = Some (QPixmap_copy (selectionRect s) composite)).
  { intros Hv. subst s'. unfold copySelectionToClipboard. rewrite Hv. reflexivity. }
  assert (Hinside :
    QRect.isValid (selectionRect s) = true ->
    0 <= QRect.x1 (selectionRect s) -> 0 <= QRect.y1 (selectionRect s) ->
    QRect.x2 (selectionRect s) < pwidth (originalPixmap s) ->
    QRect.y2 (selectionRect s) < pheight (originalPixmap s) ->
    exists c,
      clipboard s' = Some c
      /\ pwidth c = QRect.width (selectionRect s)
      /\ pheight c = QRect.height (selectionRect s)
      /\ forall i j,
           pixel c i j
           = pixel composite (QRect.x1 (selectionRect s) + i)
                             (QRect.y1 (selectionRect s) + j)).
  { intros Hv Hx Hy Hw Hh.
    exists (QPixmap_copy (selectionRect s) composite).
    split; [apply Hvalid; exact Hv|].
    rewrite (QPixmap_copy_inside (selectionRect s) composite Hv Hx Hy Hw Hh).
    repeat split; reflexivity. }
  split.
  { subst s'. unfold copySelectionToClipboard, close.
    destruct (QRect.isValid (selectionRect s)); reflexivity. }
  split.
  { split; [reflexivity|]. split; [reflexivity|].
    intros i j Hi Hj. subst composite. unfold drawPixmapOnto. cbn [pixel].
    replace (0 <=? i - 0) with true by (symmetry; apply Z.leb_le; lia).
    replace (i - 0 <? pwidth (drawingPixmap s)) with true
      by (symmetry; apply Z.ltb_lt; lia).
    replace (0 <=? j - 0) with true by (symmetry; apply Z.leb_le; lia).
    replace (j - 0 <? pheight (drawingPixmap s)) with true
      by (symmetry; apply Z.ltb_lt; lia).
    cbn [andb]. rewrite !Z.sub_0_r. reflexivity. }
  split.
  { intros Hv. subst s'. unfold copySelectionToClipboard. rewrite Hv. reflexivity. }
  split; [exact Hvalid|].
  split; [exact Hinside|].
  intros Hsel Hw Hh.
  destruct Hinside as (c & Hc & Hcw & Hch & _);
    try (rewrite Hsel; cbn; lia); try (rewrite Hsel; reflexivity).
  exists c. rewrite Hcw, Hch, Hsel. repeat split; try exact Hc; reflexivity.
Qed.

(** An instance: the selection with corners (10,10) and (59,39) puts a
    50 x 30 pixmap on the clipboard. *)
Lemma C5_copy_to_clipboard_witness :
  QRect.isValid
    (selectionRect
       (set_selectionRect (QRect.of_points (QPoint.mk 10 10) (QPoint.mk 59 39))
          (sample_display Editor.None))) = true
  /\ option_map (fun c => (pwidth c, pheight c))
       (clipboard
          (copySelectionToClipboard
             (set_selectionRect (QRect.of_points (QPoint.mk 10 10) (QPoint.mk 59 39))
                (sample_display Editor.None))))
     = Some (50, 30).
Proof.
  split; [reflexivity|].
  destruct (C5_copy_to_clipboard
              (set_selectionRect (QRect.of_points (QPoint.mk 10 10) (QPoint.mk 59 39))
                 (sample_display Editor.None)))
    as (_ & _ & _ & _ & Hinside & _).
  destruct Hinside as (c & Hc & Hw & Hh & _);
    [ reflexivity | vm_compute; discriminate | vm_compute; discriminate
    | reflexivity | reflexivity | ].
  rewrite Hc. cbn [option_map]. rewrite Hw, Hh. reflexivity.
Defined.

(** C5's example fails.  A selection dragged from (10,10) to (60,40) is
    the rectangle with those two corners, both inclusive, and the pixmap
    placed on the clipboard is 51 wide and 31 high, not 50 x 30. *)
Lemma C5_crop_size_counterexample :
  selectionRect
    (run (sample_display Editor.None)
       [MousePress (QPoint.mk 150 80); MouseRelease (QPoint.mk 150 80);
        MousePress (QPoint.mk 10 10); MouseMove (QPoint.mk 60 40);
        MouseRelease (QPoint.mk 60 40)])
  = QRect.of_points (QPoint.mk 10 10) (QPoint.mk 60 40)
  /\ option_map (fun c => (pwidth c, pheight c))
       (clipboard
          (copySelectionToClipboard
             (run (sample_display Editor.None)
                [MousePress (QPoint.mk 150 80); MouseRelease (QPoint.mk 150 80);
                 MousePress (QPoint.mk 10 10); MouseMove (QPoint.mk 60 40);
                 MouseRelease (QPoint.mk 60 40)])))
     = Some (51, 31)
  /\ option_map (fun c => (pwidth c, pheight c))
       (clipboard
          (copySelectionToClipboard
             (run (sample_display Editor.None)
                [MousePress (QPoint.mk 150 80); MouseRelease (QPoint.mk 150 80);
                 MousePress (QPoint.mk 10 10); MouseMove (QPoint.mk 60 40);
                 MouseRelease (QPoint.mk 60 40)])))
     <> Some (50, 30).
Proof.
  repeat split; try (vm_compute; reflexivity). vm_compute. discriminate.
Qed.

(** ** The selection rectangle (C7) *)

Section Selection.

Context {engine : QtPaintEngine}.

Ltac handler_cases :=
  split_tests;
  cbn -[QRect.normalized QRect.moveTopLeft QRect.of_point_size QRect.of_points
        QPoint.sub QPoint.add];
  auto.

Lemma finalizeTextEdit_selectionRect (s : ScreenshotDisplay) :
  selectionRect (finalizeTextEdit s) = selectionRect s.
Proof. unfold finalizeTextEdit. destruct (textEdit s); reflexivity. Qed.

Lemma close_selectionRect (s : ScreenshotDisplay) :
  selectionRect (close s) = selectionRect s.
Proof. reflexivity. Qed.

Lemma copySelectionToClipboard_selectionRect (s : ScreenshotDisplay) :
  selectionRect (copySelectionToClipboard s) = selectionRect s.
Proof.
  unfold copySelectionToClipboard.
  destruct (QRect.isValid (selectionRect s)); reflexivity.
Qed.

(** A pointer-down leaves the selection rectangle alone or makes it the
    rectangle [QRect(pos, QSize())]. *)
Lemma mousePressEvent_selectionRect (pos : QPoint.t) (s : ScreenshotDisplay) :
  selectionRect (mousePressEvent pos s) = selectionRect s
  \/ selectionRect (mousePressEvent pos s) = QRect.of_point_size pos QSize.invalid.
Proof.
  unfold mousePressEvent.
  destruct (Editor.tool_eqb (Editor.getCurrentTool (editor s)) Editor.None).
  - destruct (negb _); [left; reflexivity|].
    destruct (QRect.contains _ _); [left|right]; reflexivity.
  - destruct (Editor.tool_eqb (Editor.getCurrentTool (editor s)) Editor.Text).
    + destruct (textEdit s); left;
        [apply finalizeTextEdit_selectionRect | reflexivity].
    + left. handler_cases.
Qed.

(** A pointer-move leaves it alone, spans it from the origin to the
    pointer and normalizes it, or moves it. *)
Lemma mouseMoveEvent_selectionRect (pos : QPoint.t) (s : ScreenshotDisplay) :
  (selectionStarted s = true /\
   selectionRect (mouseMoveEvent pos s)
   = QRect.normalized (QRect.of_points (origin s) pos))
  \/ (selectionStarted s = false /\
      (selectionRect (mouseMoveEvent pos s) = selectionRect s
       \/ selectionRect (mouseMoveEvent pos s)
          = QRect.moveTopLeft (QPoint.sub pos (selectionOffset s)) (selectionRect s))).
Proof.
  unfold mouseMoveEvent, updateTooltip, updateEditorPosition,
    Editor.getCurrentTool, Editor.isHidden.
  destruct (selectionStarted s) eqn:Hstarted; [left | right];
    (split; [reflexivity|]).
  - handler_cases; cbn in *; try congruence.
  - destruct (movingSelection s) eqn:Hmoving.
    + destruct (drawing s && Editor.tool_eqb (Editor.tool (editor s)) Editor.Pen)
        eqn:Hpen; [left|].
      * handler_cases; cbn in *; try congruence.
      * destruct (shapeDrawing s) eqn:Hshape; [left | right];
          handler_cases; cbn in *; try congruence.
    + left. handler_cases; cbn in *; try congruence.
Qed.

(** Every other event leaves the selection rectangle alone. *)
Lemma other_events_selectionRect (s : ScreenshotDisplay) (e : Event) :
  match e with
  | MousePress _ | MouseMove _ | ResizeSelection _ => True
  | _ => selectionRect (step s e) = selectionRect s
  end.
Proof.
  destruct e; try exact I; cbn [step].
  - unfold mouseReleaseEvent, updateTooltip. handler_cases.
  - unfold keyPressEvent. split_tests;
      rewrite ?close_selectionRect, ?copySelectionToClipboard_selectionRect,
        ?finalizeTextEdit_selectionRect; reflexivity.
  - unfold wheelEvent, adjustTextEditSize. handler_cases.
  - reflexivity.
  - reflexivity.
  - unfold textChanged, adjustTextEditSize. handler_cases.
  - unfold onSaveRequested. handler_cases.
  - apply copySelectionToClipboard_selectionRect.
  - reflexivity.
  - reflexivity.
  - unfold undo. handler_cases.
  - unfold escapeShortcut. handler_cases.
Qed.

(** [resizeSelection] ends with [normalized()], whichever handle is the
    current one and wherever the point is. *)
Lemma resizeSelection_normalized (point : QPoint.t) (s : ScreenshotDisplay) :
  isNormalized (selectionRect (resizeSelection point s)).
Proof. unfold resizeSelection. cbn [selectionRect set_selectionRect].
  apply QRect_normalized_is_normalized.
Qed.

Lemma step_selectionInvariant (s : ScreenshotDisplay) (e : Event) :
  selectionInvariant (selectionRect s) ->
  selectionInvariant (selectionRect (step s e)).
Proof.
  intros Hinv.
  pose proof (other_events_selectionRect s e) as Hother.
  destruct e; try (rewrite Hother; exact Hinv); cbn [step].
  - destruct (mousePressEvent_selectionRect pos s) as [H|H]; rewrite H.
    + exact Hinv.
    + right. apply QRect_invalid_size.
  - destruct (mouseMoveEvent_selectionRect pos s) as [[_ H]|[_ [H|H]]]; rewrite H.
    + left. apply QRect_normalized_is_normalized.
    + exact Hinv.
    + unfold selectionInvariant, isNormalized in *.
      destruct (QRect_moveTopLeft_size (QPoint.sub pos (selectionOffset s))
                  (selectionRect s)) as [Hw Hh].
      rewrite Hw, Hh. exact Hinv.
  - left. apply resizeSelection_normalized.
Qed.

Lemma run_selectionInvariant (es : list Event) :
  forall s,
    selectionInvariant (selectionRect s) ->
    selectionInvariant (selectionRect (run s es)).
Proof.
  induction es as [|e es IH]; intros s Hinv; [exact Hinv|].
  rewrite run_cons. apply IH. apply step_selectionInvariant. exact Hinv.
Qed.

(** C7, as the code has it.  In every state the display can be in after
    any sequence of events, the selection rectangle is normalized or it is
    the rectangle [QRect(origin, QSize())] of a selection just begun,
    whose width and height are -1.  After every pointer-move of a
    drag-create and after every [resizeSelection], whichever the current
    handle and however far the point is dragged past the opposite side,
    it is normalized; a pointer-move that moves the selection, or does
    anything else, keeps a normalized rectangle normalized; and the
    pointer-down that begins a new selection makes its width and height
    -1. *)
Theorem C7_selection_rect_invariant :
  (forall (pixmap : QPixmap) (ed : Editor.t) (es : list Event),
      selectionInvariant (selectionRect (run (ScreenshotDisplay_new pixmap ed) es)))
  /\ (forall (s : ScreenshotDisplay) (pos : QPoint.t),
        selectionStarted s = true ->
        isNormalized (selectionRect (mouseMoveEvent pos s)))
  /\ (forall (s : ScreenshotDisplay) (pos : QPoint.t),
        selectionStarted s = false ->
        isNormalized (selectionRect s) ->
        isNormalized (selectionRect (mouseMoveEvent pos s)))
  /\ (forall (s : ScreenshotDisplay) (point : QPoint.t),
        isNormalized (selectionRect (resizeSelection point s)))
  /\ (forall (s : ScreenshotDisplay) (pos : QPoint.t),
        Editor.getCurrentTool (editor s) = Editor.None ->
        handleAtPoint (selectionRect s) pos = HandlePosition.None ->
        QRect.contains (selectionRect s) pos = false ->
        QRect.width (selectionRect (mousePressEvent pos s)) = -1
        /\ QRect.height (selectionRect (mousePressEvent pos s)) = -1).
Proof.
  split.
  { intros pixmap ed es. apply run_selectionInvariant.
    left. unfold isNormalized. cbn. lia. }
  split.
  { intros s pos Hs.
    destruct (mouseMoveEvent_selectionRect pos s) as [[_ H]|[Hf _]];
      [|congruence].
    rewrite H. apply QRect_normalized_is_normalized. }
  split.
  { intros s pos Hs Hn.
    destruct (mouseMoveEvent_selectionRect pos s) as [[Ht _]|[_ [H|H]]];
      [congruence| |]; rewrite H; [exact Hn|].
    unfold isNormalized in *.
    destruct (QRect_moveTopLeft_size (QPoint.sub pos (selectionOffset s))
                (selectionRect s)) as [Hw Hh].
    rewrite Hw, Hh. exact Hn. }
  split; [intros s point; apply resizeSelection_normalized|].
  intros s pos Htool Hh Hc.
  unfold mousePressEvent. rewrite Htool, Hh, Hc.
  cbn [Editor.tool_eqb HandlePosition.eqb negb selectionRect set_selectionRect
       set_selectionStarted set_origin set_currentHandle set_movingSelection].
  apply QRect_invalid_size.
Qed.

End Selection.

(** Instances: a drag from (50,50) up and left to (20,10), and the
    pointer-down at (50,50) that begins it. *)
Lemma C7_selection_rect_invariant_witness :
  (selectionStarted (mousePressEvent (QPoint.mk 50 50) (sample_display Editor.None))
   = true
   /\ isNormalized
        (selectionRect
           (mouseMoveEvent (QPoint.mk 20 10)
              (mousePressEvent (QPoint.mk 50 50) (sample_display Editor.None)))))
  /\ (Editor.getCurrentTool (editor (sample_display Editor.None)) = Editor.None
      /\ handleAtPoint (selectionRect (sample_display Editor.None)) (QPoint.mk 50 50)
         = HandlePosition.None
      /\ QRect.contains (selectionRect (sample_display Editor.None)) (QPoint.mk 50 50)
         = false
      /\ QRect.width
           (selectionRect
              (mousePressEvent (QPoint.mk 50 50) (sample_display Editor.None)))
         = -1).
Proof.
  destruct (@C7_selection_rect_invariant sample_engine)
    as (_ & Hdrag & Hmove & _ & Hbegin).
  split.
  - split; [reflexivity|]. apply Hdrag. reflexivity.
  - split; [reflexivity|]. split; [reflexivity|]. split; [reflexivity|].
    apply (Hbegin (sample_display Editor.None) (QPoint.mk 50 50));
      reflexivity.
Defined.

(** C7 as stated fails at the pointer-down that begins a selection: on a
    fresh display with no tool active, after a pointer-down at (50,50),
    and still after the pointer-up of a click without a move, the
    selection rectangle has width -1 and height -1. *)
Lemma C7_begin_selection_counterexample :
  QRect.width
    (selectionRect (run (sample_display Editor.None) [MousePress (QPoint.mk 50 50)]))
  = -1
  /\ QRect.height
       (selectionRect (run (sample_display Editor.None) [MousePress (QPoint.mk 50 50)]))
     = -1
  /\ ~ isNormalized
         (selectionRect
            (run (sample_display Editor.None) [MousePress (QPoint.mk 50 50)]))
  /\ ~ isNormalized
         (selectionRect
            (run (sample_display Editor.None)
               [MousePress (QPoint.mk 50 50); MouseRelease (QPoint.mk 50 50)])).
Proof.
  repeat split; try (vm_compute; reflexivity).
  - intros [H _]. vm_compute in H. apply H. reflexivity.
  - intros [H _]. vm_compute in H. apply H. reflexivity.
Qed.

(** * Further properties of the handlers *)

(** Reduces the projections of a state built by assignments. *)
Ltac state_cbn :=
  cbn [
       originalPixmap drawingPixmap selectionRect selectionStarted
       movingSelection currentHandle handleOffset selectionOffset origin
       drawing shapeDrawing lastPoint drawingEnd currentShapeRect
       currentColor currentTool borderWidth currentFont text
       textBoundingRect textEdit textEditPosition undoStack editor
       cursor cursorPosition visible screenshotClosed clipboard
       savedFiles toolTip set_drawingPixmap set_selectionRect
       set_selectionStarted set_movingSelection set_currentHandle
       set_handleOffset set_selectionOffset set_origin set_drawing
       set_shapeDrawing set_lastPoint set_drawingEnd
       set_currentShapeRect set_currentTool set_borderWidth
       set_currentFont set_textEdit set_textEditPosition set_undoStack
       set_editor set_cursor set_visible set_screenshotClosed
       set_clipboard set_savedFiles set_toolTip Editor.tool Editor.color
       Editor.hidden Editor.pos Editor.getCurrentTool
       Editor.getCurrentColor Editor.isHidden Editor.deselectTools
       Editor.selectTool Editor.show Editor.hide Editor.move
       Editor.tool_eqb te_font te_textColor te_plainText te_pos
       te_fixedWidth pointSize family negb andb orb HandlePosition.eqb ].

Ltac state_cbn_in_all :=
  cbn [
       originalPixmap drawingPixmap selectionRect selectionStarted
       movingSelection currentHandle handleOffset selectionOffset origin
       drawing shapeDrawing lastPoint drawingEnd currentShapeRect
       currentColor currentTool borderWidth currentFont text
       textBoundingRect textEdit textEditPosition undoStack editor
       cursor cursorPosition visible screenshotClosed clipboard
       savedFiles toolTip set_drawingPixmap set_selectionRect
       set_selectionStarted set_movingSelection set_currentHandle
       set_handleOffset set_selectionOffset set_origin set_drawing
       set_shapeDrawing set_lastPoint set_drawingEnd
       set_currentShapeRect set_currentTool set_borderWidth
       set_currentFont set_textEdit set_textEditPosition set_undoStack
       set_editor set_cursor set_visible set_screenshotClosed
       set_clipboard set_savedFiles set_toolTip Editor.tool Editor.color
       Editor.hidden Editor.pos Editor.getCurrentTool
       Editor.getCurrentColor Editor.isHidden Editor.deselectTools
       Editor.selectTool Editor.show Editor.hide Editor.move
       Editor.tool_eqb te_font te_textColor te_plainText te_pos
       te_fixedWidth pointSize family negb andb orb HandlePosition.eqb ] in *.

(** Opens every handler and every helper it calls. *)
Ltac open_handlers :=
  unfold step, mousePressEvent, mouseMoveEvent, mouseReleaseEvent,
    keyPressEvent, wheelEvent, toolChanged, onToolSelected, colorChanged,
    textChanged, onSaveRequested, copySelectionToClipboard,
    onPublishRequested, onCloseRequested, undo, escapeShortcut,
    resizeSelection, finalizeTextEdit, saveStateForUndo, updateTooltip,
    updateEditorPosition, adjustTextEditSize, close.
(** ** The stroke width (wheelEvent) *)

Lemma clamp_is_clampedWidth (v : Z) : clamp v 1 20 = clampedWidth v.
Proof.
  unfold clamp, clampedWidth.
  destruct (Z.ltb_spec v 1); [lia|]. destruct (Z.ltb_spec 20 v); lia.
Qed.

Section StrokeWidth.

Context {engine : QtPaintEngine}.

(** No event but the wheel touches the stroke width, and the wheel
    clamps it. *)
Lemma step_borderWidth (s : ScreenshotDisplay) (e : Event) :
  borderWidth (step s e) = borderWidth s
  \/ exists dy, borderWidth (step s e)
                = clampedWidth (borderWidth s + Z.quot dy 120).
Proof.
  destruct e;
    try (left; open_handlers; split_tests; reflexivity).
  cbn [step]. unfold wheelEvent.
  destruct (negb (Editor.tool_eqb (Editor.getCurrentTool (editor s)) Editor.None)
            && negb (Editor.tool_eqb (Editor.getCurrentTool (editor s)) Editor.Text));
    [right; exists angleDeltaY | left];
    unfold adjustTextEditSize; split_tests; state_cbn;
    rewrite ?clamp_is_clampedWidth; reflexivity.
Qed.

Lemma run_borderWidth_in_range (es : list Event) :
  forall s, 1 <= borderWidth s <= 20 -> 1 <= borderWidth (run s es) <= 20.
Proof.
  induction es as [|e es IH]; intros s Hs; [exact Hs|].
  rewrite run_cons. apply IH.
  destruct (step_borderWidth s e) as [H|[dy H]]; rewrite H;
    [exact Hs | unfold clampedWidth; lia].
Qed.

(** X1.  The stroke width starts at 5 and stays between 1 and 20 whatever
    events follow.  With a drawing tool active (neither None nor Text) a
    wheel event adds [angleDelta / 120], rounded towards zero, and clamps
    the sum to 1..20, so less than a full notch changes nothing that is
    in range; with no tool or the Text tool the wheel leaves the width
    alone. *)
Theorem stroke_width_in_range :
  (forall (pixmap : QPixmap) (ed : Editor.t) (es : list Event),
      1 <= borderWidth (run (ScreenshotDisplay_new pixmap ed) es) <= 20)
  /\ (forall (s : ScreenshotDisplay) (dy : Z),
        Editor.getCurrentTool (editor s) <> Editor.None ->
        Editor.getCurrentTool (editor s) <> Editor.Text ->
        borderWidth (wheelEvent dy s) = clampedWidth (borderWidth s + Z.quot dy 120)
        /\ (1 <= borderWidth s <= 20 -> -120 < dy < 120 ->
            borderWidth (wheelEvent dy s) = borderWidth s))
  /\ (forall (s : ScreenshotDisplay) (dy : Z),
        Editor.getCurrentTool (editor s) = Editor.None
        \/ Editor.getCurrentTool (editor s) = Editor.Text ->
        borderWidth (wheelEvent dy s) = borderWidth s).
Proof.
  split.
  { intros pixmap ed es. apply run_borderWidth_in_range. cbn. lia. }
  split.
  { intros s dy Hn Ht.
    assert (H : borderWidth (wheelEvent dy s)
                = clampedWidth (borderWidth s + Z.quot dy 120)).
    { unfold wheelEvent, Editor.getCurrentTool in *.
      destruct (Editor.tool (editor s)) eqn:E; try congruence;
        state_cbn; rewrite ?E; state_cbn;
        rewrite clamp_is_clampedWidth; reflexivity. }
    split; [exact H|].
    intros Hr Hdy. rewrite H.
    assert (Hq : Z.quot dy 120 = 0).
    { destruct (Z.le_gt_cases 0 dy).
      - apply Z.quot_small; lia.
      - rewrite <- (Z.opp_involutive dy), Z.quot_opp_l by lia.
        rewrite Z.quot_small by lia. reflexivity. }
    rewrite Hq. unfold clampedWidth. lia. }
  intros s dy Htool.
  unfold wheelEvent, adjustTextEditSize, Editor.getCurrentTool in *.
  destruct Htool as [Htool|Htool]; rewrite Htool; state_cbn;
    rewrite ?Htool; state_cbn; split_tests; reflexivity.
Qed.

End StrokeWidth.

(** An instance: five notches up from 18 stop at 20. *)
Lemma stroke_width_in_range_witness :
  Editor.getCurrentTool (editor (set_borderWidth 18 (sample_display Editor.Pen)))
  <> Editor.None
  /\ Editor.getCurrentTool (editor (set_borderWidth 18 (sample_display Editor.Pen)))
     <> Editor.Text
  /\ borderWidth (wheelEvent 600 (set_borderWidth 18 (sample_display Editor.Pen)))
     = 20.
Proof.
  destruct (@stroke_width_in_range sample_engine) as (_ & Hwheel & _).
  split; [discriminate|]. split; [discriminate|].
  destruct (Hwheel (set_borderWidth 18 (sample_display Editor.Pen)) 600)
    as [H _]; [discriminate | discriminate |].
  rewrite H. reflexivity.
Defined.

(** ** The font of the text tool (wheelEvent, mousePressEvent) *)

Section TextFont.

Context {engine : QtPaintEngine}.

Lemma step_font_invariant (s : ScreenshotDisplay) (e : Event) :
  0 < pointSize (currentFont s) /\ sessionFontInSync s ->
  0 < pointSize (currentFont (step s e)) /\ sessionFontInSync (step s e).
Proof.
  intros [Hpos Hsync]. unfold sessionFontInSync in *.
  destruct e; open_handlers; split_tests; state_cbn;
    (split;
     [ try exact Hpos; try (apply Z.ltb_lt; assumption)
     | intros te' Hte'; state_cbn_in_all;
       try discriminate Hte';
       try (apply Hsync; congruence);
       try (injection Hte' as <-; state_cbn;
            try reflexivity; apply Hsync; congruence) ]).
  all: repeat match goal with
              | H : Some _ = Some _ |- _ => injection H as H; subst
              end;
    state_cbn;
    first [ reflexivity | apply Hsync; congruence
          | symmetry; apply Hsync; congruence ].
Qed.

Lemma run_font_invariant (es : list Event) :
  forall s,
    0 < pointSize (currentFont s) /\ sessionFontInSync s ->
    0 < pointSize (currentFont (run s es)) /\ sessionFontInSync (run s es).
Proof.
  induction es as [|e es IH]; intros s Hs; [exact Hs|].
  rewrite run_cons. apply IH. apply step_font_invariant. exact Hs.
Qed.

(** X2.  The font starts as Arial 16 and, whatever events follow, its point
    size stays positive and an open text field shows exactly that font.
    With the Text tool and a session open, a wheel event adds
    [angleDelta / 120] to the point size when the sum is positive and
    changes nothing about the font otherwise; without a session the wheel
    leaves the font alone. *)
Theorem text_font_positive_and_in_sync :
  (forall (pixmap : QPixmap) (ed : Editor.t) (es : list Event),
      0 < pointSize (currentFont (run (ScreenshotDisplay_new pixmap ed) es))
      /\ sessionFontInSync (run (ScreenshotDisplay_new pixmap ed) es))
  /\ (forall (s : ScreenshotDisplay) (te : QTextEdit) (dy : Z),
        Editor.getCurrentTool (editor s) = Editor.Text ->
        textEdit s = Some te ->
        (0 < pointSize (currentFont s) + Z.quot dy 120 ->
         currentFont (wheelEvent dy s)
         = mkFont (family (currentFont s)) (pointSize (currentFont s) + Z.quot dy 120))
        /\ (pointSize (currentFont s) + Z.quot dy 120 <= 0 ->
            wheelEvent dy s = s))
  /\ (forall (s : ScreenshotDisplay) (dy : Z),
        textEdit s = None ->
        currentFont (wheelEvent dy s) = currentFont s).
Proof.
  split.
  { intros pixmap ed es. apply run_font_invariant.
    split; [cbn; lia|]. intros te Hte. discriminate Hte. }
  split.
  { intros s te dy Htool Hte.
    unfold wheelEvent, adjustTextEditSize, Editor.getCurrentTool in *.
    rewrite Htool. state_cbn. rewrite ?Htool, ?Hte. state_cbn.
    rewrite ?Htool, ?Hte.
    split; intros Hsize.
    - apply Z.ltb_lt in Hsize. rewrite Hsize. state_cbn. reflexivity.
    - apply Z.ltb_ge in Hsize. rewrite Hsize. reflexivity. }
  intros s dy Hte.
  unfold wheelEvent, adjustTextEditSize.
  split_tests; state_cbn; try reflexivity; state_cbn_in_all; congruence.
Qed.

End TextFont.

(** An instance: with "Hi" being typed at 16 points, twenty notches down
    would reach -4 points, and nothing changes. *)
Lemma text_font_positive_and_in_sync_witness :
  Editor.getCurrentTool
    (editor
       (run (sample_display Editor.Text)
          [MousePress (QPoint.mk 50 50); TextChanged "Hi"]))
  = Editor.Text
  /\ textEdit
       (run (sample_display Editor.Text)
          [MousePress (QPoint.mk 50 50); TextChanged "Hi"])
     = Some (mkTextEdit (mkFont "Arial" 16) Qt_black "Hi" (QPoint.mk 50 50) (Some 42))
  /\ pointSize
       (currentFont
          (wheelEvent (-2400)
             (run (sample_display Editor.Text)
                [MousePress (QPoint.mk 50 50); TextChanged "Hi"])))
     = 16.
Proof.
  assert (Htool :
    Editor.getCurrentTool
      (editor
         (run (sample_display Editor.Text)
            [MousePress (QPoint.mk 50 50); TextChanged "Hi"]))
    = Editor.Text) by reflexivity.
  assert (Hte :
    textEdit
      (run (sample_display Editor.Text)
         [MousePress (QPoint.mk 50 50); TextChanged "Hi"])
    = Some (mkTextEdit (mkFont "Arial" 16) Qt_black "Hi" (QPoint.mk 50 50) (Some 42)))
    by reflexivity.
  split; [exact Htool|]. split; [exact Hte|].
  destruct (@text_font_positive_and_in_sync sample_engine) as (_ & Hwheel & _).
  destruct (Hwheel _ _ (-2400) Htool Hte) as [_ Hsame].
  rewrite Hsame; [reflexivity | vm_compute; discriminate].
Defined.

(** ** Closing (closeEvent and its callers) *)

Section Closing.

Context {engine : QtPaintEngine}.

(** X3.  The display closes on exactly the events of [closesDisplay], and on
    no other.  Closing hides the display and the toolbar, emits
    [screenshotClosed], and drops an open text session without
    committing it: the annotation layer and the undo stack are what they
    were.  Every other event leaves the display as visible as it was and
    emits nothing. *)
Theorem display_closes_exactly_on_close_events
  (s : ScreenshotDisplay) (e : Event) :
  (closesDisplay s e = true ->
     visible (step s e) = false
     /\ Editor.isHidden (editor (step s e)) = true
     /\ (screenshotClosed s < screenshotClosed (step s e))%nat
     /\ textEdit (step s e) = None
     /\ drawingPixmap (step s e) = drawingPixmap s
     /\ undoStack (step s e) = undoStack s)
  /\ (closesDisplay s e = false ->
        visible (step s e) = visible s
        /\ screenshotClosed (step s e) = screenshotClosed s).
Proof.
  split; intros Hc.
  - destruct e; try discriminate Hc; cbn [closesDisplay] in Hc.
    + destruct key; try discriminate Hc.
      * unfold step, keyPressEvent.
        apply negb_false_iff in Hc. rewrite <- negb_involutive in Hc.
        apply negb_false_iff in Hc.
        unfold Editor.getCurrentTool in *.
        destruct (Editor.tool (editor s)); try discriminate Hc.
        state_cbn. unfold close. state_cbn. repeat split; lia.
      * destruct ctrl; try discriminate Hc.
        unfold step, keyPressEvent, copySelectionToClipboard, close.
        split_tests; try discriminate; state_cbn; repeat split; lia.
    + unfold step, onSaveRequested, close. rewrite Hc. state_cbn.
      repeat split; lia.
    + unfold step, copySelectionToClipboard, close.
      split_tests; state_cbn; repeat split; lia.
    + unfold step, onCloseRequested, close. state_cbn. repeat split; lia.
    + unfold step, escapeShortcut, close.
      unfold Editor.getCurrentTool in *. rewrite Hc. state_cbn.
      repeat split; lia.
  - destruct e; cbn [closesDisplay] in Hc; try discriminate Hc.
    all: try (open_handlers; split_tests; state_cbn; split; reflexivity).
    + destruct key; [ | destruct ctrl; try discriminate Hc | | ];
        unfold step, keyPressEvent, finalizeTextEdit, saveStateForUndo;
        unfold Editor.getCurrentTool in *; try rewrite Hc;
        split_tests; state_cbn_in_all; try discriminate;
        split; reflexivity.
    + unfold step, onSaveRequested. rewrite Hc. split; reflexivity.
    + unfold step, escapeShortcut.
      unfold Editor.getCurrentTool in *. rewrite Hc. split; reflexivity.
Qed.

End Closing.

(** An instance: a session with "Hi" typed is open, the tools are
    deselected, and Escape closes the display; the text is gone. *)
Lemma display_closes_exactly_on_close_events_witness :
  closesDisplay
    (run (sample_display Editor.Text)
       [MousePress (QPoint.mk 50 50); TextChanged "Hi"; ToolChanged Editor.None])
    (KeyPress Key_Escape false) = true
  /\ textEdit
       (run (sample_display Editor.Text)
          [MousePress (QPoint.mk 50 50); TextChanged "Hi"; ToolChanged Editor.None;
           KeyPress Key_Escape false])
     = None
  /\ closesDisplay (sample_display Editor.Pen) (Wheel 120) = false
  /\ visible (step (sample_display Editor.Pen) (Wheel 120)) = true.
Proof.
  assert (Hc :
    closesDisplay
      (run (sample_display Editor.Text)
         [MousePress (QPoint.mk 50 50); TextChanged "Hi"; ToolChanged Editor.None])
      (KeyPress Key_Escape false) = true) by reflexivity.
  split; [exact Hc|].
  destruct (display_closes_exactly_on_close_events
              (run (sample_display Editor.Text)
                 [MousePress (QPoint.mk 50 50); TextChanged "Hi";
                  ToolChanged Editor.None])
              (KeyPress Key_Escape false)) as [Hclose _].
  destruct (Hclose Hc) as (_ & _ & _ & Hte & _).
  split; [exact Hte|].
  split; [reflexivity|].
  destruct (display_closes_exactly_on_close_events
              (sample_display Editor.Pen) (Wheel 120)) as [_ Hopen].
  destruct (Hopen eq_refl) as [Hv _]. rewrite Hv. reflexivity.
Defined.

(** ** Geometry of the hit test (handleAtPoint, drawHandles) *)

Lemma half_bounds (w : Z) :
  0 <= w -> 0 <= Z.quot w 2 /\ 2 * Z.quot w 2 <= w <= 2 * Z.quot w 2 + 1.
Proof.
  intros Hw. rewrite Z.quot_div_nonneg by lia.
  pose proof (Z.div_mod w 2 ltac:(lia)) as Hdm.
  pose proof (Z.mod_pos_bound w 2 ltac:(lia)) as Hmod.
  split; [apply Z.div_pos; lia | lia].
Qed.

Lemma anchoredRegion_true (c p : QPoint.t) :
  anchoredRegion c p = true <->
  QPoint.x c <= QPoint.x p <= QPoint.x c + 19
  /\ QPoint.y c <= QPoint.y p <= QPoint.y c + 19.
Proof.
  unfold anchoredRegion. rewrite !andb_true_iff, !Z.leb_le. lia.
Qed.

Lemma anchoredRegion_false (c p : QPoint.t) :
  anchoredRegion c p = false <->
  QPoint.x p < QPoint.x c \/ QPoint.x c + 19 < QPoint.x p
  \/ QPoint.y p < QPoint.y c \/ QPoint.y c + 19 < QPoint.y p.
Proof.
  unfold anchoredRegion. rewrite !andb_false_iff, !Z.leb_gt. lia.
Qed.

(** Reads the answer of [handleAtPoint] as facts about the eight
    regions: those tested before the answer do not hold the point, the
    answer's does. *)
Ltac hit_test_cases sel p :=
  rewrite (handleAtPoint_first_anchored sel p) in *;
  unfold handlePoints, handleOrder, combine, firstHandle in *;
  repeat match goal with
         | H : context [if anchoredRegion ?c p then _ else _] |- _ =>
             let E := fresh "E" in
             destruct (anchoredRegion c p) eqn:E;
             [apply anchoredRegion_true in E | apply anchoredRegion_false in E]
         | |- context [if anchoredRegion ?c p then _ else _] =>
             let E := fresh "E" in
             destruct (anchoredRegion c p) eqn:E;
             [apply anchoredRegion_true in E | apply anchoredRegion_false in E]
         end;
  unfold QPoint.add, QRect.topLeft, QRect.topRight, QRect.bottomLeft,
    QRect.bottomRight, QRect.width, QRect.height in *;
  cbn [QPoint.x QPoint.y] in *.

(** X4.  For a valid selection rectangle, every point that hits a handle lies
    in the rectangle grown by 19 pixels to the right and downwards:
    nothing to the left of or above the rectangle hits a handle. *)
Theorem handle_hits_lie_right_and_below (sel : QRect.t) (p : QPoint.t) :
  QRect.isValid sel = true ->
  handleAtPoint sel p <> HandlePosition.None ->
  QRect.x1 sel <= QPoint.x p <= QRect.x2 sel + 19
  /\ QRect.y1 sel <= QPoint.y p <= QRect.y2 sel + 19.
Proof.
  intros Hv Hhit.
  apply andb_true_iff in Hv. destruct Hv as [Hvx Hvy].
  apply Z.leb_le in Hvx. apply Z.leb_le in Hvy.
  pose proof (half_bounds (QRect.x2 sel - QRect.x1 sel + 1) ltac:(lia)) as Hw.
  pose proof (half_bounds (QRect.y2 sel - QRect.y1 sel + 1) ltac:(lia)) as Hh.
  hit_test_cases sel p; try congruence; lia.
Qed.

Lemma handle_hits_lie_right_and_below_witness :
  QRect.isValid (QRect.mk 100 100 299 299) = true
  /\ handleAtPoint (QRect.mk 100 100 299 299) (QPoint.mk 310 205)
     <> HandlePosition.None
  /\ 100 <= 310 <= 299 + 19.
Proof.
  split; [reflexivity|]. split; [vm_compute; discriminate|].
  destruct (handle_hits_lie_right_and_below (QRect.mk 100 100 299 299)
              (QPoint.mk 310 205) eq_refl) as [Hx _];
    [vm_compute; discriminate | exact Hx].
Defined.

(** X5.  The corner regions are tested first, so on a small selection they
    shadow the edge handles: with a valid selection at most 21 pixels
    wide the hit test never answers Top or Bottom, and with one at most
    21 pixels high it never answers Left or Right. *)
Theorem small_selection_shadows_edge_handles (sel : QRect.t) (p : QPoint.t) :
  QRect.isValid sel = true ->
  (QRect.width sel <= 21 ->
     handleAtPoint sel p <> HandlePosition.Top
     /\ handleAtPoint sel p <> HandlePosition.Bottom)
  /\ (QRect.height sel <= 21 ->
        handleAtPoint sel p <> HandlePosition.Left
        /\ handleAtPoint sel p <> HandlePosition.Right).
Proof.
  intros Hv.
  apply andb_true_iff in Hv. destruct Hv as [Hvx Hvy].
  apply Z.leb_le in Hvx. apply Z.leb_le in Hvy.
  pose proof (half_bounds (QRect.x2 sel - QRect.x1 sel + 1) ltac:(lia)) as Hw.
  pose proof (half_bounds (QRect.y2 sel - QRect.y1 sel + 1) ltac:(lia)) as Hh.
  split; intros Hsmall; unfold QRect.width, QRect.height in Hsmall;
    split; intros Hhit;
    hit_test_cases sel p; try discriminate Hhit; lia.
Qed.

Lemma small_selection_shadows_edge_handles_witness :
  QRect.isValid (QRect.mk 100 100 120 299) = true
  /\ QRect.width (QRect.mk 100 100 120 299) <= 21
  /\ handleAtPoint (QRect.mk 100 100 120 299) (QPoint.mk 112 105)
     <> HandlePosition.Top.
Proof.
  split; [reflexivity|]. split; [vm_compute; discriminate|].
  destruct (small_selection_shadows_edge_handles (QRect.mk 100 100 120 299)
              (QPoint.mk 112 105) eq_refl) as [Hw _].
  destruct Hw as [Htop _]; [vm_compute; discriminate | exact Htop].
Defined.

Section HandleMarks.

Context {engine : QtPaintEngine}.

(** X6.  The mark [drawHandles] paints for the TopLeft handle is the 6 x 6
    square starting one pixel up and left of the corner, but the hit
    region starts at the corner.  With no tool active and a valid
    selection, a pointer-down on the mark grabs the handle only where
    the mark lies inside the selection; on the mark's top row and left
    column the hit test answers None and the pointer-down begins a new
    selection there. *)
Theorem top_left_mark_sticks_out_of_hit_region
  (s : ScreenshotDisplay) (p : QPoint.t) :
  Editor.getCurrentTool (editor s) = Editor.None ->
  QRect.isValid (selectionRect s) = true ->
  QRect.x1 (selectionRect s) - 1 <= QPoint.x p <= QRect.x1 (selectionRect s) + 4 ->
  QRect.y1 (selectionRect s) - 1 <= QPoint.y p <= QRect.y1 (selectionRect s) + 4 ->
  In (DrawRect (QRect.mk (QRect.x1 (selectionRect s) - 1)
                         (QRect.y1 (selectionRect s) - 1)
                         (QRect.x1 (selectionRect s) + 4)
                         (QRect.y1 (selectionRect s) + 4)))
     (drawHandles s)
  /\ (QRect.x1 (selectionRect s) <= QPoint.x p
      /\ QRect.y1 (selectionRect s) <= QPoint.y p ->
      handleAtPoint (selectionRect s) p = HandlePosition.TopLeft
      /\ currentHandle (mousePressEvent p s) = HandlePosition.TopLeft)
  /\ (QPoint.x p < QRect.x1 (selectionRect s)
      \/ QPoint.y p < QRect.y1 (selectionRect s) ->
      handleAtPoint (selectionRect s) p = HandlePosition.None
      /\ selectionStarted (mousePressEvent p s) = true
      /\ selectionRect (mousePressEvent p s) = QRect.of_point_size p QSize.invalid).
Proof.
  intros Htool Hv Hx Hy.
  pose proof Hv as Hv'.
  apply andb_true_iff in Hv'. destruct Hv' as [Hvx Hvy].
  apply Z.leb_le in Hvx. apply Z.leb_le in Hvy.
  pose proof (half_bounds (QRect.x2 (selectionRect s) - QRect.x1 (selectionRect s) + 1)
                ltac:(lia)) as Hw.
  pose proof (half_bounds (QRect.y2 (selectionRect s) - QRect.y1 (selectionRect s) + 1)
                ltac:(lia)) as Hh.
  split.
  { unfold drawHandles, handlePoints. right. left.
    unfold QRect.of_point_size, QPoint.sub, QRect.topLeft.
    cbn [QPoint.x QPoint.y QSize.width QSize.height].
    f_equal. f_equal; cbn; lia. }
  split.
  - intros [Hx1 Hy1].
    assert (Hhit : handleAtPoint (selectionRect s) p = HandlePosition.TopLeft).
    { hit_test_cases (selectionRect s) p; try reflexivity; lia. }
    split; [exact Hhit|].
    unfold mousePressEvent. rewrite Htool, Hhit. reflexivity.
  - intros Hout.
    assert (Hhit : handleAtPoint (selectionRect s) p = HandlePosition.None).
    { hit_test_cases (selectionRect s) p; try reflexivity; lia. }
    assert (Hc : QRect.contains (selectionRect s) p = false).
    { unfold QRect.contains.
      replace (QRect.x2 (selectionRect s) <? QRect.x1 (selectionRect s) - 1)
        with false by (symmetry; apply Z.ltb_ge; lia).
      replace (QRect.y2 (selectionRect s) <? QRect.y1 (selectionRect s) - 1)
        with false by (symmetry; apply Z.ltb_ge; lia).
      by_cases_on_tests. }
    split; [exact Hhit|].
    unfold mousePressEvent. rewrite Htool, Hhit, Hc. split; reflexivity.
Qed.

End HandleMarks.

Lemma top_left_mark_sticks_out_of_hit_region_witness :
  Editor.getCurrentTool
    (editor (set_selectionRect (QRect.mk 100 100 299 299)
               (sample_display Editor.None))) = Editor.None
  /\ QRect.isValid
       (selectionRect (set_selectionRect (QRect.mk 100 100 299 299)
                         (sample_display Editor.None))) = true
  /\ selectionStarted
       (mousePressEvent (QPoint.mk 99 102)
          (set_selectionRect (QRect.mk 100 100 299 299)
             (sample_display Editor.None))) = true.
Proof.
  split; [reflexivity|]. split; [reflexivity|].
  destruct (top_left_mark_sticks_out_of_hit_region
              (set_selectionRect (QRect.mk 100 100 299 299)
                 (sample_display Editor.None))
              (QPoint.mk 99 102) eq_refl eq_refl)
    as (_ & _ & Hout); [cbn; lia | cbn; lia |].
  destruct Hout as (_ & Hstarted & _); [left; cbn; lia | exact Hstarted].
Defined.

(** ** Selection gestures (mousePressEvent, mouseMoveEvent,
    mouseReleaseEvent, updateTooltip, updateEditorPosition) *)

Section SelectionGestures.

Context {engine : QtPaintEngine}.

(** While a selection is being dragged out, a pointer-move spans it from
    the origin to the pointer and, when that rectangle is valid, puts the
    size label and the toolbar next to its top-right corner. *)
Lemma mouseMoveEvent_dragging (pos : QPoint.t) (s : ScreenshotDisplay) :
  selectionStarted s = true ->
  selectionStarted (mouseMoveEvent pos s) = true
  /\ origin (mouseMoveEvent pos s) = origin s
  /\ selectionRect (mouseMoveEvent pos s)
     = QRect.normalized (QRect.of_points (origin s) pos)
  /\ (QRect.isValid (QRect.normalized (QRect.of_points (origin s) pos)) = true ->
      toolTip (mouseMoveEvent pos s)
      = Some (QPoint.add
                (QRect.topRight (QRect.normalized (QRect.of_points (origin s) pos)))
                (QPoint.mk 10 (-20)),
              sizeLabel (QRect.normalized (QRect.of_points (origin s) pos)))
      /\ Editor.pos (editor (mouseMoveEvent pos s))
         = QPoint.add
             (QRect.topRight (QRect.normalized (QRect.of_points (origin s) pos)))
             (QPoint.mk 10 10)).
Proof.
  intros Hs.
  unfold mouseMoveEvent, updateTooltip, updateEditorPosition, sizeLabel,
    Editor.getCurrentTool, Editor.isHidden.
  repeat split; try intros Hv.
  all: split_tests; state_cbn_in_all; try congruence; reflexivity.
Qed.

Lemma moves_dragging (moves : list QPoint.t) :
  forall s,
    selectionStarted s = true ->
    selectionStarted (run s (map MouseMove moves)) = true
    /\ origin (run s (map MouseMove moves)) = origin s.
Proof.
  induction moves as [|p moves IH]; intros s Hs; [split; [exact Hs | reflexivity]|].
  cbn [map]. rewrite run_cons. cbn [step].
  destruct (mouseMoveEvent_dragging p s Hs) as (Hs' & Ho & _).
  destruct (IH _ Hs') as [H1 H2]. split; congruence.
Qed.

(** A pointer-up leaves the selection rectangle and the toolbar where
    they are and refreshes the size label of a valid selection. *)
Lemma mouseReleaseEvent_selection (pos : QPoint.t) (s : ScreenshotDisplay) :
  selectionRect (mouseReleaseEvent pos s) = selectionRect s
  /\ selectionStarted (mouseReleaseEvent pos s) = false
  /\ movingSelection (mouseReleaseEvent pos s) = false
  /\ currentHandle (mouseReleaseEvent pos s) = HandlePosition.None
  /\ editor (mouseReleaseEvent pos s) = editor s
  /\ (QRect.isValid (selectionRect s) = true ->
      toolTip (mouseReleaseEvent pos s)
      = Some (QPoint.add (QRect.topRight (selectionRect s)) (QPoint.mk 10 (-20)),
              sizeLabel (selectionRect s))).
Proof.
  unfold mouseReleaseEvent, updateTooltip, saveStateForUndo, sizeLabel.
  repeat split; try intros Hv.
  all: split_tests; state_cbn_in_all; try congruence; reflexivity.
Qed.

(** X7.  Dragging out a selection.  With no tool active, a pointer-down
    outside the selection and off its handles, pointer-moves ending at
    [last], and a pointer-up leave the selection spanning the press point
    and [last], normalized, whatever the points in between and wherever
    the pointer is released.  If [last] is not left of or above the press
    point, the two points are the rectangle's corners, both inclusive,
    and the size label next to its top-right corner reads that width and
    height. *)
Theorem drag_creates_selection_between_press_and_last_move
  (s : ScreenshotDisplay) (down up last : QPoint.t) (moves : list QPoint.t) :
  Editor.getCurrentTool (editor s) = Editor.None ->
  handleAtPoint (selectionRect s) down = HandlePosition.None ->
  QRect.contains (selectionRect s) down = false ->
  selectionRect (run s (gesture down (moves ++ [last]) up))
  = QRect.normalized (QRect.of_points down last)
  /\ selectionStarted (run s (gesture down (moves ++ [last]) up)) = false
  /\ (QPoint.x down <= QPoint.x last -> QPoint.y down <= QPoint.y last ->
      selectionRect (run s (gesture down (moves ++ [last]) up))
      = QRect.of_points down last
      /\ QRect.width (selectionRect (run s (gesture down (moves ++ [last]) up)))
         = QPoint.x last - QPoint.x down + 1
      /\ QRect.height (selectionRect (run s (gesture down (moves ++ [last]) up)))
         = QPoint.y last - QPoint.y down + 1
      /\ toolTip (run s (gesture down (moves ++ [last]) up))
         = Some (QPoint.mk (QPoint.x last + 10) (QPoint.y down - 20),
                 sizeLabel (QRect.of_points down last))
      /\ Editor.pos (editor (run s (gesture down (moves ++ [last]) up)))
         = QPoint.mk (QPoint.x last + 10) (QPoint.y down + 10)).
Proof.
  intros Htool Hh Hc.
  assert (Hpress : selectionStarted (mousePressEvent down s) = true
                   /\ origin (mousePressEvent down s) = down).
  { unfold mousePressEvent. rewrite Htool, Hh, Hc. split; reflexivity. }
  destruct Hpress as [Hstarted Horigin].
  unfold gesture. rewrite run_cons, run_app, map_app, run_app.
  cbn [step map run fold_left].
  fold (run (mousePressEvent down s) (map MouseMove moves)).
  destruct (moves_dragging moves _ Hstarted) as [Hs' Ho'].
  rewrite Horigin in Ho'.
  destruct (mouseMoveEvent_dragging last _ Hs') as (_ & _ & Hrect & Hvalid).
  rewrite Ho' in Hrect, Hvalid.
  destruct (mouseReleaseEvent_selection up
              (mouseMoveEvent last (run (mousePressEvent down s) (map MouseMove moves))))
    as (Hr & Hst & _ & _ & He & Htip).
  rewrite Hr, Hst, He, Hrect.
  split; [reflexivity|]. split; [reflexivity|].
  intros Hx Hy.
  assert (Hn : QRect.normalized (QRect.of_points down last) = QRect.of_points down last).
  { unfold QRect.normalized, QRect.of_points. cbn [QRect.x1 QRect.x2 QRect.y1 QRect.y2].
    replace (QPoint.x last <? QPoint.x down - 1) with false
      by (symmetry; apply Z.ltb_ge; lia).
    replace (QPoint.y last <? QPoint.y down - 1) with false
      by (symmetry; apply Z.ltb_ge; lia).
    reflexivity. }
  assert (Hv : QRect.isValid (QRect.of_points down last) = true).
  { unfold QRect.isValid, QRect.of_points. cbn [QRect.x1 QRect.x2 QRect.y1 QRect.y2].
    apply andb_true_iff. split; apply Z.leb_le; lia. }
  rewrite Hn in *.
  destruct (Hvalid Hv) as [_ Hpos].
  rewrite Htip by (rewrite Hrect; exact Hv).
  rewrite Hrect, Hpos.
  unfold QRect.width, QRect.height, QRect.of_points, QRect.topRight, QPoint.add.
  cbn [QRect.x1 QRect.x2 QRect.y1 QRect.y2 QPoint.x QPoint.y].
  repeat split; try reflexivity; f_equal; lia.
Qed.

End SelectionGestures.

Lemma drag_creates_selection_between_press_and_last_move_witness :
  Editor.getCurrentTool (editor (sample_display Editor.None)) = Editor.None
  /\ handleAtPoint (selectionRect (sample_display Editor.None)) (QPoint.mk 30 40)
     = HandlePosition.None
  /\ QRect.contains (selectionRect (sample_display Editor.None)) (QPoint.mk 30 40)
     = false
  /\ selectionRect
       (run (sample_display Editor.None)
          (gesture (QPoint.mk 30 40) ([QPoint.mk 90 20] ++ [QPoint.mk 80 70])
             (QPoint.mk 81 71)))
     = QRect.mk 30 40 80 70.
Proof.
  split; [reflexivity|]. split; [reflexivity|]. split; [reflexivity|].
  destruct (drag_creates_selection_between_press_and_last_move
              (sample_display Editor.None) (QPoint.mk 30 40) (QPoint.mk 81 71)
              (QPoint.mk 80 70) [QPoint.mk 90 20] eq_refl eq_refl eq_refl)
    as (_ & _ & Hcorners).
  destruct Hcorners as (Hrect & _); [cbn; lia | cbn; lia |].
  rewrite Hrect. reflexivity.
Defined.

Section MoveGesture.

Context {engine : QtPaintEngine}.

(** While the selection is being moved (and nothing is being dragged out
    or drawn), a pointer-move puts the rectangle's top-left corner at the
    pointer minus the grab offset and keeps its size. *)
Lemma mouseMoveEvent_moving (pos : QPoint.t) (s : ScreenshotDisplay) :
  Editor.getCurrentTool (editor s) = Editor.None ->
  selectionStarted s = false ->
  shapeDrawing s = false ->
  movingSelection s = true ->
  Editor.getCurrentTool (editor (mouseMoveEvent pos s)) = Editor.None
  /\ selectionStarted (mouseMoveEvent pos s) = false
  /\ shapeDrawing (mouseMoveEvent pos s) = false
  /\ movingSelection (mouseMoveEvent pos s) = true
  /\ selectionOffset (mouseMoveEvent pos s) = selectionOffset s
  /\ selectionRect (mouseMoveEvent pos s)
     = QRect.moveTopLeft (QPoint.sub pos (selectionOffset s)) (selectionRect s).
Proof.
  intros Htool Hs Hsh Hm.
  unfold mouseMoveEvent, updateTooltip, updateEditorPosition,
    Editor.getCurrentTool, Editor.isHidden in *.
  repeat split.
  all: split_tests; state_cbn_in_all; rewrite ?Htool in *; state_cbn_in_all;
    rewrite ?andb_false_r in *; try congruence; reflexivity.
Qed.

Lemma moves_moving (moves : list QPoint.t) :
  forall s,
    Editor.getCurrentTool (editor s) = Editor.None ->
    selectionStarted s = false ->
    shapeDrawing s = false ->
    movingSelection s = true ->
    Editor.getCurrentTool (editor (run s (map MouseMove moves))) = Editor.None
    /\ selectionStarted (run s (map MouseMove moves)) = false
    /\ shapeDrawing (run s (map MouseMove moves)) = false
    /\ movingSelection (run s (map MouseMove moves)) = true
    /\ selectionOffset (run s (map MouseMove moves)) = selectionOffset s
    /\ QRect.width (selectionRect (run s (map MouseMove moves)))
       = QRect.width (selectionRect s)
    /\ QRect.height (selectionRect (run s (map MouseMove moves)))
       = QRect.height (selectionRect s).
Proof.
  induction moves as [|p moves IH]; intros s Ht Hs Hsh Hm.
  - repeat split; assumption.
  - cbn [map]. rewrite run_cons. cbn [step].
    destruct (mouseMoveEvent_moving p s Ht Hs Hsh Hm)
      as (Ht' & Hs' & Hsh' & Hm' & Ho' & Hr').
    destruct (IH _ Ht' Hs' Hsh' Hm') as (H1 & H2 & H3 & H4 & H5 & H6 & H7).
    destruct (QRect_moveTopLeft_size (QPoint.sub p (selectionOffset s))
                (selectionRect s)) as [Hw Hh].
    rewrite Hr' in H6, H7.
    repeat split; congruence.
Qed.

(** X8.  Moving a selection.  With no tool active and nothing in progress, a
    pointer-down inside the selection and off its handles, pointer-moves
    ending at [last], and a pointer-up leave the selection shifted by
    [last - down]: the same size, wherever the pointer went in between
    and wherever it is released. *)
Theorem move_gesture_shifts_selection_by_pointer_travel
  (s : ScreenshotDisplay) (down up last : QPoint.t) (moves : list QPoint.t) :
  Editor.getCurrentTool (editor s) = Editor.None ->
  selectionStarted s = false ->
  shapeDrawing s = false ->
  handleAtPoint (selectionRect s) down = HandlePosition.None ->
  QRect.contains (selectionRect s) down = true ->
  selectionRect (run s (gesture down (moves ++ [last]) up))
  = QRect.translated (QPoint.sub last down) (selectionRect s)
  /\ movingSelection (run s (gesture down (moves ++ [last]) up)) = false.
Proof.
  intros Htool Hs Hsh Hh Hc.
  assert (Hpress :
    Editor.getCurrentTool (editor (mousePressEvent down s)) = Editor.None
    /\ selectionStarted (mousePressEvent down s) = false
    /\ shapeDrawing (mousePressEvent down s) = false
    /\ movingSelection (mousePressEvent down s) = true
    /\ selectionOffset (mousePressEvent down s)
       = QPoint.sub down (QRect.topLeft (selectionRect s))
    /\ selectionRect (mousePressEvent down s) = selectionRect s).
  { unfold mousePressEvent. rewrite Htool, Hh, Hc. state_cbn.
    repeat split; assumption. }
  destruct Hpress as (Ht1 & Hs1 & Hsh1 & Hm1 & Ho1 & Hr1).
  unfold gesture. rewrite run_cons, run_app, map_app, run_app.
  cbn [step map run fold_left].
  fold (run (mousePressEvent down s) (map MouseMove moves)).
  destruct (moves_moving moves _ Ht1 Hs1 Hsh1 Hm1)
    as (Ht2 & Hs2 & Hsh2 & Hm2 & Ho2 & Hw2 & Hh2).
  destruct (mouseMoveEvent_moving last _ Ht2 Hs2 Hsh2 Hm2)
    as (_ & _ & _ & _ & _ & Hr3).
  destruct (mouseReleaseEvent_selection up
              (mouseMoveEvent last (run (mousePressEvent down s) (map MouseMove moves))))
    as (Hr & _ & Hmv & _).
  rewrite Hr, Hmv, Hr3, Ho2, Ho1. split; [|reflexivity].
  rewrite Hr1 in Hw2, Hh2.
  unfold QRect.width, QRect.height in Hw2, Hh2.
  unfold QRect.moveTopLeft, QRect.translated, QPoint.sub, QRect.topLeft.
  cbn [QPoint.x QPoint.y].
  f_equal; lia.
Qed.

End MoveGesture.

Lemma move_gesture_shifts_selection_by_pointer_travel_witness :
  Editor.getCurrentTool
    (editor (set_selectionRect (QRect.mk 100 100 299 299)
               (sample_display Editor.None))) = Editor.None
  /\ handleAtPoint (QRect.mk 100 100 299 299) (QPoint.mk 150 150)
     = HandlePosition.None
  /\ QRect.contains (QRect.mk 100 100 299 299) (QPoint.mk 150 150) = true
  /\ selectionRect
       (run (set_selectionRect (QRect.mk 100 100 299 299)
               (sample_display Editor.None))
          (gesture (QPoint.mk 150 150) ([QPoint.mk 10 10] ++ [QPoint.mk 160 140])
             (QPoint.mk 160 140)))
     = QRect.mk 110 90 309 289.
Proof.
  split; [reflexivity|]. split; [reflexivity|]. split; [reflexivity|].
  destruct (move_gesture_shifts_selection_by_pointer_travel
              (set_selectionRect (QRect.mk 100 100 299 299)
                 (sample_display Editor.None))
              (QPoint.mk 150 150) (QPoint.mk 160 140) (QPoint.mk 160 140)
              [QPoint.mk 10 10] eq_refl eq_refl eq_refl eq_refl eq_refl)
    as [Hrect _].
  rewrite Hrect. reflexivity.
Defined.

(** ** Draw gestures (mousePressEvent, mouseMoveEvent, mouseReleaseEvent,
    undo) *)

Section DrawGestures.

Context {engine : QtPaintEngine}.

Lemma sameInk_strokePen (s' s : ScreenshotDisplay) :
  sameInk s' s -> strokePen s' = strokePen s.
Proof. intros (Hw & Hc & _). unfold strokePen. rewrite Hw, Hc. reflexivity. Qed.

Lemma sameInk_drawArrow (s' s : ScreenshotDisplay) (a b : QPoint.t) :
  sameInk s' s -> drawArrow s' a b = drawArrow s a b.
Proof. intros (Hw & Hc & _). unfold drawArrow. rewrite Hw, Hc. reflexivity. Qed.

Lemma sameInk_trans (a b c : ScreenshotDisplay) :
  sameInk a b -> sameInk b c -> sameInk a c.
Proof. unfold sameInk. intros (H1 & H2 & H3) (H4 & H5 & H6). repeat split; congruence. Qed.

(** While the pen is down, a pointer-move paints the segment from the
    last point to the pointer on a copy of the layer. *)
Lemma mouseMoveEvent_pen (pos : QPoint.t) (s : ScreenshotDisplay) :
  Editor.getCurrentTool (editor s) = Editor.Pen ->
  selectionStarted s = false ->
  drawing s = true ->
  drawingPixmap (mouseMoveEvent pos s)
  = paintOn (QPixmap_copy QRect.null (drawingPixmap s))
      [SetPen (strokePen s); DrawLine (lastPoint s) pos]
  /\ lastPoint (mouseMoveEvent pos s) = pos
  /\ selectionStarted (mouseMoveEvent pos s) = false
  /\ drawing (mouseMoveEvent pos s) = true
  /\ sameInk (mouseMoveEvent pos s) s.
Proof.
  intros Htool Hs Hd.
  unfold mouseMoveEvent, updateTooltip, updateEditorPosition, sameInk, strokePen,
    Editor.getCurrentTool, Editor.getCurrentColor, Editor.isHidden in *.
  repeat split.
  all: split_tests; state_cbn_in_all; rewrite ?Htool, ?Hd in *; state_cbn_in_all;
    try congruence; reflexivity.
Qed.

Lemma moves_pen (pts : list QPoint.t) :
  forall s,
    Editor.getCurrentTool (editor s) = Editor.Pen ->
    selectionStarted s = false ->
    drawing s = true ->
    drawingPixmap (run s (map MouseMove pts))
    = paintPolyline (strokePen s) (lastPoint s) pts (drawingPixmap s).
Proof.
  induction pts as [|p pts IH]; intros s Ht Hs Hd; [reflexivity|].
  cbn [map paintPolyline]. rewrite run_cons. cbn [step].
  destruct (mouseMoveEvent_pen p s Ht Hs Hd) as (Hl & Hp & Hs' & Hd' & Hink).
  rewrite IH; try assumption.
  - rewrite (sameInk_strokePen _ _ Hink), Hp, Hl. reflexivity.
  - destruct Hink as (_ & _ & Ht'). congruence.
Qed.

(** While a shape is being drawn, a pointer-move only updates the
    preview: the bounding rectangle from the anchor to the pointer and
    the end point.  The layer is not painted. *)
Lemma mouseMoveEvent_shape (pos : QPoint.t) (s : ScreenshotDisplay) :
  isShapeTool (Editor.getCurrentTool (editor s)) = true ->
  selectionStarted s = false ->
  shapeDrawing s = true ->
  drawingPixmap (mouseMoveEvent pos s) = drawingPixmap s
  /\ currentShapeRect (mouseMoveEvent pos s)
     = QRect.normalized (QRect.of_points (lastPoint s) pos)
  /\ drawingEnd (mouseMoveEvent pos s) = pos
  /\ lastPoint (mouseMoveEvent pos s) = lastPoint s
  /\ selectionStarted (mouseMoveEvent pos s) = false
  /\ shapeDrawing (mouseMoveEvent pos s) = true
  /\ sameInk (mouseMoveEvent pos s) s.
Proof.
  intros Htool Hs Hsh.
  unfold mouseMoveEvent, updateTooltip, updateEditorPosition, sameInk,
    Editor.getCurrentTool, Editor.getCurrentColor, Editor.isHidden in *.
  destruct (Editor.tool (editor s)) eqn:Ht; try discriminate Htool.
  all: repeat split.
  all: split_tests; state_cbn_in_all; rewrite ?Ht in *; state_cbn_in_all;
    rewrite ?andb_false_r in *; try congruence; reflexivity.
Qed.

Lemma moves_shape (pts : list QPoint.t) :
  forall s,
    isShapeTool (Editor.getCurrentTool (editor s)) = true ->
    selectionStarted s = false ->
    shapeDrawing s = true ->
    drawingPixmap (run s (map MouseMove pts)) = drawingPixmap s
    /\ lastPoint (run s (map MouseMove pts)) = lastPoint s
    /\ selectionStarted (run s (map MouseMove pts)) = false
    /\ shapeDrawing (run s (map MouseMove pts)) = true
    /\ sameInk (run s (map MouseMove pts)) s
    /\ (pts = [] ->
        currentShapeRect (run s (map MouseMove pts)) = currentShapeRect s
        /\ drawingEnd (run s (map MouseMove pts)) = drawingEnd s).
Proof.
  induction pts as [|p pts IH]; intros s Ht Hs Hsh.
  - repeat split; try reflexivity; assumption.
  - cbn [map]. rewrite run_cons. cbn [step].
    destruct (mouseMoveEvent_shape p s Ht Hs Hsh)
      as (Hl & _ & _ & Hp & Hs' & Hsh' & Hink).
    assert (Ht' : isShapeTool (Editor.getCurrentTool (editor (mouseMoveEvent p s)))
                  = true)
      by (destruct Hink as (_ & _ & E); rewrite E; exact Ht).
    destruct (IH _ Ht' Hs' Hsh') as (H1 & H2 & H3 & H4 & H5 & _).
    repeat split; try congruence; try discriminate.
    all: eapply sameInk_trans; [exact H5 | exact Hink].
Qed.

(** A pointer-up commits the shape being drawn, with the stroke pen, on
    a copy of the layer; with no shape being drawn it leaves the layer
    alone. *)
Lemma mouseReleaseEvent_layer (pos : QPoint.t) (s : ScreenshotDisplay) :
  drawingPixmap (mouseReleaseEvent pos s)
  = if shapeDrawing s
    then paintOn (QPixmap_copy QRect.null (drawingPixmap s))
           (SetPen (strokePen s)
            :: shapeCommands s (Editor.getCurrentTool (editor s))
                 (currentShapeRect s) (lastPoint s) (drawingEnd s))
    else drawingPixmap s.
Proof.
  unfold mouseReleaseEvent, updateTooltip, saveStateForUndo, commitShape,
    shapeCommands, strokePen, drawArrow.
  state_cbn. destruct (shapeDrawing s); split_tests; state_cbn; reflexivity.
Qed.

(** A pointer-down with a drawing tool anchors the gesture at the
    pointer. *)
Lemma mousePressEvent_anchor (pos : QPoint.t) (s : ScreenshotDisplay) :
  Editor.getCurrentTool (editor s) <> Editor.None ->
  Editor.getCurrentTool (editor s) <> Editor.Text ->
  lastPoint (mousePressEvent pos s) = pos
  /\ drawing (mousePressEvent pos s) = true
  /\ selectionStarted (mousePressEvent pos s) = selectionStarted s
  /\ drawingEnd (mousePressEvent pos s) = drawingEnd s
  /\ sameInk (mousePressEvent pos s) s
  /\ (Editor.getCurrentTool (editor s) <> Editor.Pen ->
      currentShapeRect (mousePressEvent pos s)
      = QRect.of_point_size pos QSize.invalid).
Proof.
  intros Hn Ht. unfold mousePressEvent, saveStateForUndo, sameInk,
    Editor.getCurrentTool, Editor.getCurrentColor in *.
  destruct (Editor.tool (editor s)) eqn:E; try congruence;
    state_cbn; rewrite ?E; state_cbn; rewrite ?E;
    repeat split; try reflexivity; congruence.
Qed.

Lemma shapeCommands_sameInk (s' s : ScreenshotDisplay) (tool : Editor.Tool)
  (rect : QRect.t) (a b : QPoint.t) :
  sameInk s' s -> shapeCommands s' tool rect a b = shapeCommands s tool rect a b.
Proof.
  intros Hink. unfold shapeCommands.
  destruct tool; try reflexivity. apply sameInk_drawArrow. exact Hink.
Qed.

Lemma undo_top (s : ScreenshotDisplay) (top : QPixmap) (rest : list QPixmap) :
  undoStack s = top :: rest ->
  drawingPixmap (undo s) = top /\ undoStack (undo s) = rest.
Proof. intros H. unfold undo. rewrite H. split; reflexivity. Qed.

(** X9.  A pen stroke is a chain of segments.  With the pen as the tool and
    no selection being dragged out, a gesture through the points
    [p1 ... pn] paints the segments down-p1, p1-p2, ..., each with the
    round-capped stroke pen on a copy of the layer so far; the pointer-up
    paints nothing more, wherever it is. *)
Theorem pen_gesture_paints_connected_segments
  (s : ScreenshotDisplay) (down up : QPoint.t) (moves : list QPoint.t) :
  Editor.getCurrentTool (editor s) = Editor.Pen ->
  selectionStarted s = false ->
  shapeDrawing s = false ->
  drawingPixmap (run s (gesture down moves up))
  = paintPolyline (strokePen s) down moves (drawingPixmap s).
Proof.
  intros Htool Hs Hsh.
  assert (Hn : Editor.getCurrentTool (editor s) <> Editor.None) by congruence.
  assert (Ht : Editor.getCurrentTool (editor s) <> Editor.Text) by congruence.
  destruct (mousePressEvent_draw down s Hn Ht) as (_ & Hlayer & Htool' & Hshape').
  destruct (mousePressEvent_anchor down s Hn Ht) as (Hlast & Hdraw & Hstart & _ & Hink & _).
  rewrite Htool in Hshape'. cbn [Editor.tool_eqb] in Hshape'.
  assert (Hpen : Editor.getCurrentTool (editor (mousePressEvent down s)) = Editor.Pen)
    by congruence.
  assert (Hs1 : selectionStarted (mousePressEvent down s) = false) by congruence.
  unfold gesture. rewrite run_cons, run_app. cbn [step run fold_left].
  fold (run (mousePressEvent down s) (map MouseMove moves)).
  rewrite mouseReleaseEvent_layer.
  destruct (moves_frame moves (mousePressEvent down s)) as (_ & Hsh2 & _).
  rewrite Hsh2, Hshape', Hsh.
  rewrite (moves_pen moves _ Hpen Hs1 Hdraw).
  rewrite (sameInk_strokePen _ _ Hink), Hlast, Hlayer. reflexivity.
Qed.

(** X10.  A shape is committed on release, from the anchor to the last
    pointer-move.  With Rectangle, Ellipse, Line or Arrow as the tool and
    no selection being dragged out, the pointer-down and the pointer-moves
    paint nothing on the layer (they only update the preview); the
    pointer-up paints one shape with the stroke pen on a copy of the
    layer: the rectangle or ellipse bounded by the normalized rectangle
    from the press point to the last pointer-move, or the line or arrow
    from the press point to the last pointer-move.  The position of the
    pointer-up and the moves in between play no part. *)
Theorem shape_gesture_commits_from_anchor_to_last_move
  (s : ScreenshotDisplay) (down up last : QPoint.t) (moves : list QPoint.t) :
  isShapeTool (Editor.getCurrentTool (editor s)) = true ->
  selectionStarted s = false ->
  drawingPixmap (run s (MousePress down :: map MouseMove (moves ++ [last])))
  = drawingPixmap s
  /\ drawingPixmap (run s (gesture down (moves ++ [last]) up))
     = paintOn (QPixmap_copy QRect.null (drawingPixmap s))
         (SetPen (strokePen s)
          :: shapeCommands s (Editor.getCurrentTool (editor s))
               (QRect.normalized (QRect.of_points down last)) down last).
Proof.
  intros Htool Hs.
  assert (Hn : Editor.getCurrentTool (editor s) <> Editor.None)
    by (intros E; rewrite E in Htool; discriminate).
  assert (Ht : Editor.getCurrentTool (editor s) <> Editor.Text)
    by (intros E; rewrite E in Htool; discriminate).
  assert (Hp : Editor.getCurrentTool (editor s) <> Editor.Pen)
    by (intros E; rewrite E in Htool; discriminate).
  destruct (mousePressEvent_draw down s Hn Ht) as (_ & Hlayer & Htool1 & Hshape1).
  destruct (mousePressEvent_anchor down s Hn Ht) as (Hlast & _ & Hstart & _ & Hink & _).
  assert (Hsh1 : shapeDrawing (mousePressEvent down s) = true).
  { rewrite Hshape1. destruct (Editor.getCurrentTool (editor s));
      try reflexivity; congruence. }
  assert (Ht1 : isShapeTool (Editor.getCurrentTool (editor (mousePressEvent down s)))
                = true) by (rewrite Htool1; exact Htool).
  assert (Hs1 : selectionStarted (mousePressEvent down s) = false) by congruence.
  destruct (moves_shape moves _ Ht1 Hs1 Hsh1) as (Hl2 & Hp2 & Hs2 & Hsh2 & Hink2 & _).
  assert (Ht2 : isShapeTool
                  (Editor.getCurrentTool
                     (editor (run (mousePressEvent down s) (map MouseMove moves))))
                = true)
    by (destruct Hink2 as (_ & _ & E); rewrite E; exact Ht1).
  destruct (mouseMoveEvent_shape last _ Ht2 Hs2 Hsh2)
    as (Hl3 & Hrect3 & Hend3 & Hp3 & _ & Hsh3 & Hink3).
  assert (Hink' : sameInk
                    (mouseMoveEvent last
                       (run (mousePressEvent down s) (map MouseMove moves))) s).
  { eapply sameInk_trans; [exact Hink3|].
    eapply sameInk_trans; [exact Hink2 | exact Hink]. }
  split.
  - rewrite run_cons, map_app, run_app. cbn [step map run fold_left].
    fold (run (mousePressEvent down s) (map MouseMove moves)).
    congruence.
  - unfold gesture. rewrite run_cons, run_app, map_app, run_app.
    cbn [step map run fold_left].
    fold (run (mousePressEvent down s) (map MouseMove moves)).
    rewrite mouseReleaseEvent_layer, Hsh3.
    rewrite (sameInk_strokePen _ _ Hink'), (shapeCommands_sameInk _ _ _ _ _ _ Hink').
    destruct Hink' as (_ & _ & Etool).
    rewrite Etool, Hrect3, Hend3, Hp3, Hp2, Hlast, Hl3, Hl2, Hlayer.
    reflexivity.
Qed.

(** X11.  A click with a shape tool, a pointer-down and a pointer-up with no
    pointer-move between them, still commits a shape.  The rectangle or
    ellipse is the invalid rectangle [QRect(down, QSize())]; the line or
    arrow goes from the press point to the end point left behind by the
    previous shape gesture ([drawingEnd] is not reset by the
    pointer-down). *)
Theorem shape_click_commits_with_stale_end_point
  (s : ScreenshotDisplay) (down up : QPoint.t) :
  isShapeTool (Editor.getCurrentTool (editor s)) = true ->
  drawingPixmap (run s (gesture down [] up))
  = paintOn (QPixmap_copy QRect.null (drawingPixmap s))
      (SetPen (strokePen s)
       :: shapeCommands s (Editor.getCurrentTool (editor s))
            (QRect.of_point_size down QSize.invalid) down (drawingEnd s)).
Proof.
  intros Htool.
  assert (Hn : Editor.getCurrentTool (editor s) <> Editor.None)
    by (intros E; rewrite E in Htool; discriminate).
  assert (Ht : Editor.getCurrentTool (editor s) <> Editor.Text)
    by (intros E; rewrite E in Htool; discriminate).
  assert (Hp : Editor.getCurrentTool (editor s) <> Editor.Pen)
    by (intros E; rewrite E in Htool; discriminate).
  destruct (mousePressEvent_draw down s Hn Ht) as (_ & Hlayer & Htool1 & Hshape1).
  destruct (mousePressEvent_anchor down s Hn Ht)
    as (Hlast & _ & _ & Hend & Hink & Hrect).
  assert (Hsh1 : shapeDrawing (mousePressEvent down s) = true).
  { rewrite Hshape1. destruct (Editor.getCurrentTool (editor s));
      try reflexivity; congruence. }
  unfold gesture. cbn [map app]. rewrite run_cons, run_cons.
  cbn [step run fold_left].
  rewrite mouseReleaseEvent_layer, Hsh1.
  rewrite (sameInk_strokePen _ _ Hink), (shapeCommands_sameInk _ _ _ _ _ _ Hink).
  rewrite Htool1, (Hrect Hp), Hlast, Hend, Hlayer. reflexivity.
Qed.

(** X12.  One undo takes back what a gesture committed.  After a pen gesture,
    after a shape gesture and after a text session is finalized, one undo
    puts the annotation layer back as it was before the gesture.  After
    the pen gesture and the text the undo stack is back as it was too;
    after the shape gesture it still holds one more copy of that layer. *)
Theorem one_undo_restores_layer_after_commit
  (s : ScreenshotDisplay) (down up : QPoint.t) (moves : list QPoint.t) :
  (Editor.getCurrentTool (editor s) = Editor.Pen -> shapeDrawing s = false ->
     drawingPixmap (undo (run s (gesture down moves up))) = drawingPixmap s
     /\ undoStack (undo (run s (gesture down moves up))) = undoStack s)
  /\ (isShapeTool (Editor.getCurrentTool (editor s)) = true ->
        drawingPixmap (undo (run s (gesture down moves up))) = drawingPixmap s
        /\ undoStack (undo (run s (gesture down moves up)))
           = drawingPixmap s :: undoStack s)
  /\ (forall te, textEdit s = Some te ->
        drawingPixmap (undo (finalizeTextEdit s)) = drawingPixmap s
        /\ undoStack (undo (finalizeTextEdit s)) = undoStack s
        /\ textEdit (undo (finalizeTextEdit s)) = None).
Proof.
  split; [|split].
  - intros Hpen Hsh. apply undo_top.
    apply (pen_gesture_pushes_one_snapshot s down up moves Hpen Hsh).
  - intros Htool. apply undo_top.
    assert (Hn : Editor.getCurrentTool (editor s) <> Editor.None)
      by (intros E; rewrite E in Htool; discriminate).
    assert (Ht : Editor.getCurrentTool (editor s) <> Editor.Text)
      by (intros E; rewrite E in Htool; discriminate).
    assert (Hp : Editor.getCurrentTool (editor s) <> Editor.Pen)
      by (intros E; rewrite E in Htool; discriminate).
    destruct (mousePressEvent_draw down s Hn Ht) as (Hu & Hd & Htool1 & Hs1).
    assert (Hsh1 : shapeDrawing (mousePressEvent down s) = true).
    { rewrite Hs1. destruct (Editor.getCurrentTool (editor s));
        try reflexivity; congruence. }
    destruct (moves_frame moves (mousePressEvent down s)) as (Hu' & Hs' & _ & Hd').
    unfold gesture. rewrite run_cons, run_app. cbn [step run fold_left].
    rewrite mouseReleaseEvent_undoStack.
    fold (run (mousePressEvent down s) (map MouseMove moves)).
    rewrite Hs', Hsh1, Hu', Hu, Hd' by congruence.
    rewrite Hd. reflexivity.
  - intros te Hte. unfold finalizeTextEdit, undo, saveStateForUndo.
    rewrite Hte. state_cbn. repeat split; reflexivity.
Qed.

End DrawGestures.

Lemma pen_gesture_paints_connected_segments_witness :
  Editor.getCurrentTool (editor (sample_display Editor.Pen)) = Editor.Pen
  /\ pixel
       (drawingPixmap
          (run (sample_display Editor.Pen)
             (gesture (QPoint.mk 5 5) [QPoint.mk 6 7; QPoint.mk 9 9] (QPoint.mk 50 50))))
       6 7
     = Qt_red.
Proof.
  split; [reflexivity|].
  rewrite (@pen_gesture_paints_connected_segments sample_engine
             (sample_display Editor.Pen)
             (QPoint.mk 5 5) (QPoint.mk 50 50) [QPoint.mk 6 7; QPoint.mk 9 9]
             eq_refl eq_refl eq_refl).
  reflexivity.
Defined.

Lemma shape_gesture_commits_from_anchor_to_last_move_witness :
  isShapeTool (Editor.getCurrentTool (editor (sample_display Editor.Rectangle)))
  = true
  /\ pixel
       (drawingPixmap
          (run (sample_display Editor.Rectangle)
             (gesture (QPoint.mk 5 5) ([QPoint.mk 90 90] ++ [QPoint.mk 20 30])
                (QPoint.mk 70 70))))
       20 30
     = Qt_red.
Proof.
  split; [reflexivity|].
  destruct (shape_gesture_commits_from_anchor_to_last_move
              (sample_display Editor.Rectangle) (QPoint.mk 5 5) (QPoint.mk 70 70)
              (QPoint.mk 20 30) [QPoint.mk 90 90] eq_refl eq_refl) as [_ H].
  rewrite H. reflexivity.
Defined.

(** An instance: after a line from (5,5) to (20,30), a click at (60,60)
    with the Line tool draws a line that ends at (20,30). *)
Lemma shape_click_commits_with_stale_end_point_witness :
  isShapeTool
    (Editor.getCurrentTool
       (editor
          (run (sample_display Editor.Line)
             (gesture (QPoint.mk 5 5) [QPoint.mk 20 30] (QPoint.mk 20 30)))))
  = true
  /\ drawingEnd
       (run (sample_display Editor.Line)
          (gesture (QPoint.mk 5 5) [QPoint.mk 20 30] (QPoint.mk 20 30)))
     = QPoint.mk 20 30
  /\ drawingPixmap
       (run (run (sample_display Editor.Line)
               (gesture (QPoint.mk 5 5) [QPoint.mk 20 30] (QPoint.mk 20 30)))
          (gesture (QPoint.mk 60 60) [] (QPoint.mk 60 60)))
     = paintOn
         (QPixmap_copy QRect.null
            (drawingPixmap
               (run (sample_display Editor.Line)
                  (gesture (QPoint.mk 5 5) [QPoint.mk 20 30] (QPoint.mk 20 30)))))
         [SetPen (strokePen (sample_display Editor.Line));
          DrawLine (QPoint.mk 60 60) (QPoint.mk 20 30)].
Proof.
  split; [reflexivity|]. split; [reflexivity|].
  rewrite (shape_click_commits_with_stale_end_point
             (run (sample_display Editor.Line)
                (gesture (QPoint.mk 5 5) [QPoint.mk 20 30] (QPoint.mk 20 30)))
             (QPoint.mk 60 60) (QPoint.mk 60 60) eq_refl).
  reflexivity.
Defined.

Lemma one_undo_restores_layer_after_commit_witness :
  Editor.getCurrentTool (editor (sample_display Editor.Pen)) = Editor.Pen
  /\ undoStack
       (undo
          (run (sample_display Editor.Pen)
             (gesture (QPoint.mk 5 5) [QPoint.mk 6 7] (QPoint.mk 6 7))))
     = []
  /\ isShapeTool (Editor.getCurrentTool (editor (sample_display Editor.Ellipse)))
     = true
  /\ List.length
       (undoStack
          (undo
             (run (sample_display Editor.Ellipse)
                (gesture (QPoint.mk 5 5) [QPoint.mk 6 7] (QPoint.mk 6 7)))))
     = 1%nat.
Proof.
  split; [reflexivity|].
  destruct (@one_undo_restores_layer_after_commit sample_engine
              (sample_display Editor.Pen) (QPoint.mk 5 5) (QPoint.mk 6 7)
              [QPoint.mk 6 7]) as (Hpen & _ & _).
  destruct (Hpen eq_refl eq_refl) as [_ Hstack].
  split; [rewrite Hstack; reflexivity|].
  split; [reflexivity|].
  destruct (@one_undo_restores_layer_after_commit sample_engine
              (sample_display Editor.Ellipse) (QPoint.mk 5 5) (QPoint.mk 6 7)
              [QPoint.mk 6 7]) as (_ & Hshape & _).
  destruct (Hshape eq_refl) as [_ Hstack'].
  rewrite Hstack'. reflexivity.
Defined.

(** ** The lines of a text session (finalizeTextEdit) *)

Lemma split_lines_nonempty (s : string) : split_lines s <> [].
Proof.
  destruct s as [|c rest]; cbn [split_lines]; [discriminate|].
  destruct (Ascii.eqb c newline); [discriminate|].
  destruct (split_lines rest); discriminate.
Qed.

Lemma join_split_lines (s : string) : join_lines (split_lines s) = s.
Proof.
  induction s as [|c rest IH]; [reflexivity|].
  cbn [split_lines].
  destruct (Ascii.eqb_spec c newline) as [->|Hc].
  - cbn [join_lines]. destruct (split_lines rest) eqn:E.
    + exfalso. exact (split_lines_nonempty rest E).
    + rewrite IH. reflexivity.
  - destruct (split_lines rest) as [|l ls] eqn:E.
    + exfalso. exact (split_lines_nonempty rest E).
    + cbn [join_lines] in *. destruct ls; rewrite <- IH; reflexivity.
Qed.

Lemma length_split_lines (s : string) :
  List.length (split_lines s) = S (count_newlines s).
Proof.
  induction s as [|c rest IH]; [reflexivity|].
  cbn [split_lines count_newlines].
  destruct (Ascii.eqb c newline).
  - cbn [List.length]. rewrite IH. reflexivity.
  - destruct (split_lines rest) as [|l ls] eqn:E.
    + exfalso. exact (split_lines_nonempty rest E).
    + cbn [List.length] in *. exact IH.
Qed.

Lemma split_lines_no_newline (s : string) :
  Forall (fun l => count_newlines l = 0%nat) (split_lines s).
Proof.
  induction s as [|c rest IH]; [repeat constructor|].
  cbn [split_lines].
  destruct (Ascii.eqb c newline) eqn:Hc.
  - constructor; [reflexivity | exact IH].
  - destruct (split_lines rest) as [|l ls] eqn:E.
    + repeat constructor. cbn [count_newlines]. rewrite Hc. reflexivity.
    + inversion IH as [|? ? Hl Hls]; subst.
      constructor; [|exact Hls].
      cbn [count_newlines]. rewrite Hc, Hl. reflexivity.
Qed.

Lemma drawnText_drawTextLines (h : Z) (lines : list string) :
  forall (n : nat) (x y : Z),
    drawnText (drawTextLines h (QPoint.mk x (y + Z.of_nat n * h)) lines)
    = map (fun kl => (QPoint.mk x (y + Z.of_nat (fst kl) * h), snd kl))
          (combine (seq n (List.length lines)) lines).
Proof.
  induction lines as [|l rest IH]; intros n x y; [reflexivity|].
  cbn [drawTextLines List.length seq combine map fst snd].
  unfold drawnText in *. cbn [flat_map app]. f_equal.
  unfold QPoint.setY. cbn [QPoint.x QPoint.y].
  replace (y + Z.of_nat n * h + h) with (y + Z.of_nat (S n) * h) by lia.
  apply IH.
Qed.

(** The loop over the lines of a text.  The text is split at its
    newlines into one more line than it has newlines; every line, empty
    ones included, is drawn with one [drawText], line [k] at the anchor's
    x and [k] line heights below the first baseline; no drawn line holds
    a newline, and the drawn lines joined by newlines are the text again:
    nothing is dropped. *)
Lemma drawTextLines_line_by_line (h : Z) (p : QPoint.t) (txt : string) :
  drawnText (drawTextLines h p (split_lines txt))
  = map (fun kl =>
           (QPoint.mk (QPoint.x p) (QPoint.y p + Z.of_nat (fst kl) * h), snd kl))
        (numbered (split_lines txt))
  /\ List.length (drawnText (drawTextLines h p (split_lines txt)))
     = S (count_newlines txt)
  /\ join_lines (map snd (drawnText (drawTextLines h p (split_lines txt)))) = txt
  /\ Forall (fun l => count_newlines l = 0%nat)
       (map snd (drawnText (drawTextLines h p (split_lines txt)))).
Proof.
  assert (Hdrawn :
    drawnText (drawTextLines h p (split_lines txt))
    = map (fun kl =>
             (QPoint.mk (QPoint.x p) (QPoint.y p + Z.of_nat (fst kl) * h), snd kl))
          (numbered (split_lines txt))).
  { unfold numbered. rewrite <- drawnText_drawTextLines.
    destruct p as [x y]. cbn [QPoint.x QPoint.y].
    replace (y + Z.of_nat 0 * h) with y by lia. reflexivity. }
  assert (Hsnd :
    map snd (drawnText (drawTextLines h p (split_lines txt))) = split_lines txt).
  { rewrite Hdrawn, map_map. cbn [snd]. unfold numbered.
    generalize (split_lines txt) as lines. generalize 0%nat as n.
    intros n lines. revert n.
    induction lines as [|l rest IH]; intros n; [reflexivity|].
    cbn [List.length seq combine map snd]. rewrite IH. reflexivity. }
  split; [exact Hdrawn|].
  split.
  { rewrite <- (length_map snd), Hsnd. apply length_split_lines. }
  rewrite Hsnd.
  split; [apply join_split_lines | apply split_lines_no_newline].
Qed.

Section TextLines.

Context {engine : QtPaintEngine}.

(** X13.  What [finalizeTextEdit] draws.  With a session open, whatever
    the tool, finalizing pushes the layer once, ends the session and
    paints on the layer, after setting the session's font and a pen of
    the toolbar's colour, exactly one [drawText] per line of the
    session's text split at its newlines: one more line than the text
    has newlines, empty lines included; line [k] at the anchor's x with
    its baseline at anchor-y + ascent + k * line-height of the session's
    font.  No drawn line holds a newline, and the drawn lines joined by
    newlines are the session's text again: nothing is dropped. *)
Theorem text_is_drawn_line_by_line (s : ScreenshotDisplay) (te : QTextEdit) :
  textEdit s = Some te ->
  let anchor := textEditPosition s in
  let font := te_font te in
  let cmds :=
    SetFont font
    :: SetPen (QPen_of_color (Editor.getCurrentColor (editor s)))
    :: drawTextLines (fm_height font)
         (QPoint.mk (QPoint.x anchor) (QPoint.y anchor + fm_ascent font))
         (split_lines (te_plainText te)) in
  drawingPixmap (finalizeTextEdit s) = paintOn (drawingPixmap s) cmds
  /\ undoStack (finalizeTextEdit s) = drawingPixmap s :: undoStack s
  /\ textEdit (finalizeTextEdit s) = None
  /\ drawnText cmds
     = map (fun kl =>
              (QPoint.mk (QPoint.x anchor)
                 (QPoint.y anchor + fm_ascent font
                  + Z.of_nat (fst kl) * fm_height font),
               snd kl))
           (numbered (split_lines (te_plainText te)))
  /\ List.length (drawnText cmds) = S (count_newlines (te_plainText te))
  /\ join_lines (map snd (drawnText cmds)) = te_plainText te
  /\ Forall (fun l => count_newlines l = 0%nat) (map snd (drawnText cmds)).
Proof.
  intros Hte anchor font cmds.
  destruct (drawTextLines_line_by_line (fm_height font)
              (QPoint.mk (QPoint.x anchor) (QPoint.y anchor + fm_ascent font))
              (te_plainText te)) as (Hdrawn & Hlen & Hjoin & Hnl).
  assert (Hcmds :
    drawnText cmds
    = drawnText
        (drawTextLines (fm_height font)
           (QPoint.mk (QPoint.x anchor) (QPoint.y anchor + fm_ascent font))
           (split_lines (te_plainText te)))) by reflexivity.
  split.
  { unfold finalizeTextEdit. rewrite Hte. reflexivity. }
  split.
  { unfold finalizeTextEdit. rewrite Hte. reflexivity. }
  split.
  { unfold finalizeTextEdit. rewrite Hte. reflexivity. }
  rewrite Hcmds.
  split; [exact Hdrawn|].
  split; [exact Hlen|].
  split; [exact Hjoin | exact Hnl].
Qed.

End TextLines.

(** An instance: "Hi", a newline, "you" typed at (50,50) in Arial 16 is
    drawn as two lines, the second with its baseline start at
    (50, 50 + 16 + 20). *)
Lemma text_is_drawn_line_by_line_witness :
  textEdit
    (run (sample_display Editor.Text)
       [MousePress (QPoint.mk 50 50);
        TextChanged ("Hi" ++ String newline "you")%string])
  = Some (mkTextEdit (mkFont "Arial" 16) Qt_black
            ("Hi" ++ String newline "you")%string (QPoint.mk 50 50) (Some 106))
  /\ pixel
       (drawingPixmap
          (finalizeTextEdit
             (run (sample_display Editor.Text)
                [MousePress (QPoint.mk 50 50);
                 TextChanged ("Hi" ++ String newline "you")%string])))
       50 86
     = Qt_red
  /\ List.length
       (undoStack
          (finalizeTextEdit
             (run (sample_display Editor.Text)
                [MousePress (QPoint.mk 50 50);
                 TextChanged ("Hi" ++ String newline "you")%string])))
     = 1%nat.
Proof.
  assert (Hte :
    textEdit
      (run (sample_display Editor.Text)
         [MousePress (QPoint.mk 50 50);
          TextChanged ("Hi" ++ String newline "you")%string])
    = Some (mkTextEdit (mkFont "Arial" 16) Qt_black
              ("Hi" ++ String newline "you")%string (QPoint.mk 50 50) (Some 106)))
    by reflexivity.
  split; [exact Hte|].
  destruct (@text_is_drawn_line_by_line sample_engine _ _ Hte)
    as (Hdraw & Hundo & _).
  split; [rewrite Hdraw; reflexivity | rewrite Hundo; reflexivity].
Defined.

(** ** The cursor (onToolSelected, mouseMoveEvent, cursorForHandle) *)

Section Cursor.

Context {engine : QtPaintEngine}.

(** X14.  Picking a tool sets the cross cursor (the arrow for None), but the
    next pointer-move replaces it: after a pointer-move the cursor is the
    one of the handle under the pointer, the arrow when there is none,
    whatever tool is active.  (Stated for a selection that is neither
    being dragged out nor moved, so that the rectangle stays put.) *)
Theorem pointer_move_replaces_tool_cursor
  (s : ScreenshotDisplay) (tool : Editor.Tool) (pos : QPoint.t) :
  selectionStarted s = false ->
  movingSelection s = false ->
  cursor (run s [ToolChanged tool])
  = (if Editor.tool_eqb tool Editor.None then ArrowCursor else CrossCursor)
  /\ cursor (run s [ToolChanged tool; MouseMove pos])
     = cursorForHandle (handleAtPoint (selectionRect s) pos)
  /\ (handleAtPoint (selectionRect s) pos = HandlePosition.None ->
      cursor (run s [ToolChanged tool; MouseMove pos]) = ArrowCursor).
Proof.
  intros Hs Hm.
  assert (H : cursor (run s [ToolChanged tool; MouseMove pos])
              = cursorForHandle (handleAtPoint (selectionRect s) pos)).
  { cbn [run fold_left step].
    unfold toolChanged, onToolSelected, mouseMoveEvent, updateTooltip,
      updateEditorPosition, Editor.getCurrentTool, Editor.isHidden.
    split_tests; state_cbn_in_all; try congruence; reflexivity. }
  split; [reflexivity|]. split; [exact H|].
  intros Hnone. rewrite H, Hnone. reflexivity.
Qed.

End Cursor.

Lemma pointer_move_replaces_tool_cursor_witness :
  selectionStarted (sample_display Editor.None) = false
  /\ movingSelection (sample_display Editor.None) = false
  /\ cursor (run (sample_display Editor.None) [ToolChanged Editor.Pen])
     = CrossCursor
  /\ cursor
       (run (sample_display Editor.None)
          [ToolChanged Editor.Pen; MouseMove (QPoint.mk 50 50)])
     = ArrowCursor.
Proof.
  split; [reflexivity|]. split; [reflexivity|].
  destruct (@pointer_move_replaces_tool_cursor sample_engine
              (sample_display Editor.None) Editor.Pen (QPoint.mk 50 50)
              eq_refl eq_refl) as (Hpick & _ & Hmove).
  split; [exact Hpick | apply Hmove; reflexivity].
Defined.

(** ** Files written (onSaveRequested) *)

Section Files.

Context {engine : QtPaintEngine}.

Lemma step_files (s : ScreenshotDisplay) (e : Event) :
  originalPixmap (step s e) = originalPixmap s
  /\ savedFiles (step s e)
     = map (fun path => (path, originalPixmap s)) (savedPaths [e]) ++ savedFiles s.
Proof.
  destruct e; cbn [savedPaths];
    try (split; open_handlers; split_tests; reflexivity).
  unfold step, onSaveRequested, close.
  destruct (String.eqb filePath EmptyString); split; reflexivity.
Qed.

Lemma savedPaths_app (es es' : list Event) :
  savedPaths (es ++ es') = savedPaths es ++ savedPaths es'.
Proof.
  induction es as [|e es IH]; [reflexivity|].
  destruct e; cbn [app savedPaths]; try exact IH.
  destruct (String.eqb filePath EmptyString); [exact IH|].
  cbn [app]. rewrite IH. reflexivity.
Qed.

Lemma run_files (es : list Event) :
  forall s,
    originalPixmap (run s es) = originalPixmap s
    /\ savedFiles (run s es)
       = map (fun path => (path, originalPixmap s)) (rev (savedPaths es))
         ++ savedFiles s.
Proof.
  induction es as [|e es IH]; intros s; [split; reflexivity|].
  rewrite run_cons.
  destruct (step_files s e) as [Ho Hf].
  destruct (IH (step s e)) as [Ho' Hf'].
  split; [congruence|].
  rewrite Hf', Hf, Ho.
  change (e :: es) with ([e] ++ es).
  rewrite savedPaths_app, rev_app_distr, map_app, <- app_assoc.
  f_equal. f_equal.
  destruct (savedPaths [e]) as [|a [|b l]] eqn:E; try reflexivity.
  exfalso. destruct e; cbn [savedPaths] in E; try discriminate E.
  destruct (String.eqb filePath EmptyString); discriminate E.
Qed.

(** X15.  The files the display writes, over its whole life: one per save
    request that was answered with a path, under that path, newest first,
    and each holds the image exactly as it was captured, whatever was
    drawn, typed, selected or undone in between.  No other event writes a
    file or alters the captured image. *)
Theorem saved_files_are_the_captured_image
  (pixmap : QPixmap) (ed : Editor.t) (es : list Event) :
  originalPixmap (run (ScreenshotDisplay_new pixmap ed) es) = pixmap
  /\ savedFiles (run (ScreenshotDisplay_new pixmap ed) es)
     = map (fun path => (path, pixmap)) (rev (savedPaths es)).
Proof.
  destruct (run_files es (ScreenshotDisplay_new pixmap ed)) as [Ho Hf].
  split; [exact Ho|]. rewrite Hf. cbn [originalPixmap savedFiles ScreenshotDisplay_new].
  apply app_nil_r.
Qed.

End Files.

(** ** Resizing (resizeSelection) *)

(** X16.  [resizeSelection] with the point on the near side of the opposite
    edge.  For a normalized selection, as long as no grabbed side is
    dragged more than one pixel past the side opposite to it, the sides
    the current handle takes along land on the point and the other sides
    stay where they are: a corner handle moves two sides, an edge handle
    one (the point's other coordinate plays no part), and with no
    current handle the rectangle is unchanged. *)
Theorem resize_moves_only_the_grabbed_sides
  (s : ScreenshotDisplay) (point : QPoint.t) :
  isNormalized (selectionRect s) ->
  (movesLeft (currentHandle s) = true ->
   QPoint.x point <= QRect.x2 (selectionRect s) + 1) ->
  (movesRight (currentHandle s) = true ->
   QRect.x1 (selectionRect s) - 1 <= QPoint.x point) ->
  (movesTop (currentHandle s) = true ->
   QPoint.y point <= QRect.y2 (selectionRect s) + 1) ->
  (movesBottom (currentHandle s) = true ->
   QRect.y1 (selectionRect s) - 1 <= QPoint.y point) ->
  selectionRect (resizeSelection point s)
  = QRect.mk
      (if movesLeft (currentHandle s) then QPoint.x point
       else QRect.x1 (selectionRect s))
      (if movesTop (currentHandle s) then QPoint.y point
       else QRect.y1 (selectionRect s))
      (if movesRight (currentHandle s) then QPoint.x point
       else QRect.x2 (selectionRect s))
      (if movesBottom (currentHandle s) then QPoint.y point
       else QRect.y2 (selectionRect s)).
Proof.
  intros [Hw Hh] Hl Hr Ht Hb.
  unfold QRect.width, QRect.height in *.
  unfold resizeSelection. cbn [selectionRect set_selectionRect].
  destruct (selectionRect s) as [a b c d].
  cbn [QRect.x1 QRect.y1 QRect.x2 QRect.y2] in *.
  destruct (currentHandle s);
    cbn [movesLeft movesRight movesTop movesBottom] in *;
    try specialize (Hl eq_refl); try specialize (Hr eq_refl);
    try specialize (Ht eq_refl); try specialize (Hb eq_refl);
    unfold QRect.normalized, QRect.setTopLeft, QRect.setTopRight,
      QRect.setBottomLeft, QRect.setBottomRight, QRect.setTop, QRect.setBottom,
      QRect.setLeft, QRect.setRight;
    cbn [QRect.x1 QRect.y1 QRect.x2 QRect.y2];
    repeat match goal with
           | |- context [?u <? ?v] =>
               replace (u <? v) with false by (symmetry; apply Z.ltb_ge; lia)
           end;
    reflexivity.
Qed.

Lemma resize_moves_only_the_grabbed_sides_witness :
  isNormalized
    (selectionRect
       (set_currentHandle HandlePosition.Left
          (set_selectionRect (QRect.mk 100 100 299 299)
             (sample_display Editor.None))))
  /\ selectionRect
       (resizeSelection (QPoint.mk 250 7)
          (set_currentHandle HandlePosition.Left
             (set_selectionRect (QRect.mk 100 100 299 299)
                (sample_display Editor.None))))
     = QRect.mk 250 100 299 299.
Proof.
  assert (Hn : isNormalized
                 (selectionRect
                    (set_currentHandle HandlePosition.Left
                       (set_selectionRect (QRect.mk 100 100 299 299)
                          (sample_display Editor.None)))))
    by (split; vm_compute; discriminate).
  split; [exact Hn|].
  rewrite (resize_moves_only_the_grabbed_sides _ (QPoint.mk 250 7) Hn);
    try reflexivity; cbn; intros; try discriminate; lia.
Defined.

(** ** The colour of the text field (mousePressEvent, initializeEditor) *)

Section TextColour.

Context {engine : QtPaintEngine}.

Lemma step_session_colour (s : ScreenshotDisplay) (e : Event) :
  sessionColourIsBlack s -> sessionColourIsBlack (step s e).
Proof.
  intros [Hcol Hsess]. unfold sessionColourIsBlack in *.
  destruct e; open_handlers; split_tests; state_cbn;
    (split;
     [ exact Hcol
     | intros te' Hte'; state_cbn_in_all;
       try discriminate Hte';
       try (apply Hsess; congruence) ]).
  all: repeat match goal with
              | H : Some _ = Some _ |- _ => injection H as H; subst
              end;
    state_cbn;
    first [ exact Hcol | apply Hsess; congruence ].
Qed.

(** X17.  The colour picked on the toolbar never reaches the text field.  The
    display's own [currentColor] is black from construction on and no
    handler assigns it (the slot for the toolbar's colour change only
    repaints), so every text field ever opened shows black text, while
    [finalizeTextEdit] paints the text with the toolbar's current
    colour. *)
Theorem text_field_colour_stays_black
  (pixmap : QPixmap) (ed : Editor.t) (es : list Event) :
  sessionColourIsBlack (run (ScreenshotDisplay_new pixmap ed) es).
Proof.
  assert (H : forall es s, sessionColourIsBlack s -> sessionColourIsBlack (run s es)).
  { clear es. induction es as [|e es IH]; intros s Hs; [exact Hs|].
    rewrite run_cons. apply IH. apply step_session_colour. exact Hs. }
  apply H. split; [reflexivity|]. intros te Hte. discriminate Hte.
Qed.

End TextColour.
